(** * Data-analytics portfolio: the clean / engineer-features / report pipelines

    A shallow embedding of the preprocessing scripts of the three case
    studies (Airbnb listings, Telco churn, Instacart baskets), and the
    properties of their stages.

    The program:
    - [Pd]         the dataframe-library operations the scripts call
                   (scalars, comparisons, [cut], [quantile], [median],
                   [to_numeric], [nunique]), and the interpreter the
                   scripts run in: a heap of dataframe objects, console
                   output and exceptions;
    - [Telco]      Telco-Customer-Churn/scripts/data_preprocessing.py;
    - [Airbnb]     Optimizing-Airbnb-Listings-for-Higher-Revenue/scripts/
                   data_preprocessing.py;
    - [Instacart]  instacart-insights-4p-analytics/scripts/
                   data_preprocessing.py;
    - [Summary]    the weekend analysis of generate_executive_summary in
                   scripts/complete_4p_analysis.py and
                   scripts/instacart_analysis_demo.py;
    - [Master]     the hour categories and the customer segments of
                   create_master_dataset in the same two scripts.

    For the statements:
    - [Rowwise]    what each stage makes of one row, as closed
                   expressions;
    - [Effects]    which objects of the heap a statement sequence writes;
    - [Examples]   small frames.

    Numbers.  An int64 / float64 scalar is a [num]: a finite value is
    the exact rational it denotes, next to NaN and the two infinities.
    Comparisons are therefore exact; the rounding of float arithmetic
    (in [quantile], [median] and the ratios) is not represented.

    Dataframes.  A dataframe with a known schema is a list of rows, each
    row a record with one field per column; a column that a stage adds
    is an [option] field, [None] until the stage assigns it.  Variables
    of the scripts hold references into the heap, so that an assignment
    to a column of an object is seen through every reference to it.

    Library behaviour is that of the pandas 1.x / 2.x line the scripts
    were written for: [series.fillna(..., inplace=True)] on a column
    taken from a frame writes into the frame. *)

From Stdlib Require Import ZArith QArith Qround Qabs Lqa Lia List Bool Ascii String.
From Stdlib Require Import Sorted.
From stdpp Require Import base list strings pretty.
Import ListNotations.

Local Open Scope Z_scope.
Local Open Scope string_scope.

(* ===================================================================== *)
(** * The dataframe library and the interpreter                           *)
(* ===================================================================== *)

Module Pd.

(** ** Scalars *)

(** A float64 (or int64) value. *)
Inductive num : Type :=
| NaN
| NInf
| Fin (q : Q)
| PInf.

(** A cell of a text column: [None] is the missing value. *)
Definition str : Type := option string.

Definition Qltb (a b : Q) : bool :=
  match Qcompare a b with Lt => true | _ => false end.

Definition of_Z (z : Z) : num := Fin (inject_Z z).

Definition isna (x : num) : bool :=
  match x with NaN => true | _ => false end.

Definition notna (x : num) : bool := negb (isna x).

(** [a == b] of the interpreter: NaN is equal to nothing. *)
Definition eqb (a b : num) : bool :=
  match a, b with
  | NInf, NInf => true
  | PInf, PInf => true
  | Fin x, Fin y => Qeq_bool x y
  | _, _ => false
  end.

(** [a < b]: false as soon as one side is NaN. *)
Definition ltb (a b : num) : bool :=
  match a, b with
  | NaN, _ | _, NaN => false
  | NInf, NInf => false
  | NInf, _ => true
  | _, NInf => false
  | PInf, _ => false
  | Fin _, PInf => true
  | Fin x, Fin y => Qltb x y
  end.

(** [a <= b]. *)
Definition leb (a b : num) : bool :=
  match a, b with
  | NaN, _ | _, NaN => false
  | NInf, _ => true
  | _, NInf => false
  | _, PInf => true
  | PInf, _ => false
  | Fin x, Fin y => Qle_bool x y
  end.

(** [a > b] and [a >= b] are the same comparisons with the sides swapped. *)
Definition gtb (a b : num) : bool := ltb b a.
Definition geb (a b : num) : bool := leb b a.

(** Equality as [drop_duplicates] and [nunique] see it: two missing
    values count as the same value. *)
Definition same (a b : num) : bool :=
  match a, b with
  | NaN, NaN => true
  | _, _ => eqb a b
  end.

Definition str_same (a b : str) : bool :=
  match a, b with
  | None, None => true
  | Some x, Some y => String.eqb x y
  | _, _ => false
  end.

Definition str_isna (a : str) : bool :=
  match a with None => true | Some _ => false end.

(** [cell == 'literal']: a missing cell is equal to no text. *)
Definition str_is (a : str) (lit : string) : bool :=
  match a with
  | Some x => String.eqb x lit
  | None => false
  end.

(** ** Arithmetic, with the IEEE special cases *)

Definition neg (a : num) : num :=
  match a with
  | NaN => NaN
  | NInf => PInf
  | PInf => NInf
  | Fin x => Fin (- x)
  end.

Definition add (a b : num) : num :=
  match a, b with
  | NaN, _ | _, NaN => NaN
  | PInf, NInf | NInf, PInf => NaN
  | PInf, _ | _, PInf => PInf
  | NInf, _ | _, NInf => NInf
  | Fin x, Fin y => Fin (x + y)
  end.

Definition sub (a b : num) : num := add a (neg b).

(** Sign of a finite value: [Lt], [Eq] or [Gt] against zero. *)
Definition Qsign (x : Q) : comparison := Qcompare x 0.

Definition inf_of_sign (positive : bool) : num :=
  if positive then PInf else NInf.

Definition inf_times (positive : bool) (b : num) : num :=
  match b with
  | NaN => NaN
  | PInf => inf_of_sign positive
  | NInf => inf_of_sign (negb positive)
  | Fin y =>
      match Qsign y with
      | Eq => NaN
      | Gt => inf_of_sign positive
      | Lt => inf_of_sign (negb positive)
      end
  end.

Definition mul (a b : num) : num :=
  match a, b with
  | NaN, _ | _, NaN => NaN
  | PInf, _ => inf_times true b
  | NInf, _ => inf_times false b
  | _, PInf => inf_times true a
  | _, NInf => inf_times false a
  | Fin x, Fin y => Fin (x * y)
  end.

(** Array division: a zero divisor gives an infinity or NaN, never an
    exception. *)
Definition div (a b : num) : num :=
  match a, b with
  | NaN, _ | _, NaN => NaN
  | Fin x, Fin y =>
      match Qsign y with
      | Eq =>
          match Qsign x with
          | Eq => NaN
          | Gt => PInf
          | Lt => NInf
          end
      | _ => Fin (x / y)
      end
  | Fin _, _ => Fin 0
  | _, Fin y =>
      match Qsign y with
      | Lt => neg a
      | _ => a
      end
  | _, _ => NaN
  end.

(** Array floor division [a // b]. *)
Definition floordiv (a b : num) : num :=
  match div a b with
  | Fin x => Fin (inject_Z (Qfloor x))
  | _ => NaN
  end.

(** ** Exceptions *)

(** The exceptions of the scripts' runs; [ReferenceError] stands for the
    use of a reference that names no object, which no script does. *)
Inductive exn : Type :=
| ValueError (msg : string)
| TypeError (msg : string)
| KeyError (key : string)
| FileNotFoundError (path : string)
| ReferenceError.

(** ** Series reductions *)

Fixpoint insert_sorted (x : num) (l : list num) : list num :=
  match l with
  | [] => [x]
  | y :: l' => if leb x y then x :: l else y :: insert_sorted x l'
  end.

Definition sort (l : list num) : list num :=
  foldr insert_sorted [] l.

Definition dropna (l : list num) : list num := List.filter notna l.

Definition nth_num (l : list num) (i : nat) : num := nth i l NaN.

(** [Series.quantile(q)], linear interpolation between the two closest
    ranks of the non-missing values; NaN for an empty series. *)
Definition quantile (q : Q) (s : list num) : num :=
  let v := sort (dropna s) in
  match v with
  | [] => NaN
  | _ =>
      let pos := (q * inject_Z (Z.of_nat (length v) - 1))%Q in
      let lo := Z.to_nat (Qfloor pos) in
      let hi := Nat.min (S lo) (length v - 1) in
      let frac := (pos - inject_Z (Qfloor pos))%Q in
      add (nth_num v lo) (mul (sub (nth_num v hi) (nth_num v lo)) (Fin frac))
  end.

(** [Series.median()], missing values skipped. *)
Definition median (s : list num) : num :=
  let v := sort (dropna s) in
  let n := length v in
  match n with
  | O => NaN
  | _ =>
      if Nat.even n
      then div (add (nth_num v (n / 2 - 1)) (nth_num v (n / 2))) (Fin 2)
      else nth_num v (n / 2)
  end.

Definition fillna (d : num) (x : num) : num :=
  if isna x then d else x.

(** ** [cut]: bucketing by explicit bin edges *)

Fixpoint monotonic (bins : list num) : bool :=
  match bins with
  | a :: (b :: _) as rest => leb a b && monotonic rest
  | _ => true
  end.

Fixpoint unique_by {A} (eq : A -> A -> bool) (l : list A) : bool :=
  match l with
  | [] => true
  | x :: l' => negb (existsb (eq x) l') && unique_by eq l'
  end.

(** The checks [cut] makes on its arguments before it looks at a value:
    the edges must not decrease; with the default [duplicates='raise'] a
    repeated edge is refused (unless there are just two edges); the
    labels must be distinct and one fewer than the edges.  Of each
    message only the first clause is kept. *)
Definition cut_check (bins : list num) (labels : list string) : option exn :=
  if negb (monotonic bins)
  then Some (ValueError "bins must increase monotonically.")
  else if negb (unique_by same bins) && negb (length bins =? 2)%nat
  then Some (ValueError "Bin edges must be unique")
  else if negb (unique_by String.eqb labels)
  then Some (ValueError "labels must be unique if ordered=True")
  else if negb (length labels =? length bins - 1)%nat
  then Some (ValueError "Bin labels must be one fewer than the number of bin edges")
  else None.

(** Number of edges strictly below [x]: [searchsorted(x, side='left')]. *)
Definition searchsorted_left (bins : list num) (x : num) : nat :=
  length (List.filter (fun b => ltb b x) bins).

(** The bucket of one value under right-closed intervals
    [(e0, e1], (e1, e2], ...]; [include_lowest] also admits [e0]. *)
Definition cut1 (bins : list num) (labels : list string)
    (include_lowest : bool) (x : num) : str :=
  if isna x then None
  else
    let i := searchsorted_left bins x in
    let i := if include_lowest && eqb x (nth_num bins 0) then 1%nat else i in
    if (i =? 0)%nat || (i =? length bins)%nat then None
    else labels !! (i - 1)%nat.

Definition cut (x : list num) (bins : list num) (labels : list string)
    (include_lowest : bool) : exn + list str :=
  match cut_check bins labels with
  | Some e => inl e
  | None => inr (map (cut1 bins labels include_lowest) x)
  end.

(** ** [to_numeric]: parsing text cells *)

(** A cell of an object column: text, or a number stored as an object. *)
Inductive pyobj : Type :=
| Txt (s : string)
| Val (x : num).

Definition is_txt (o : pyobj) : bool :=
  match o with Txt _ => true | Val _ => false end.

(** The dtype of a column as the reader infers it: [object] as soon as
    one cell is text. *)
Definition dtype_is_object (col : list pyobj) : bool := existsb is_txt col.

Definition is_space (c : ascii) : bool :=
  let n := nat_of_ascii c in (n =? 32)%nat || ((9 <=? n)%nat && (n <=? 13)%nat).

Definition digit_of (c : ascii) : option Z :=
  let n := nat_of_ascii c in
  if (48 <=? n)%nat && (n <=? 57)%nat then Some (Z.of_nat n - 48) else None.

(** Reads a run of decimal digits: its value on top of [acc], how many
    digits were read, and the rest of the input. *)
Fixpoint read_digits (l : list ascii) (acc : Z) (count : nat)
    : Z * nat * list ascii :=
  match l with
  | c :: l' =>
      match digit_of c with
      | Some d => read_digits l' (10 * acc + d) (S count)
      | None => (acc, count, l)
      end
  | [] => (acc, count, l)
  end.

Definition read_sign (l : list ascii) : bool * list ascii :=
  match l with
  | "-"%char :: l' => (true, l')
  | "+"%char :: l' => (false, l')
  | _ => (false, l)
  end.

Fixpoint skip_spaces (l : list ascii) : list ascii :=
  match l with
  | c :: l' => if is_space c then skip_spaces l' else l
  | [] => []
  end.

Definition read_exponent (l : list ascii) : option (Z * list ascii) :=
  match l with
  | c :: l' =>
      if Ascii.eqb c "e" || Ascii.eqb c "E" then
        let '(negative, l1) := read_sign l' in
        let '(e, count, l2) := read_digits l1 0 0 in
        match count with
        | O => None
        | _ => Some (if negative then - e else e, l2)
        end
      else Some (0, l)
  | [] => Some (0, l)
  end.

(** A decimal numeral: blanks, sign, digits with an optional fraction,
    an optional exponent, blanks. *)
Definition parse_decimal (l : list ascii) : option Q :=
  let '(negative, l1) := read_sign (skip_spaces l) in
  let '(ip, icount, l2) := read_digits l1 0 0 in
  let '(fp, fcount, l3) :=
    match l2 with
    | "."%char :: l2' => read_digits l2' 0 0
    | _ => (0, O, l2)
    end in
  match (icount + fcount)%nat with
  | O => None
  | _ =>
      match read_exponent l3 with
      | None => None
      | Some (e, l4) =>
          match skip_spaces l4 with
          | [] =>
              let mant :=
                (inject_Z ip + inject_Z fp / inject_Z (10 ^ Z.of_nat fcount))%Q in
              let v := (mant * Qpower 10 e)%Q in
              Some (if negative then (- v)%Q else v)
          | _ => None
          end
      end
  end.

Definition lower (c : ascii) : ascii :=
  let n := nat_of_ascii c in
  if (65 <=? n)%nat && (n <=? 90)%nat then ascii_of_nat (n + 32) else c.

Definition lowercase (s : string) : string :=
  string_of_list_ascii (map lower (list_ascii_of_string s)).

(** The spellings of infinity the parser falls back to. *)
Definition parse_infinity (s : string) : option num :=
  let t := lowercase s in
  if String.eqb t "inf" || String.eqb t "+inf"
     || String.eqb t "infinity" || String.eqb t "+infinity" then Some PInf
  else if String.eqb t "-inf" || String.eqb t "-infinity" then Some NInf
  else None.

(** What [to_numeric] makes of one text cell: the empty text is a
    missing value, a numeral its value, anything else does not parse. *)
Definition parse_float (s : string) : option num :=
  if String.eqb s EmptyString then Some NaN
  else
    match parse_decimal (list_ascii_of_string s) with
    | Some q => Some (Fin q)
    | None => parse_infinity s
    end.

(** The double quote character, for messages. *)
Definition quote : string := String (ascii_of_nat 34) EmptyString.

(** [Unable to parse string "s" at position i] *)
Definition unable_to_parse (s : string) (i : nat) : string :=
  "Unable to parse string " ++ quote ++ s ++ quote ++ " at position "
  ++ pretty i.

(** [to_numeric(series)] with its default [errors='raise']: the first
    cell that does not parse raises; [i] is the position of the head of
    [col] in the series. *)
Fixpoint to_numeric_from (i : nat) (col : list pyobj) : exn + list num :=
  match col with
  | [] => inr []
  | o :: col' =>
      match o with
      | Val x =>
          match to_numeric_from (S i) col' with
          | inr r => inr (x :: r)
          | inl e => inl e
          end
      | Txt s =>
          match parse_float s with
          | None => inl (ValueError (unable_to_parse s i))
          | Some x =>
              match to_numeric_from (S i) col' with
              | inr r => inr (x :: r)
              | inl e => inl e
              end
          end
      end
  end.

Definition to_numeric (col : list pyobj) : exn + list num :=
  to_numeric_from 0 col.

(** [series.replace(' ', nan)]: only the cell that is exactly one blank. *)
Definition replace_blank (o : pyobj) : pyobj :=
  match o with
  | Txt s => if String.eqb s " " then Val NaN else o
  | Val _ => o
  end.

(** Arithmetic on an object column raises on a text cell. *)
Fixpoint as_floats (col : list pyobj) : exn + list num :=
  match col with
  | [] => inr []
  | Txt _ :: _ => inl (TypeError "unsupported operand type(s): 'str'")
  | Val x :: col' =>
      match as_floats col' with
      | inr r => inr (x :: r)
      | inl e => inl e
      end
  end.

Definition pyobj_same (a b : pyobj) : bool :=
  match a, b with
  | Txt x, Txt y => String.eqb x y
  | Val x, Val y => same x y
  | _, _ => false
  end.

(** 1 for a column that has been assigned, 0 otherwise. *)
Definition assigned {A} (o : option A) : nat :=
  match o with Some _ => 1%nat | None => 0%nat end.

Definition opt_same {A} (eq : A -> A -> bool) (a b : option A) : bool :=
  match a, b with
  | None, None => true
  | Some x, Some y => eq x y
  | _, _ => false
  end.

(** ** Rows: duplicates, masks, distinct values *)

(** Keeps the first of every group of rows that [eq] identifies. *)
Fixpoint drop_duplicates_from {A} (eq : A -> A -> bool) (seen : list A)
    (l : list A) : list A :=
  match l with
  | [] => []
  | x :: l' =>
      if existsb (eq x) seen then drop_duplicates_from eq seen l'
      else x :: drop_duplicates_from eq (seen ++ [x]) l'
  end.

Definition drop_duplicates_by {A} (eq : A -> A -> bool) (l : list A) : list A :=
  drop_duplicates_from eq [] l.

(** [df[mask]]: the rows whose mask entry is true. *)
Fixpoint select {A} (mask : list bool) (l : list A) : list A :=
  match mask, l with
  | b :: mask', x :: l' => if b then x :: select mask' l' else select mask' l'
  | _, _ => []
  end.

(** [series.nunique()]: the number of distinct non-missing values. *)
Definition nunique (s : list num) : nat :=
  length (drop_duplicates_by same (dropna s)).

(** [series.nunique()] of a text column. *)
Definition str_nunique (s : list str) : nat :=
  length (drop_duplicates_by String.eqb (omap id s)).

(** ** [cut] with a number of equal-width bins *)

Definition min_of (v : list num) : num :=
  match sort (dropna v) with
  | [] => NaN
  | x :: _ => x
  end.

Definition max_of (v : list num) : num :=
  match rev (sort (dropna v)) with
  | [] => NaN
  | x :: _ => x
  end.


(** [linspace(mn, mx, nbins + 1)] *)
Definition linspace (mn mx : Q) (nbins : nat) : list Q :=
  map (fun i => (mn + inject_Z (Z.of_nat i) * (mx - mn) / inject_Z (Z.of_nat nbins))%Q)
      (seq 0 (S nbins)).

(** The edges for [nbins] equal-width bins over the range of the data:
    the range is widened by 0.1% on the left so that the minimum falls
    into the first bin, or on both sides when all values are equal. *)
Definition nbins_to_bins (x : list num) (nbins : nat) : exn + list num :=
  match x with
  | [] => inl (ValueError "Cannot cut empty array")
  | _ =>
      match min_of x, max_of x with
      | Fin mn, Fin mx =>
          if Qeq_bool mn mx then
            let pad (v : Q) : Q :=
              if Qeq_bool v 0 then (1 # 1000)%Q else ((1 # 1000) * Qabs v)%Q in
            inr (map Fin (linspace (mn - pad mn) (mx + pad mx) nbins))
          else
            let adj := ((mx - mn) * (1 # 1000))%Q in
            match linspace mn mx nbins with
            | first :: rest => inr (map Fin ((first - adj)%Q :: rest))
            | [] => inr []
            end
      | NaN, _ | _, NaN => inl (ValueError "Bin edges must be unique")
      | _, _ =>
          inl (ValueError
                 "cannot specify integer `bins` when input data contains infinity")
      end
  end.

Definition cut_nbins (x : list num) (nbins : nat) (labels : list string)
    : exn + list str :=
  match nbins_to_bins x nbins with
  | inl e => inl e
  | inr bins => cut x bins labels false
  end.

(** ** Number formatting *)

Fixpoint group_thousands (digits_rev : list ascii) (run : nat) : list ascii :=
  match digits_rev with
  | [] => []
  | c :: rest =>
      match rest with
      | [] => [c]
      | _ =>
          if (run =? 2)%nat then c :: ","%char :: group_thousands rest 0
          else c :: group_thousands rest (S run)
      end
  end.

(** The format [{n:,}]. *)
Definition with_commas (n : nat) : string :=
  string_of_list_ascii
    (rev (group_thousands (rev (list_ascii_of_string (pretty n))) 0)).

(** ** The interpreter: heap of dataframe objects, console, exceptions *)

Definition loc : Type := nat.

Record state (F : Type) : Type := State {
  heap : list F;
  stdout : list string
}.
Arguments State {F} _ _.
Arguments heap {F} _.
Arguments stdout {F} _.

(** A statement sequence: it runs from a state, leaves a state (also
    when it raises), and either raises or yields a value. *)
Definition M (F A : Type) : Type := state F -> state F * (exn + A).

Section Interp.
Context {F : Type}.

Definition ret {A} (a : A) : M F A := fun s => (s, inr a).

Definition bind {A B} (m : M F A) (k : A -> M F B) : M F B :=
  fun s =>
    match m s with
    | (s', inr a) => k a s'
    | (s', inl e) => (s', inl e)
    end.

Definition raise {A} (e : exn) : M F A := fun s => (s, inl e).

(** A library call that may raise but touches no object. *)
Definition lift {A} (r : exn + A) : M F A := fun s => (s, r).

Definition print (line : string) : M F unit :=
  fun s => (State (heap s) (stdout s ++ [line]), inr tt).

(** Builds a new object and yields the reference to it. *)
Definition alloc (f : F) : M F loc :=
  fun s => (State (heap s ++ [f]) (stdout s), inr (length (heap s))).

Definition load (l : loc) : M F F :=
  fun s =>
    match heap s !! l with
    | Some f => (s, inr f)
    | None => (s, inl ReferenceError)
    end.

(** Assignment into the object behind [l]. *)
Definition modify (l : loc) (g : F -> F) : M F unit :=
  fun s =>
    match heap s !! l with
    | Some f => (State (<[l := g f]> (heap s)) (stdout s), inr tt)
    | None => (s, inl ReferenceError)
    end.

(** [df.copy()] *)
Definition copy (l : loc) : M F loc := bind (load l) alloc.
End Interp.

#[global] Instance M_ret {F} : MRet (M F) := fun A => @ret F A.
#[global] Instance M_bind {F} : MBind (M F) := fun A B k m => @bind F A B m k.

(** Dataframe objects: a frame is the list of its rows. *)
Section Frames.
Context {R : Type}.

(** [df[name]] for a column of the schema. *)
Definition getcol {A} (l : loc) (proj : R -> A) : M (list R) (list A) :=
  f ← load l; mret (map proj f).

Fixpoint present {A} (name : string) (col : list (option A))
    : exn + list A :=
  match col with
  | [] => inr []
  | None :: _ => inl (KeyError name)
  | Some x :: col' =>
      match present name col' with
      | inr r => inr (x :: r)
      | inl e => inl e
      end
  end.

(** [df[name]] for a column that a stage adds: a key error while the
    column is not assigned. *)
Definition getcol_added {A} (l : loc) (name : string)
    (proj : R -> option A) : M (list R) (list A) :=
  f ← load l; lift (present name (map proj f)).

(** [df[name] = series], the series aligned with the rows. *)
Definition setcol {A} (l : loc) (set : A -> R -> R) (series : list A)
    : M (list R) unit :=
  modify l (zip_with set series).

(** [df[mask]] and the like: a new object with the chosen rows. *)
Definition derive (l : loc) (g : list R -> list R) : M (list R) loc :=
  f ← load l; alloc (g f).
End Frames.

End Pd.

(* ===================================================================== *)
(** * Telco-Customer-Churn/scripts/data_preprocessing.py                  *)
(* ===================================================================== *)

Module Telco.
Import Pd.

(** The columns of the raw churn dataset. *)
Record Customer : Type := {
  customerID : str;
  gender : str;
  SeniorCitizen : num;
  Partner : str;
  Dependents : str;
  tenure : num;
  PhoneService : str;
  MultipleLines : str;
  InternetService : str;
  OnlineSecurity : str;
  OnlineBackup : str;
  DeviceProtection : str;
  TechSupport : str;
  StreamingTV : str;
  StreamingMovies : str;
  Contract : str;
  PaperlessBilling : str;
  PaymentMethod : str;
  MonthlyCharges : num;
  TotalCharges : pyobj;
  Churn : str
}.

(** The columns engineer_features adds, [None] while not yet assigned. *)
Record Features : Type := {
  Is_Senior : option string;
  Tenure_Group : option str;
  High_Charges : option string;
  Service_Count : option Z;
  Monthly_to_Total_Ratio : option num;
  Has_Partner_Dependents : option string;
  Internet_Plus_Streaming : option string;
  Risk_Score : option Z;
  Risk_Category : option str
}.

Record Row : Type := { base : Customer; feat : Features }.

Abbreviation DataFrame := (list Row).

Definition no_features : Features :=
  {| Is_Senior := None; Tenure_Group := None; High_Charges := None;
     Service_Count := None; Monthly_to_Total_Ratio := None;
     Has_Partner_Dependents := None; Internet_Plus_Streaming := None;
     Risk_Score := None; Risk_Category := None |}.

(** *** Column assignment [df[name] = series], one setter per column *)

Definition set_TotalCharges (v : pyobj) (r : Row) : Row :=
  let c := base r in
  {| base :=
       {| customerID := customerID c; gender := gender c;
          SeniorCitizen := SeniorCitizen c; Partner := Partner c;
          Dependents := Dependents c; tenure := tenure c;
          PhoneService := PhoneService c; MultipleLines := MultipleLines c;
          InternetService := InternetService c;
          OnlineSecurity := OnlineSecurity c; OnlineBackup := OnlineBackup c;
          DeviceProtection := DeviceProtection c; TechSupport := TechSupport c;
          StreamingTV := StreamingTV c; StreamingMovies := StreamingMovies c;
          Contract := Contract c; PaperlessBilling := PaperlessBilling c;
          PaymentMethod := PaymentMethod c; MonthlyCharges := MonthlyCharges c;
          TotalCharges := v; Churn := Churn c |};
     feat := feat r |}.

Definition with_feat (g : Features -> Features) (r : Row) : Row :=
  {| base := base r; feat := g (feat r) |}.

Definition set_Is_Senior (v : string) : Row -> Row :=
  with_feat (fun f =>
    {| Is_Senior := Some v; Tenure_Group := Tenure_Group f;
       High_Charges := High_Charges f; Service_Count := Service_Count f;
       Monthly_to_Total_Ratio := Monthly_to_Total_Ratio f;
       Has_Partner_Dependents := Has_Partner_Dependents f;
       Internet_Plus_Streaming := Internet_Plus_Streaming f;
       Risk_Score := Risk_Score f; Risk_Category := Risk_Category f |}).

Definition set_Tenure_Group (v : str) : Row -> Row :=
  with_feat (fun f =>
    {| Is_Senior := Is_Senior f; Tenure_Group := Some v;
       High_Charges := High_Charges f; Service_Count := Service_Count f;
       Monthly_to_Total_Ratio := Monthly_to_Total_Ratio f;
       Has_Partner_Dependents := Has_Partner_Dependents f;
       Internet_Plus_Streaming := Internet_Plus_Streaming f;
       Risk_Score := Risk_Score f; Risk_Category := Risk_Category f |}).

Definition set_High_Charges (v : string) : Row -> Row :=
  with_feat (fun f =>
    {| Is_Senior := Is_Senior f; Tenure_Group := Tenure_Group f;
       High_Charges := Some v; Service_Count := Service_Count f;
       Monthly_to_Total_Ratio := Monthly_to_Total_Ratio f;
       Has_Partner_Dependents := Has_Partner_Dependents f;
       Internet_Plus_Streaming := Internet_Plus_Streaming f;
       Risk_Score := Risk_Score f; Risk_Category := Risk_Category f |}).

Definition set_Service_Count (v : Z) : Row -> Row :=
  with_feat (fun f =>
    {| Is_Senior := Is_Senior f; Tenure_Group := Tenure_Group f;
       High_Charges := High_Charges f; Service_Count := Some v;
       Monthly_to_Total_Ratio := Monthly_to_Total_Ratio f;
       Has_Partner_Dependents := Has_Partner_Dependents f;
       Internet_Plus_Streaming := Internet_Plus_Streaming f;
       Risk_Score := Risk_Score f; Risk_Category := Risk_Category f |}).

Definition set_Monthly_to_Total_Ratio (v : num) : Row -> Row :=
  with_feat (fun f =>
    {| Is_Senior := Is_Senior f; Tenure_Group := Tenure_Group f;
       High_Charges := High_Charges f; Service_Count := Service_Count f;
       Monthly_to_Total_Ratio := Some v;
       Has_Partner_Dependents := Has_Partner_Dependents f;
       Internet_Plus_Streaming := Internet_Plus_Streaming f;
       Risk_Score := Risk_Score f; Risk_Category := Risk_Category f |}).

Definition set_Has_Partner_Dependents (v : string) : Row -> Row :=
  with_feat (fun f =>
    {| Is_Senior := Is_Senior f; Tenure_Group := Tenure_Group f;
       High_Charges := High_Charges f; Service_Count := Service_Count f;
       Monthly_to_Total_Ratio := Monthly_to_Total_Ratio f;
       Has_Partner_Dependents := Some v;
       Internet_Plus_Streaming := Internet_Plus_Streaming f;
       Risk_Score := Risk_Score f; Risk_Category := Risk_Category f |}).

Definition set_Internet_Plus_Streaming (v : string) : Row -> Row :=
  with_feat (fun f =>
    {| Is_Senior := Is_Senior f; Tenure_Group := Tenure_Group f;
       High_Charges := High_Charges f; Service_Count := Service_Count f;
       Monthly_to_Total_Ratio := Monthly_to_Total_Ratio f;
       Has_Partner_Dependents := Has_Partner_Dependents f;
       Internet_Plus_Streaming := Some v;
       Risk_Score := Risk_Score f; Risk_Category := Risk_Category f |}).

Definition set_Risk_Score (v : Z) : Row -> Row :=
  with_feat (fun f =>
    {| Is_Senior := Is_Senior f; Tenure_Group := Tenure_Group f;
       High_Charges := High_Charges f; Service_Count := Service_Count f;
       Monthly_to_Total_Ratio := Monthly_to_Total_Ratio f;
       Has_Partner_Dependents := Has_Partner_Dependents f;
       Internet_Plus_Streaming := Internet_Plus_Streaming f;
       Risk_Score := Some v; Risk_Category := Risk_Category f |}).

Definition set_Risk_Category (v : str) : Row -> Row :=
  with_feat (fun f =>
    {| Is_Senior := Is_Senior f; Tenure_Group := Tenure_Group f;
       High_Charges := High_Charges f; Service_Count := Service_Count f;
       Monthly_to_Total_Ratio := Monthly_to_Total_Ratio f;
       Has_Partner_Dependents := Has_Partner_Dependents f;
       Internet_Plus_Streaming := Internet_Plus_Streaming f;
       Risk_Score := Risk_Score f; Risk_Category := Some v |}).

(** *** drop_duplicates: two rows are duplicates when all cells agree *)

Definition customer_same (a b : Customer) : bool :=
  str_same (customerID a) (customerID b)
  && str_same (gender a) (gender b)
  && same (SeniorCitizen a) (SeniorCitizen b)
  && str_same (Partner a) (Partner b)
  && str_same (Dependents a) (Dependents b)
  && same (tenure a) (tenure b)
  && str_same (PhoneService a) (PhoneService b)
  && str_same (MultipleLines a) (MultipleLines b)
  && str_same (InternetService a) (InternetService b)
  && str_same (OnlineSecurity a) (OnlineSecurity b)
  && str_same (OnlineBackup a) (OnlineBackup b)
  && str_same (DeviceProtection a) (DeviceProtection b)
  && str_same (TechSupport a) (TechSupport b)
  && str_same (StreamingTV a) (StreamingTV b)
  && str_same (StreamingMovies a) (StreamingMovies b)
  && str_same (Contract a) (Contract b)
  && str_same (PaperlessBilling a) (PaperlessBilling b)
  && str_same (PaymentMethod a) (PaymentMethod b)
  && same (MonthlyCharges a) (MonthlyCharges b)
  && pyobj_same (TotalCharges a) (TotalCharges b)
  && str_same (Churn a) (Churn b).

Definition features_same (a b : Features) : bool :=
  opt_same String.eqb (Is_Senior a) (Is_Senior b)
  && opt_same str_same (Tenure_Group a) (Tenure_Group b)
  && opt_same String.eqb (High_Charges a) (High_Charges b)
  && opt_same Z.eqb (Service_Count a) (Service_Count b)
  && opt_same same (Monthly_to_Total_Ratio a) (Monthly_to_Total_Ratio b)
  && opt_same String.eqb (Has_Partner_Dependents a) (Has_Partner_Dependents b)
  && opt_same String.eqb (Internet_Plus_Streaming a) (Internet_Plus_Streaming b)
  && opt_same Z.eqb (Risk_Score a) (Risk_Score b)
  && opt_same str_same (Risk_Category a) (Risk_Category b).

Definition row_same (a b : Row) : bool :=
  customer_same (base a) (base b) && features_same (feat a) (feat b).

Definition drop_duplicates (df : DataFrame) : DataFrame :=
  drop_duplicates_by row_same df.

(** *** [df.shape] as the f-string prints it *)

Definition added_columns (f : Features) : nat :=
  (assigned (Is_Senior f) + assigned (Tenure_Group f) + assigned (High_Charges f)
   + assigned (Service_Count f) + assigned (Monthly_to_Total_Ratio f)
   + assigned (Has_Partner_Dependents f) + assigned (Internet_Plus_Streaming f)
   + assigned (Risk_Score f) + assigned (Risk_Category f))%nat.

(** The 21 raw columns and the added ones (read off the first row; a
    frame without rows is printed with the raw columns only). *)
Definition shape (df : DataFrame) : string :=
  let cols :=
    match df with
    | r :: _ => (21 + added_columns (feat r))%nat
    | [] => 21%nat
    end in
  "(" ++ pretty (length df) ++ ", " ++ pretty cols ++ ")".

(** *** TelcoDataPreprocessor.clean_data *)

Definition clean_data (df : loc) : M DataFrame loc :=
  df_clean ← copy df;
  col ← getcol df_clean (fun r => TotalCharges (base r));
  (if dtype_is_object col then
     setcol df_clean set_TotalCharges (map replace_blank col);;
     col ← getcol df_clean (fun r => TotalCharges (base r));
     parsed ← lift (to_numeric col);
     setcol df_clean set_TotalCharges (map Val parsed);;
     (* Fill missing values with median *)
     col ← getcol df_clean (fun r => TotalCharges (base r));
     values ← lift (as_floats col);
     setcol df_clean set_TotalCharges
       (map (fun x => Val (fillna (median values) x)) values)
   else mret tt);;
  (* Remove duplicates *)
  df_clean ← derive df_clean drop_duplicates;
  f ← load df_clean;
  print ("✅ Data cleaning complete. Shape: " ++ shape f);;
  mret df_clean.

(** *** TelcoDataPreprocessor.engineer_features *)

(** [lambda x: 'Yes' if x == 1 else 'No'] *)
Definition senior_flag (x : num) : string :=
  if eqb x (of_Z 1) then "Yes" else "No".

Definition tenure_bins : list num :=
  [of_Z 0; of_Z 12; of_Z 24; of_Z 48; PInf].

Definition tenure_labels : list string :=
  ["New (0-12m)"; "Growing (13-24m)"; "Mature (25-48m)"; "Loyal (48m+)"].

(** [lambda x: 'Yes' if x >= charges_75th else 'No'] *)
Definition high_charges_flag (charges_75th : num) (x : num) : string :=
  if geb x charges_75th then "Yes" else "No".

Definition service_cols : list (Customer -> str) :=
  [PhoneService; MultipleLines; InternetService; OnlineSecurity;
   OnlineBackup; DeviceProtection; TechSupport; StreamingTV; StreamingMovies].

Definition count_services (row : Customer) : Z :=
  fold_left
    (fun count col => if str_is (col row) "Yes" then count + 1 else count)
    service_cols 0.

(** [.astype(str).replace({'True': 'Yes', 'False': 'No'})] *)
Definition bool_text (b : bool) : string := if b then "True" else "False".

Definition yes_no (t : string) : string :=
  if String.eqb t "True" then "Yes"
  else if String.eqb t "False" then "No"
  else t.

Definition has_partner_dependents (row : Customer) : string :=
  yes_no (bool_text (str_is (Partner row) "Yes" || str_is (Dependents row) "Yes")).

Definition internet_plus_streaming (row : Customer) : string :=
  yes_no (bool_text
    (negb (str_is (InternetService row) "No")
     && (str_is (StreamingTV row) "Yes" || str_is (StreamingMovies row) "Yes"))).

Definition calculate_risk_score (charges_75th : num) (row : Customer) : Z :=
  let score := 0 in
  (* Contract risk *)
  let score :=
    if str_is (Contract row) "Month-to-month" then score + 3
    else if str_is (Contract row) "One year" then score + 1
    else score in
  (* Tenure risk *)
  let score := if leb (tenure row) (of_Z 12) then score + 2 else score in
  (* Charges risk *)
  let score :=
    if gtb (MonthlyCharges row) charges_75th then score + 1 else score in
  (* Internet service risk *)
  let score :=
    if str_is (InternetService row) "Fiber optic" then score + 1 else score in
  (* Payment method risk *)
  let score :=
    if str_is (PaymentMethod row) "Electronic check" then score + 1 else score in
  score.

Definition risk_bins : list num := [of_Z (-1); of_Z 2; of_Z 4; of_Z 8].

Definition risk_labels : list string := ["Low Risk"; "Medium Risk"; "High Risk"].

(** Row-wise [apply] is the map of the closure over the rows (frames
    with at least one row). *)
Definition engineer_features (df : loc) : M DataFrame loc :=
  df_features ← copy df;
  (* 1. Senior citizen flag *)
  senior ← getcol df_features (fun r => SeniorCitizen (base r));
  setcol df_features set_Is_Senior (map senior_flag senior);;
  (* 2. Tenure groups *)
  months ← getcol df_features (fun r => tenure (base r));
  groups ← lift (cut months tenure_bins tenure_labels false);
  setcol df_features set_Tenure_Group groups;;
  (* 3. High charges indicator *)
  monthly ← getcol df_features (fun r => MonthlyCharges (base r));
  let charges_75th := quantile (3 # 4) monthly in
  setcol df_features set_High_Charges
    (map (high_charges_flag charges_75th) monthly);;
  (* 4. Service count *)
  rows ← getcol df_features base;
  setcol df_features set_Service_Count (map count_services rows);;
  (* 5. Monthly to total ratio *)
  monthly ← getcol df_features (fun r => MonthlyCharges (base r));
  total ← getcol df_features (fun r => TotalCharges (base r));
  total ← lift (as_floats total);
  setcol df_features set_Monthly_to_Total_Ratio
    (zip_with div monthly (map (fun t => add t (of_Z 1)) total));;
  (* 6. Family status *)
  rows ← getcol df_features base;
  setcol df_features set_Has_Partner_Dependents
    (map has_partner_dependents rows);;
  (* 7. High-value internet customers *)
  rows ← getcol df_features base;
  setcol df_features set_Internet_Plus_Streaming
    (map internet_plus_streaming rows);;
  (* 8. Risk score *)
  rows ← getcol df_features base;
  setcol df_features set_Risk_Score
    (map (calculate_risk_score charges_75th) rows);;
  scores ← getcol_added df_features "Risk_Score" (fun r => Risk_Score (feat r));
  categories ← lift (cut (map of_Z scores) risk_bins risk_labels false);
  setcol df_features set_Risk_Category categories;;
  print "✅ Feature engineering complete. New features: 9";;
  mret df_features.

End Telco.

(* ===================================================================== *)
(** * Optimizing-Airbnb-Listings-for-Higher-Revenue/scripts/data_preprocessing.py *)
(* ===================================================================== *)

Module Airbnb.
Import Pd.

(** A date cell: text as read from a file, a timestamp (days since
    1970-01-01) as [date_range] builds it, or missing. *)
Inductive date : Type :=
| DateText (s : string)
| Stamp (days : Q)
| NaT.

(** The columns of the listings dataset. *)
Record Listing : Type := {
  id : num;
  name : str;
  host_id : num;
  host_name : str;
  neighbourhood_group : str;
  neighbourhood : str;
  latitude : num;
  longitude : num;
  room_type : str;
  price : num;
  minimum_nights : num;
  number_of_reviews : num;
  last_review : date;
  reviews_per_month : num;
  calculated_host_listings_count : num;
  availability_365 : num
}.

(** The columns engineer_features adds, [None] while not yet assigned. *)
Record Features : Type := {
  revenue_potential : option num;
  host_type : option string;
  review_activity : option str;
  availability_category : option str;
  price_category : option str
}.

Record Row : Type := { base : Listing; feat : Features }.

Abbreviation DataFrame := (list Row).

Definition no_features : Features :=
  {| revenue_potential := None; host_type := None; review_activity := None;
     availability_category := None; price_category := None |}.

(** *** Column assignment, one setter per assigned column *)

Definition with_base (g : Listing -> Listing) (r : Row) : Row :=
  {| base := g (base r); feat := feat r |}.

Definition with_feat (g : Features -> Features) (r : Row) : Row :=
  {| base := base r; feat := g (feat r) |}.

Definition set_number_of_reviews (v : num) : Row -> Row :=
  with_base (fun c =>
    {| id := id c; name := name c; host_id := host_id c;
       host_name := host_name c; neighbourhood_group := neighbourhood_group c;
       neighbourhood := neighbourhood c; latitude := latitude c;
       longitude := longitude c; room_type := room_type c; price := price c;
       minimum_nights := minimum_nights c; number_of_reviews := v;
       last_review := last_review c; reviews_per_month := reviews_per_month c;
       calculated_host_listings_count := calculated_host_listings_count c;
       availability_365 := availability_365 c |}).

Definition set_reviews_per_month (v : num) : Row -> Row :=
  with_base (fun c =>
    {| id := id c; name := name c; host_id := host_id c;
       host_name := host_name c; neighbourhood_group := neighbourhood_group c;
       neighbourhood := neighbourhood c; latitude := latitude c;
       longitude := longitude c; room_type := room_type c; price := price c;
       minimum_nights := minimum_nights c;
       number_of_reviews := number_of_reviews c;
       last_review := last_review c; reviews_per_month := v;
       calculated_host_listings_count := calculated_host_listings_count c;
       availability_365 := availability_365 c |}).

Definition set_calculated_host_listings_count (v : num) : Row -> Row :=
  with_base (fun c =>
    {| id := id c; name := name c; host_id := host_id c;
       host_name := host_name c; neighbourhood_group := neighbourhood_group c;
       neighbourhood := neighbourhood c; latitude := latitude c;
       longitude := longitude c; room_type := room_type c; price := price c;
       minimum_nights := minimum_nights c;
       number_of_reviews := number_of_reviews c;
       last_review := last_review c;
       reviews_per_month := reviews_per_month c;
       calculated_host_listings_count := v;
       availability_365 := availability_365 c |}).

Definition set_revenue_potential (v : num) : Row -> Row :=
  with_feat (fun f =>
    {| revenue_potential := Some v; host_type := host_type f;
       review_activity := review_activity f;
       availability_category := availability_category f;
       price_category := price_category f |}).

Definition set_host_type (v : string) : Row -> Row :=
  with_feat (fun f =>
    {| revenue_potential := revenue_potential f; host_type := Some v;
       review_activity := review_activity f;
       availability_category := availability_category f;
       price_category := price_category f |}).

Definition set_review_activity (v : str) : Row -> Row :=
  with_feat (fun f =>
    {| revenue_potential := revenue_potential f; host_type := host_type f;
       review_activity := Some v;
       availability_category := availability_category f;
       price_category := price_category f |}).

Definition set_availability_category (v : str) : Row -> Row :=
  with_feat (fun f =>
    {| revenue_potential := revenue_potential f; host_type := host_type f;
       review_activity := review_activity f;
       availability_category := Some v;
       price_category := price_category f |}).

Definition set_price_category (v : str) : Row -> Row :=
  with_feat (fun f =>
    {| revenue_potential := revenue_potential f; host_type := host_type f;
       review_activity := review_activity f;
       availability_category := availability_category f;
       price_category := Some v |}).

(** *** clean_airbnb_data *)

Definition default_price_min : num := of_Z 10.
Definition default_price_max : num := of_Z 1000.

(** The critical columns, each as the test "this cell is missing". *)
Definition critical_columns : list (Row -> bool) :=
  [ (fun r => str_isna (neighbourhood_group (base r)));
    (fun r => str_isna (room_type (base r)));
    (fun r => isna (price (base r))) ].

(** [df.dropna(subset=cols)]: the rows with no missing cell in [cols]. *)
Definition dropna_subset (cols : list (Row -> bool)) (df : DataFrame)
    : DataFrame :=
  List.filter (fun r => forallb (fun missing => negb (missing r)) cols) df.

Definition clean_airbnb_data (df : loc) (price_min price_max : num)
    : M DataFrame loc :=
  df_clean ← copy df;
  (* Remove price outliers *)
  prices ← getcol df_clean (fun r => price (base r));
  let not_low := map (fun p => geb p price_min) prices in
  prices ← getcol df_clean (fun r => price (base r));
  let not_high := map (fun p => leb p price_max) prices in
  df_clean ← derive df_clean (select (zip_with andb not_low not_high));
  (* Remove rows with missing critical information *)
  df_clean ← derive df_clean (dropna_subset critical_columns);
  (* Fill missing values with business logic *)
  reviews ← getcol df_clean (fun r => number_of_reviews (base r));
  setcol df_clean set_number_of_reviews (map (fillna (of_Z 0)) reviews);;
  monthly ← getcol df_clean (fun r => reviews_per_month (base r));
  setcol df_clean set_reviews_per_month (map (fillna (of_Z 0)) monthly);;
  listings ← getcol df_clean (fun r => calculated_host_listings_count (base r));
  setcol df_clean set_calculated_host_listings_count
    (map (fillna (of_Z 1)) listings);;
  mret df_clean.

(** *** engineer_features *)

(** [price * (365 - availability_365) / 365] *)
Definition revenue (p a : num) : num :=
  div (mul p (sub (of_Z 365) a)) (of_Z 365).

Definition host_kind (x : num) : string :=
  if eqb x (of_Z 1) then "Single Listing"
  else if leb x (of_Z 5) then "Multiple Listings"
  else "Super Host".

Definition review_bins : list num := [of_Z 0; of_Z 0; of_Z 10; of_Z 50; PInf].
Definition review_labels : list string :=
  ["No Reviews"; "Few Reviews"; "Many Reviews"; "Highly Reviewed"].

Definition availability_bins : list num := [of_Z 0; of_Z 90; of_Z 180; of_Z 365].
Definition availability_labels : list string :=
  ["Low Available"; "Medium Available"; "High Available"].

Definition price_bins : list num := [of_Z 0; of_Z 75; of_Z 150; of_Z 300; PInf].
Definition price_labels : list string :=
  ["Budget"; "Mid-Range"; "Premium"; "Luxury"].

Definition engineer_features (df : loc) : M DataFrame loc :=
  df_features ← copy df;
  (* Revenue potential metric *)
  prices ← getcol df_features (fun r => price (base r));
  available ← getcol df_features (fun r => availability_365 (base r));
  setcol df_features set_revenue_potential (zip_with revenue prices available);;
  (* Host type categorization *)
  listings ← getcol df_features (fun r => calculated_host_listings_count (base r));
  setcol df_features set_host_type (map host_kind listings);;
  (* Review activity categories *)
  reviews ← getcol df_features (fun r => number_of_reviews (base r));
  activity ← lift (cut reviews review_bins review_labels false);
  setcol df_features set_review_activity activity;;
  (* Availability categories *)
  available ← getcol df_features (fun r => availability_365 (base r));
  availability ← lift (cut available availability_bins availability_labels false);
  setcol df_features set_availability_category availability;;
  (* Price categories *)
  prices ← getcol df_features (fun r => price (base r));
  categories ← lift (cut prices price_bins price_labels false);
  setcol df_features set_price_category categories;;
  mret df_features.

(** *** create_sample_data *)

(** What the seeded generator draws for listing number [i] (from 0), one
    field per random column; the generator itself is the numeric
    library's. *)
Record Draws : Type := {
  draw_host_id : nat -> Z;
  draw_host_name : nat -> Z;
  draw_neighbourhood_group : nat -> string;
  draw_neighbourhood : nat -> string;
  draw_latitude : nat -> Q;
  draw_longitude : nat -> Q;
  draw_room_type : nat -> string;
  draw_price : nat -> Q;
  draw_minimum_nights : nat -> Z;
  draw_number_of_reviews : nat -> Z;
  draw_reviews_per_month : nat -> Q;
  draw_calculated_host_listings_count : nat -> Z;
  draw_availability_365 : nat -> Z
}.

(** [.astype(int)]: the fraction is cut off towards zero. *)
Definition astype_int (q : Q) : num := of_Z (Qnum q ÷ Z.pos (Qden q)).

(** [date_range('2019-01-01', '2019-12-31', periods=n)]: [n] evenly
    spaced timestamps over the 364 days between the two ends. *)
Definition date_range_2019 (n i : nat) : date :=
  match n with
  | 0%nat | 1%nat => Stamp 17897
  | _ =>
      Stamp (17897 + inject_Z (Z.of_nat i) * 364 / inject_Z (Z.of_nat n - 1))
  end.

Definition sample_row (d : Draws) (n i : nat) : Row :=
  {| base :=
       {| id := of_Z (Z.of_nat i + 1);
          name := Some ("Listing " ++ pretty (i + 1)%nat);
          host_id := of_Z (draw_host_id d i);
          host_name := Some ("Host " ++ pretty (draw_host_name d i));
          neighbourhood_group := Some (draw_neighbourhood_group d i);
          neighbourhood := Some (draw_neighbourhood d i);
          latitude := Fin (draw_latitude d i);
          longitude := Fin (draw_longitude d i);
          room_type := Some (draw_room_type d i);
          price := astype_int (draw_price d i);
          minimum_nights := of_Z (draw_minimum_nights d i);
          number_of_reviews := of_Z (draw_number_of_reviews d i);
          last_review := date_range_2019 n i;
          reviews_per_month := Fin (draw_reviews_per_month d i);
          calculated_host_listings_count :=
            of_Z (draw_calculated_host_listings_count d i);
          availability_365 := of_Z (draw_availability_365 d i) |};
     feat := no_features |}.

Definition default_n_samples : nat := 1000.

Definition create_sample_data (d : Draws) (n_samples : nat)
    : M DataFrame loc :=
  alloc (map (sample_row d n_samples) (seq 0 n_samples)).

(** *** load_and_prepare_data *)

(** The file system as the loader sees it. *)
Record Files : Type := {
  path_exists : string -> bool;
  read_csv : string -> exn + DataFrame
}.

Definition shape (df : DataFrame) : string :=
  let cols :=
    match df with
    | r :: _ =>
        let f := feat r in
        (16 + assigned (revenue_potential f) + assigned (host_type f)
            + assigned (review_activity f)
            + assigned (availability_category f)
            + assigned (price_category f))%nat
    | [] => 16%nat
    end in
  "(" ++ pretty (length df) ++ ", " ++ pretty cols ++ ")".

(** [file_path and os.path.exists(file_path)]: no path and the empty
    path are both false. *)
Definition usable (fs : Files) (file_path : option string) : option string :=
  match file_path with
  | Some p => if negb (String.eqb p EmptyString) && path_exists fs p then Some p else None
  | None => None
  end.

Definition load_and_prepare_data (fs : Files) (d : Draws)
    (file_path : option string) : M DataFrame loc :=
  df ← match usable fs file_path with
       | Some p =>
           print ("Loading data from: " ++ p);;
           frame ← lift (read_csv fs p);
           alloc frame
       | None =>
           print "Creating sample data for demonstration...";;
           create_sample_data d default_n_samples
       end;
  (* Clean and engineer features *)
  df_clean ← clean_airbnb_data df default_price_min default_price_max;
  df_final ← engineer_features df_clean;
  f ← load df_final;
  print ("Data preparation complete! Final shape: " ++ shape f);;
  mret df_final.

End Airbnb.

(* ===================================================================== *)
(** * instacart-insights-4p-analytics/scripts/data_preprocessing.py       *)
(* ===================================================================== *)

Module Instacart.
Import Pd.

(** A timestamp cell in days since 1970-01-01; [None] is NaT. *)
Definition stamp : Type := option Z.

(** The columns of the master dataset (order lines joined with
    products, departments, aisles and orders). *)
Record Line : Type := {
  order_id : num;
  product_id : num;
  add_to_cart_order : num;
  reordered : num;
  product_name : str;
  aisle_id : num;
  department_id : num;
  department : str;
  aisle : str;
  user_id : num;
  eval_set : str;
  order_number : num;
  order_dow : num;
  order_hour_of_day : num;
  days_since_prior_order : num
}.

(** The columns engineer_features adds, [None] while not yet assigned. *)
Record Features : Type := {
  synthetic_date : option stamp;
  order_dow_name : option str;
  hour_category : option str;
  basket_size : option num;
  time_period : option str
}.

Record Row : Type := { base : Line; feat : Features }.

Abbreviation DataFrame := (list Row).

Definition no_features : Features :=
  {| synthetic_date := None; order_dow_name := None; hour_category := None;
     basket_size := None; time_period := None |}.

(** *** Column assignment, one setter per assigned column *)

Definition set_days_since_prior_order (v : num) (r : Row) : Row :=
  let c := base r in
  {| base :=
       {| order_id := order_id c; product_id := product_id c;
          add_to_cart_order := add_to_cart_order c; reordered := reordered c;
          product_name := product_name c; aisle_id := aisle_id c;
          department_id := department_id c; department := department c;
          aisle := aisle c; user_id := user_id c; eval_set := eval_set c;
          order_number := order_number c; order_dow := order_dow c;
          order_hour_of_day := order_hour_of_day c;
          days_since_prior_order := v |};
     feat := feat r |}.

Definition with_feat (g : Features -> Features) (r : Row) : Row :=
  {| base := base r; feat := g (feat r) |}.

Definition set_synthetic_date (v : stamp) : Row -> Row :=
  with_feat (fun f =>
    {| synthetic_date := Some v; order_dow_name := order_dow_name f;
       hour_category := hour_category f; basket_size := basket_size f;
       time_period := time_period f |}).

Definition set_order_dow_name (v : str) : Row -> Row :=
  with_feat (fun f =>
    {| synthetic_date := synthetic_date f; order_dow_name := Some v;
       hour_category := hour_category f; basket_size := basket_size f;
       time_period := time_period f |}).

Definition set_hour_category (v : str) : Row -> Row :=
  with_feat (fun f =>
    {| synthetic_date := synthetic_date f; order_dow_name := order_dow_name f;
       hour_category := Some v; basket_size := basket_size f;
       time_period := time_period f |}).

Definition set_basket_size (v : num) : Row -> Row :=
  with_feat (fun f =>
    {| synthetic_date := synthetic_date f; order_dow_name := order_dow_name f;
       hour_category := hour_category f; basket_size := Some v;
       time_period := time_period f |}).

Definition set_time_period (v : str) : Row -> Row :=
  with_feat (fun f =>
    {| synthetic_date := synthetic_date f; order_dow_name := order_dow_name f;
       hour_category := hour_category f; basket_size := basket_size f;
       time_period := Some v |}).

(** *** clean_data *)

(** The essential columns, each as the test "this cell is missing". *)
Definition essential_columns : list (Row -> bool) :=
  [ (fun r => str_isna (product_name (base r)));
    (fun r => str_isna (department (base r)));
    (fun r => str_isna (aisle (base r))) ].

Definition dropna_subset (cols : list (Row -> bool)) (df : DataFrame)
    : DataFrame :=
  List.filter (fun r => forallb (fun missing => negb (missing r)) cols) df.

(** The function works on the caller's object: [df] is the reference it
    was given, and the first assignment writes through it. *)
Definition clean_data (df : loc) : M DataFrame loc :=
  print "🧼 Cleaning data...";;
  (* Handle missing values *)
  days ← getcol df (fun r => days_since_prior_order (base r));
  setcol df set_days_since_prior_order (map (fillna (of_Z 0)) days);;
  (* Remove any rows with missing essential information *)
  f ← load df;
  let initial_rows := length f in
  df ← derive df (dropna_subset essential_columns);
  f ← load df;
  let final_rows := length f in
  (if negb (initial_rows =? final_rows)%nat then
     print ("🗑️ Removed " ++ with_commas (initial_rows - final_rows)
            ++ " rows with missing essential data")
   else mret tt);;
  (* Data validation *)
  print "✅ Data validation:";;
  products ← getcol df (fun r => product_id (base r));
  print ("   📦 Unique products: " ++ with_commas (nunique products));;
  orders ← getcol df (fun r => order_id (base r));
  print ("   🛒 Unique orders: " ++ with_commas (nunique orders));;
  users ← getcol df (fun r => user_id (base r));
  print ("   👥 Unique users: " ++ with_commas (nunique users));;
  departments ← getcol df (fun r => department (base r));
  print ("   🏪 Departments: " ++ pretty (str_nunique departments));;
  mret df.

(** *** engineer_features *)

(** [to_datetime('2017-01-01') + to_timedelta(order_number // 1000, unit='D')] *)
Definition synthetic_date_of (order_number : num) : stamp :=
  match floordiv order_number (of_Z 1000) with
  | Fin d => Some (17167 + Qfloor d)
  | _ => None
  end.

Definition dow_names : list (Z * string) :=
  [(0, "Sunday"); (1, "Monday"); (2, "Tuesday"); (3, "Wednesday");
   (4, "Thursday"); (5, "Friday"); (6, "Saturday")].

(** [series.map(dict)]: a value that is no key of the dict maps to the
    missing value. *)
Definition map_dict (dict : list (Z * string)) (x : num) : str :=
  snd <$> List.find (fun kv => eqb x (of_Z (fst kv))) dict.

Definition hour_bins : list num := [of_Z 0; of_Z 6; of_Z 12; of_Z 18; of_Z 24].
Definition hour_labels : list string := ["Night"; "Morning"; "Afternoon"; "Evening"].

(** [df.groupby(key).size()]: every distinct non-missing key with the
    number of rows that carry it. *)
Definition groupby_size (keys : list num) : list (num * Z) :=
  map (fun k => (k, Z.of_nat (length (List.filter (eqb k) keys))))
      (drop_duplicates_by same (dropna keys)).

(** [df.merge(table, on=key, how='left')] for one row: the count of its
    key, missing when the table has no such key. *)
Definition merge_left (table : list (num * Z)) (k : num) : num :=
  match List.find (fun kv => eqb k (fst kv)) table with
  | Some kv => of_Z (snd kv)
  | None => NaN
  end.

Definition period_labels : list string :=
  ["Period 1"; "Period 2"; "Period 3"; "Period 4"].

(** The first three assignments write through the caller's reference;
    the merge then builds the object that is returned. *)
Definition engineer_features (df : loc) : M DataFrame loc :=
  print "🛠️ Engineering features...";;
  (* 1. Create synthetic date column for time series analysis *)
  numbers ← getcol df (fun r => order_number (base r));
  setcol df set_synthetic_date (map synthetic_date_of numbers);;
  (* 2. Order day of week names *)
  dows ← getcol df (fun r => order_dow (base r));
  setcol df set_order_dow_name (map (map_dict dow_names) dows);;
  (* 3. Order hour categories *)
  hours ← getcol df (fun r => order_hour_of_day (base r));
  categories ← lift (cut hours hour_bins hour_labels true);
  setcol df set_hour_category categories;;
  (* 4. Calculate basket size per order *)
  keys ← getcol df (fun r => order_id (base r));
  let basket_size := groupby_size keys in
  df ← derive df (fun f =>
         zip_with set_basket_size
           (map (fun r => merge_left basket_size (order_id (base r))) f) f);
  (* 5. Create time periods for trend analysis *)
  numbers ← getcol df (fun r => order_number (base r));
  periods ← lift (cut_nbins numbers 4 period_labels);
  setcol df set_time_period periods;;
  print "✅ Feature engineering completed";;
  mret df.

(** *** create_snacks_dataset *)

(** [str.lower()] on text held as bytes: the letters A to Z are
    lowered; every other byte is kept, so the lowering of a letter
    outside ASCII is not represented. *)
Definition lower_ascii (c : ascii) : ascii :=
  let n := nat_of_ascii c in
  if (65 <=? n)%nat && (n <=? 90)%nat then ascii_of_nat (n + 32) else c.

Fixpoint lower (s : string) : string :=
  match s with
  | EmptyString => EmptyString
  | String c s' => String (lower_ascii c) (lower s')
  end.

(** [series.str.lower()] for one cell of a text column (dtype object,
    on which the [.str] accessor is defined): a missing cell stays
    missing. *)
Definition str_lower (a : str) : str := option_map lower a.

(** [series.isin(values)] for one cell of a text column: a missing
    cell is in no list of texts. *)
Definition str_isin (values : list string) (a : str) : bool :=
  match a with
  | Some x => existsb (String.eqb x) values
  | None => false
  end.

(** [len(series.unique())]: the missing value counts as a value. *)
Definition unique_count (s : list num) : nat :=
  length (drop_duplicates_by same s).

Definition snack_categories : list string :=
  ["snacks"; "cookies cakes"; "candy chocolate"; "chips pretzels"].

(** [df[mask].copy()] is one new object: the frame that the mask
    selects is referenced by nothing else. *)
Definition create_snacks_dataset (df : loc) : M DataFrame loc :=
  print "🍿 Creating snacks-focused dataset...";;
  (* Define snack categories *)
  departments ← getcol df (fun r => department (base r));
  let mask := map (fun d => str_isin snack_categories (str_lower d))
                  departments in
  snacks_df ← derive df (select mask);
  f ← load snacks_df;
  products ← getcol snacks_df (fun r => product_id (base r));
  print ("✅ Snacks dataset: " ++ with_commas (length f) ++ " rows ("
         ++ pretty (unique_count products) ++ " unique products)");;
  mret snacks_df.

(** *** load_instacart_data, create_master_dataset, main *)

(** What the pipeline takes from outside.  The five csv files hold
    tables of five schemas; before the joins only their shape is looked
    at, so a table is kept abstract, and so are the joins
    [left.merge(right, on=key, how='left')].  [master_lines] reads the
    joined table as the typed rows of the master dataset.  The last two
    stages, calculate_reorder_stats and save_processed_data, are taken
    as they come. *)
Record World (T : Type) : Type := {
  read_csv : string -> exn + T;
  table_shape : T -> nat * nat;
  merge : T -> T -> string -> exn + T;
  master_lines : T -> list Line;
  last_stages : loc -> loc -> M DataFrame unit
}.
Arguments read_csv {T}.
Arguments table_shape {T}.
Arguments merge {T}.
Arguments master_lines {T}.
Arguments last_stages {T}.

Definition data_path : string := "../data/raw/".

(** [str(e)] of the FileNotFoundError that [read_csv] raises. *)
Definition file_not_found_message (path : string) : string :=
  "[Errno 2] No such file or directory: '" ++ path ++ "'".

(** [datasets[key] = value] *)
Fixpoint setitem {T} (datasets : list (string * T)) (key : string) (value : T)
    : list (string * T) :=
  match datasets with
  | [] => [(key, value)]
  | (k, v) :: rest =>
      if String.eqb k key then (k, value) :: rest
      else (k, v) :: setitem rest key value
  end.

(** [datasets[key]] *)
Fixpoint getitem {T} (datasets : list (string * T)) (key : string) : exn + T :=
  match datasets with
  | [] => inl (KeyError key)
  | (k, v) :: rest => if String.eqb k key then inr v else getitem rest key
  end.

(** One assignment [datasets[key] = pd.read_csv(f'{data_path}file')] of
    the try block, followed by the statements after it.  The dict is
    filled in place: what was assigned stays in it when a later read
    raises. *)
Definition reading {T} (w : World T) (datasets : list (string * T))
    (key file : string)
    (next : list (string * T) -> list (string * T) * option exn)
    : list (string * T) * option exn :=
  match read_csv w (data_path ++ file) with
  | inr table => next (setitem datasets key table)
  | inl e => (datasets, Some e)
  end.

Fixpoint print_shapes {T} (w : World T) (items : list (string * T))
    : M DataFrame unit :=
  match items with
  | [] => mret tt
  | (name, df) :: rest =>
      print ("📊 " ++ name ++ ": " ++ with_commas (fst (table_shape w df))
             ++ " rows, " ++ pretty (snd (table_shape w df)) ++ " columns");;
      print_shapes w rest
  end.

Definition load_instacart_data {T} (w : World T)
    : M DataFrame (list (string * T)) :=
  let datasets := [] in
  let '(datasets, raised) :=
    (* Load core datasets *)
    reading w datasets "orders" "orders.csv" (fun datasets =>
    reading w datasets "products" "products.csv" (fun datasets =>
    reading w datasets "order_products_prior" "order_products__prior.csv"
      (fun datasets =>
    reading w datasets "departments" "departments.csv" (fun datasets =>
    reading w datasets "aisles" "aisles.csv" (fun datasets =>
    (datasets, None)))))) in
  match raised with
  | None =>
      print "✅ All datasets loaded successfully!";;
      (* Display dataset info *)
      print_shapes w datasets;;
      mret datasets
  | Some (FileNotFoundError path) =>
      print ("❌ Error loading data: " ++ file_not_found_message path);;
      print "📥 Please download the Instacart dataset from Kaggle";;
      mret datasets
  | Some e => raise e
  end.

Definition create_master_dataset {T} (w : World T)
    (datasets : list (string * T)) : M DataFrame loc :=
  print "🔗 Creating master dataset...";;
  (* Join order_products with products to get product details *)
  left ← lift (getitem datasets "order_products_prior");
  right ← lift (getitem datasets "products");
  order_products_full ← lift (merge w left right "product_id");
  (* Add department and aisle information *)
  right ← lift (getitem datasets "departments");
  order_products_full ← lift (merge w order_products_full right "department_id");
  right ← lift (getitem datasets "aisles");
  order_products_full ← lift (merge w order_products_full right "aisle_id");
  (* Join with orders to get order timing and user info *)
  right ← lift (getitem datasets "orders");
  master ← lift (merge w order_products_full right "order_id");
  master_df ← alloc (map (fun c => {| base := c; feat := no_features |})
                         (master_lines w master));
  print ("✅ Master dataset created: "
         ++ with_commas (fst (table_shape w master)) ++ " rows, "
         ++ pretty (snd (table_shape w master)) ++ " columns");;
  mret master_df.

Definition main {T} (w : World T) : M DataFrame unit :=
  print "🚀 Starting Instacart data preprocessing pipeline...";;
  (* Load data *)
  datasets ← load_instacart_data w;
  match datasets with
  | [] => mret tt
  | _ =>
      (* Create master dataset *)
      master_df ← create_master_dataset w datasets;
      (* Clean data *)
      master_df ← clean_data master_df;
      (* Engineer features *)
      master_df ← engineer_features master_df;
      (* Create snacks dataset *)
      snacks_df ← create_snacks_dataset master_df;
      (* Calculate reorder stats, save processed data *)
      last_stages w master_df snacks_df;;
      print "✅ Preprocessing pipeline completed successfully!"
  end.

End Instacart.

(* ===================================================================== *)
(** * generate_executive_summary: the weekend analysis                    *)
(* ===================================================================== *)

(** scripts/complete_4p_analysis.py (lines 324-327) and
    scripts/instacart_analysis_demo.py (lines 258-261) hold the same three
    statements over the master dataset. *)
Module Summary.
Import Pd.

(** The two columns of the master dataset that the weekend analysis
    reads. *)
Record Line : Type := {
  order_id : num;
  order_dow : num
}.

Abbreviation DataFrame := (list Line).

(** [series.isin([0, 6])] for one cell. *)
Definition isin_weekend (dow : num) : bool :=
  eqb dow (of_Z 0) || eqb dow (of_Z 6).

(** [master_df[master_df['order_dow'].isin([0, 6])]['order_id'].nunique()] *)
Definition weekend_orders (master_df : DataFrame) : Z :=
  Z.of_nat
    (nunique (map order_id
       (select (map (fun r => isin_weekend (order_dow r)) master_df) master_df))).

(** [master_df[~master_df['order_dow'].isin([0, 6])]['order_id'].nunique()] *)
Definition weekday_orders (master_df : DataFrame) : Z :=
  Z.of_nat
    (nunique (map order_id
       (select (map (fun r => negb (isin_weekend (order_dow r))) master_df)
               master_df))).

(** [((weekend_orders - weekday_orders) / weekday_orders * 100)
     if weekday_orders > 0 else 0] *)
Definition weekend_lift (master_df : DataFrame) : Q :=
  let weekend_orders := weekend_orders master_df in
  let weekday_orders := weekday_orders master_df in
  if weekday_orders >? 0
  then (inject_Z (weekend_orders - weekday_orders) / inject_Z weekday_orders
        * 100)%Q
  else 0%Q.

End Summary.

(* ===================================================================== *)
(** * create_master_dataset of the scripts: hours and segments            *)
(* ===================================================================== *)

(** scripts/complete_4p_analysis.py (lines 149-154 and 164-168);
    scripts/instacart_analysis_demo.py (lines 140-143) has the same
    hour categories. *)
Module Master.
Import Pd.

Definition hour_bins : list num := [of_Z 0; of_Z 9; of_Z 14; of_Z 19; of_Z 24].
Definition hour_labels : list string := ["Morning"; "Midday"; "Evening"; "Night"].

(** [pd.cut(master_df['order_hour_of_day'], bins=[0, 9, 14, 19, 24],
    labels=[...], include_lowest=True)] *)
Definition hour_category (hours : list num) : exn + list str :=
  cut hours hour_bins hour_labels true.

Definition segment_bins : list num := [of_Z 0; of_Z 2; of_Z 5; of_Z 10; PInf].
Definition segment_labels : list string := ["New"; "Occasional"; "Regular"; "VIP"].

(** [pd.cut(master_df['order_number'], bins=[0, 2, 5, 10, float('inf')],
    labels=[...])] *)
Definition customer_segment (numbers : list num) : exn + list str :=
  cut numbers segment_bins segment_labels false.

End Master.

(* ===================================================================== *)
(** * Row-wise readings of the stages, used to state their results        *)
(* ===================================================================== *)

Module Rowwise.
Import Pd.

(** The number in a cell of a numeric object column. *)
Definition float_of (o : pyobj) : num :=
  match o with Val x => x | Txt _ => NaN end.

(** Whether [to_numeric] can read a cell, and the number it reads. *)
Definition parses (o : pyobj) : bool :=
  match o with
  | Txt s => match parse_float s with Some _ => true | None => false end
  | Val _ => true
  end.

Definition parsed_value (o : pyobj) : num :=
  match o with
  | Txt s => match parse_float s with Some x => x | None => NaN end
  | Val x => x
  end.

(** The number Telco's clean_data reads in a TotalCharges cell: the
    blank is replaced by the missing value first. *)
Definition telco_charge (r : Telco.Row) : num :=
  parsed_value (replace_blank (Telco.TotalCharges (Telco.base r))).

(** What the object branch of Telco's clean_data makes of a frame, before
    the duplicates are dropped: every cell parsed, the missing ones
    replaced by the median of the others. *)
Definition telco_filled (df : Telco.DataFrame) : Telco.DataFrame :=
  let median_charge := median (map telco_charge df) in
  map (fun r =>
         Telco.set_TotalCharges (Val (fillna median_charge (telco_charge r))) r)
      df.

(** What Telco's engineer_features makes of one row, once the threshold
    [charges_75th] has been computed from the whole column. *)
Definition telco_featured (charges_75th : num) (r : Telco.Row) : Telco.Row :=
  let c := Telco.base r in
  let score := Telco.calculate_risk_score charges_75th c in
  Telco.set_Risk_Category
    (cut1 Telco.risk_bins Telco.risk_labels false (of_Z score))
  (Telco.set_Risk_Score score
  (Telco.set_Internet_Plus_Streaming (Telco.internet_plus_streaming c)
  (Telco.set_Has_Partner_Dependents (Telco.has_partner_dependents c)
  (Telco.set_Monthly_to_Total_Ratio
     (div (Telco.MonthlyCharges c)
          (add (float_of (Telco.TotalCharges c)) (of_Z 1)))
  (Telco.set_Service_Count (Telco.count_services c)
  (Telco.set_High_Charges
     (Telco.high_charges_flag charges_75th (Telco.MonthlyCharges c))
  (Telco.set_Tenure_Group
     (cut1 Telco.tenure_bins Telco.tenure_labels false (Telco.tenure c))
  (Telco.set_Is_Senior (Telco.senior_flag (Telco.SeniorCitizen c)) r)))))))).

(** The threshold engineer_features computes for a frame. *)
Definition telco_charges_75th (df : Telco.DataFrame) : num :=
  quantile (3 # 4) (map (fun r => Telco.MonthlyCharges (Telco.base r)) df).

(** The points of the four rules of calculate_risk_score that do not
    look at the charges. *)
Definition telco_other_points (row : Telco.Customer) : Z :=
  (if str_is (Telco.Contract row) "Month-to-month" then 3
   else if str_is (Telco.Contract row) "One year" then 1 else 0)
  + (if leb (Telco.tenure row) (of_Z 12) then 2 else 0)
  + (if str_is (Telco.InternetService row) "Fiber optic" then 1 else 0)
  + (if str_is (Telco.PaymentMethod row) "Electronic check" then 1 else 0).

(** The price test of clean_airbnb_data. *)
Definition airbnb_price_ok (price_min price_max : num) (r : Airbnb.Row) : bool :=
  geb (Airbnb.price (Airbnb.base r)) price_min
  && leb (Airbnb.price (Airbnb.base r)) price_max.

(** The three fills of clean_airbnb_data on one row. *)
Definition airbnb_fill (r : Airbnb.Row) : Airbnb.Row :=
  let c := Airbnb.base r in
  Airbnb.set_calculated_host_listings_count
    (fillna (of_Z 1) (Airbnb.calculated_host_listings_count c))
  (Airbnb.set_reviews_per_month
    (fillna (of_Z 0) (Airbnb.reviews_per_month c))
  (Airbnb.set_number_of_reviews
    (fillna (of_Z 0) (Airbnb.number_of_reviews c)) r)).

(** What clean_airbnb_data makes of a frame. *)
Definition airbnb_cleaned (price_min price_max : num) (df : Airbnb.DataFrame)
    : Airbnb.DataFrame :=
  map airbnb_fill
    (Airbnb.dropna_subset Airbnb.critical_columns
       (List.filter (airbnb_price_ok price_min price_max) df)).

(** The two columns Airbnb's engineer_features has assigned when it
    reaches the review bucketing. *)
Definition airbnb_started (r : Airbnb.Row) : Airbnb.Row :=
  let c := Airbnb.base r in
  Airbnb.set_host_type
    (Airbnb.host_kind (Airbnb.calculated_host_listings_count c))
  (Airbnb.set_revenue_potential
    (Airbnb.revenue (Airbnb.price c) (Airbnb.availability_365 c)) r).

(** The fill of Instacart's clean_data on one row. *)
Definition instacart_days_filled (r : Instacart.Row) : Instacart.Row :=
  Instacart.set_days_since_prior_order
    (fillna (of_Z 0) (Instacart.days_since_prior_order (Instacart.base r))) r.

(** The three columns Instacart's engineer_features assigns before the
    merge. *)
Definition instacart_first_three (r : Instacart.Row) : Instacart.Row :=
  let c := Instacart.base r in
  Instacart.set_hour_category
    (cut1 Instacart.hour_bins Instacart.hour_labels true
          (Instacart.order_hour_of_day c))
  (Instacart.set_order_dow_name
    (Instacart.map_dict Instacart.dow_names (Instacart.order_dow c))
  (Instacart.set_synthetic_date
    (Instacart.synthetic_date_of (Instacart.order_number c)) r)).

(** The basket size Instacart's engineer_features merges into a row,
    [keys] being the order_id column of the frame. *)
Definition instacart_merged (keys : list num) (r : Instacart.Row)
    : Instacart.Row :=
  Instacart.set_basket_size
    (Instacart.merge_left (Instacart.groupby_size keys)
       (Instacart.order_id (Instacart.base r))) r.


End Rowwise.

(* ===================================================================== *)
(** * Which objects a statement sequence writes                           *)
(* ===================================================================== *)

Module Effects.
Import Pd.

(** [writes_above n m Q]: run from a heap of at least [n] objects, [m]
    leaves the first [n] objects as they are (it writes only to objects
    built later), whether it returns or raises; and [Q] holds of the
    value it returns. *)
Definition writes_above {F A} (n : nat) (m : M F A) (Q : A -> Prop) : Prop :=
  forall s, (n <= length (heap s))%nat ->
    (n <= length (heap (fst (m s))))%nat
    /\ take n (heap (fst (m s))) = take n (heap s)
    /\ match snd (m s) with
       | inr a => Q a
       | inl _ => True
       end.

End Effects.

(* ===================================================================== *)
(** * Sample inputs                                                       *)
(* ===================================================================== *)

Module Examples.
Import Pd.

(** A churn customer on fiber, paying by electronic check. *)
Definition customer (contract : string) (months : Z) (monthly : Q)
    (total : pyobj) : Telco.Row :=
  {| Telco.base :=
       {| Telco.customerID := Some "7590-VHVEG"; Telco.gender := Some "Female";
          Telco.SeniorCitizen := of_Z 0; Telco.Partner := Some "Yes";
          Telco.Dependents := Some "No"; Telco.tenure := of_Z months;
          Telco.PhoneService := Some "Yes"; Telco.MultipleLines := Some "No";
          Telco.InternetService := Some "Fiber optic";
          Telco.OnlineSecurity := Some "No"; Telco.OnlineBackup := Some "Yes";
          Telco.DeviceProtection := Some "No"; Telco.TechSupport := Some "No";
          Telco.StreamingTV := Some "Yes"; Telco.StreamingMovies := Some "No";
          Telco.Contract := Some contract; Telco.PaperlessBilling := Some "Yes";
          Telco.PaymentMethod := Some "Electronic check";
          Telco.MonthlyCharges := Fin monthly; Telco.TotalCharges := total;
          Telco.Churn := Some "No" |};
     Telco.feat := Telco.no_features |}.

(** A cleaned churn frame: monthly charges 100, 20, 30, 40, hence a 75th
    percentile of 55. *)
Definition churn_frame : Telco.DataFrame :=
  [ customer "Month-to-month" 6 100 (Val (Fin 600));
    customer "Month-to-month" 0 20 (Val (Fin 0));
    customer "One year" 24 30 (Val (Fin 720));
    customer "Two year" 48 40 (Val (Fin 1920)) ].


(** A raw churn frame as the reader delivers it: TotalCharges is text,
    blank for the customer with tenure 0. *)
Definition raw_frame : Telco.DataFrame :=
  [ customer "Month-to-month" 6 100 (Txt "600");
    customer "Month-to-month" 0 20 (Txt " ");
    customer "One year" 24 30 (Txt "720.5");
    customer "Two year" 48 40 (Txt "1920") ].


(** A listing with the given price, availability and borough. *)
Definition listing (p : num) (available : Z) (borough : str) : Airbnb.Row :=
  {| Airbnb.base :=
       {| Airbnb.id := of_Z 2539; Airbnb.name := Some "Clean & quiet apt";
          Airbnb.host_id := of_Z 2787; Airbnb.host_name := Some "John";
          Airbnb.neighbourhood_group := borough;
          Airbnb.neighbourhood := Some "Kensington";
          Airbnb.latitude := Fin (4064749 # 100000);
          Airbnb.longitude := Fin (-7397237 # 100000);
          Airbnb.room_type := Some "Private room"; Airbnb.price := p;
          Airbnb.minimum_nights := of_Z 1; Airbnb.number_of_reviews := of_Z 9;
          Airbnb.last_review := Airbnb.DateText "2018-10-19";
          Airbnb.reviews_per_month := NaN;
          Airbnb.calculated_host_listings_count := of_Z 6;
          Airbnb.availability_365 := of_Z available |};
     Airbnb.feat := Airbnb.no_features |}.

Definition listings_frame : Airbnb.DataFrame :=
  [ listing (of_Z 5) 0 (Some "Brooklyn");
    listing (of_Z 149) 0 (Some "Brooklyn");
    listing (of_Z 1000) 100 None;
    listing NaN 3 (Some "Bronx");
    listing (of_Z 1001) 3 (Some "Queens");
    listing (of_Z 300) 365 (Some "Queens") ].

(** A file system without files, and a generator that draws the same
    listing every time. *)
Definition no_files : Airbnb.Files :=
  {| Airbnb.path_exists := fun _ => false;
     Airbnb.read_csv := fun p => inl (FileNotFoundError p) |}.

Definition constant_draws : Airbnb.Draws :=
  {| Airbnb.draw_host_id := fun _ => 7;
     Airbnb.draw_host_name := fun _ => 7;
     Airbnb.draw_neighbourhood_group := fun _ => "Manhattan";
     Airbnb.draw_neighbourhood := fun _ => "Harlem";
     Airbnb.draw_latitude := fun _ => (407 # 10)%Q;
     Airbnb.draw_longitude := fun _ => (-74)%Q;
     Airbnb.draw_room_type := fun _ => "Private room";
     Airbnb.draw_price := fun _ => (901 # 10)%Q;
     Airbnb.draw_minimum_nights := fun _ => 2;
     Airbnb.draw_number_of_reviews := fun _ => 20;
     Airbnb.draw_reviews_per_month := fun _ => (5 # 2)%Q;
     Airbnb.draw_calculated_host_listings_count := fun _ => 3;
     Airbnb.draw_availability_365 := fun _ => 0 |}.

(** An order line of the master dataset. *)
Definition order_line (order : Z) (product : str) (dow hour number : Z)
    (days : num) : Instacart.Row :=
  {| Instacart.base :=
       {| Instacart.order_id := of_Z order; Instacart.product_id := of_Z 196;
          Instacart.add_to_cart_order := of_Z 1; Instacart.reordered := of_Z 0;
          Instacart.product_name := product; Instacart.aisle_id := of_Z 77;
          Instacart.department_id := of_Z 7;
          Instacart.department := Some "beverages";
          Instacart.aisle := Some "soft drinks"; Instacart.user_id := of_Z 1;
          Instacart.eval_set := Some "prior";
          Instacart.order_number := of_Z number; Instacart.order_dow := of_Z dow;
          Instacart.order_hour_of_day := of_Z hour;
          Instacart.days_since_prior_order := days |};
     Instacart.feat := Instacart.no_features |}.

(** Three order lines; the first is a first order, without a number of
    days since the prior order. *)
Definition basket_frame : Instacart.DataFrame :=
  [ order_line 2539329 (Some "Soda") 2 8 1 NaN;
    order_line 2398795 (Some "Soda") 3 7 2 (Fin 15);
    order_line 473747 None 6 12 3 (Fin 21) ].

(** Two lines of one first order and one line of a fifth order. *)
Definition two_order_frame : Instacart.DataFrame :=
  [ order_line 7 (Some "Soda") 2 8 1 NaN;
    order_line 7 (Some "Chips") 2 8 1 NaN;
    order_line 9 (Some "Soda") 1 10 5 (Fin 3) ].



(** A world without files.  Tables carry nothing, joins return, and
    the last stages do nothing. *)
Definition no_instacart_files : Instacart.World unit :=
  {| Instacart.read_csv := fun path => inl (FileNotFoundError path);
     Instacart.table_shape := fun _ => (0%nat, 0%nat);
     Instacart.merge := fun _ _ _ => inr tt;
     Instacart.master_lines := fun _ => [];
     Instacart.last_stages := fun _ _ => mret tt |}.

(** A world in which only orders.csv is there. *)
Definition orders_file_only : Instacart.World unit :=
  {| Instacart.read_csv := fun path =>
       if String.eqb path "../data/raw/orders.csv" then inr tt
       else inl (FileNotFoundError path);
     Instacart.table_shape := fun _ => (0%nat, 0%nat);
     Instacart.merge := fun _ _ _ => inr tt;
     Instacart.master_lines := fun _ => [];
     Instacart.last_stages := fun _ _ => mret tt |}.


(** Order lines of the master dataset: day of the week per order. *)
Definition summary_line (order dow : Z) : Summary.Line :=
  {| Summary.order_id := of_Z order; Summary.order_dow := of_Z dow |}.

(** Three weekend orders (one with two lines) and one weekday order. *)
Definition week_frame : Summary.DataFrame :=
  [ summary_line 1 0; summary_line 2 3; summary_line 3 6; summary_line 3 6;
    summary_line 4 6 ].


End Examples.

(* ===================================================================== *)
(** * Facts about the library and the interpreter                         *)
(* ===================================================================== *)

Import Pd.
Local Open Scope list_scope.

(** ** Lists *)

Lemma zip_with_map_map {A B C D} (f : B -> C -> D) (g : A -> B) (h : A -> C)
    (l : list A) :
  zip_with f (map g l) (map h l) = map (fun x => f (g x) (h x)) l.
Proof. induction l as [|x l IH]; simpl; [reflexivity | now rewrite IH]. Qed.

Lemma zip_with_map_self {A B C} (f : B -> A -> C) (g : A -> B) (l : list A) :
  zip_with f (map g l) l = map (fun x => f (g x) x) l.
Proof. induction l as [|x l IH]; simpl; [reflexivity | now rewrite IH]. Qed.

Lemma lookup_map {A B} (f : A -> B) (l : list A) (i : nat) :
  map f l !! i = f <$> (l !! i).
Proof.
  revert i; induction l as [|x l IH]; intros [|i]; simpl; auto.
Qed.

Lemma present_map_Some {A B} (name : string) (f : B -> A) (l : list B) :
  present name (map (fun x => Some (f x)) l) = inr (map f l).
Proof. induction l as [|x l IH]; simpl; [reflexivity | now rewrite IH]. Qed.

Lemma as_floats_numeric col :
  dtype_is_object col = false -> as_floats col = inr (map Rowwise.float_of col).
Proof.
  unfold dtype_is_object.
  induction col as [|c col IH]; simpl; [reflexivity|].
  destruct c as [t|x]; simpl; [discriminate|].
  intros H. now rewrite (IH H).
Qed.

Lemma cut_checked x bins labels lowest :
  cut_check bins labels = None ->
  cut x bins labels lowest = inr (map (cut1 bins labels lowest) x).
Proof. intros H. unfold cut. now rewrite H. Qed.

(** ** Comparisons *)

Lemma Qltb_lt a b : Qltb a b = true <-> (a < b)%Q.
Proof.
  unfold Qltb. rewrite Qlt_alt. destruct (a ?= b)%Q; split; congruence.
Qed.

Lemma Qltb_ge a b : Qltb a b = false <-> (b <= a)%Q.
Proof.
  rewrite <- not_true_iff_false, Qltb_lt. split.
  - apply Qnot_lt_le.
  - apply Qle_not_lt.
Qed.

Lemma Qle_bool_gt a b : Qle_bool a b = false <-> (b < a)%Q.
Proof.
  rewrite <- not_true_iff_false, Qle_bool_iff. split.
  - apply Qnot_le_lt.
  - apply Qlt_not_le.
Qed.


Lemma eqb_leb_of_Z x (a b : Z) :
  eqb x (of_Z a) = true -> (a <= b)%Z -> leb x (of_Z b) = true.
Proof.
  destruct x as [| |q|]; simpl; try discriminate.
  intros H Hab. apply Qeq_bool_iff in H. apply Qle_bool_iff.
  rewrite H. now rewrite <- Zle_Qle.
Qed.

(** ** Running statements *)

Section Run.
Context {F : Type}.
Implicit Types (h : list F) (o : list string) (x : F).

Lemma run_bind {A B} (m : M F A) (k : A -> M F B) s :
  (m ≫= k) s =
  match m s with
  | (s', inr a) => k a s'
  | (s', inl e) => (s', inl e)
  end.
Proof. reflexivity. Qed.

Lemma run_ret {A} (a : A) (s : state F) :
  (mret a : M F A) s = (s, inr a).
Proof. reflexivity. Qed.

Lemma run_copy h o l x :
  h !! l = Some x ->
  copy l (State h o) = (State (h ++ [x]) o, inr (length h)).
Proof. intros H. unfold copy, bind, load, alloc. simpl. now rewrite H. Qed.

Lemma lookup_last h x : (h ++ [x]) !! length h = Some x.
Proof. now apply list_lookup_middle. Qed.

Lemma insert_last h x y : <[length h := y]> (h ++ [x]) = h ++ [y].
Proof.
  rewrite insert_app_r_alt by lia. now rewrite Nat.sub_diag.
Qed.

Lemma run_load_last h o x :
  load (length h) (State (h ++ [x]) o) = (State (h ++ [x]) o, inr x).
Proof. unfold load. simpl. now rewrite lookup_last. Qed.

Lemma run_modify_last h o x g :
  modify (length h) g (State (h ++ [x]) o) = (State (h ++ [g x]) o, inr tt).
Proof. unfold modify. simpl. now rewrite lookup_last, insert_last. Qed.

Lemma run_print (line : string) h o :
  print line (State h o) = (State h (o ++ [line]), inr tt).
Proof. reflexivity. Qed.

Lemma run_lift {A} (r : exn + A) (s : state F) : lift r s = (s, r).
Proof. reflexivity. Qed.
End Run.

Section RunFrames.
Context {R : Type}.
Implicit Types (h : list (list R)) (o : list string) (x : list R).

Lemma run_getcol_last {A} h o x (proj : R -> A) :
  getcol (length h) proj (State (h ++ [x]) o)
  = (State (h ++ [x]) o, inr (map proj x)).
Proof. unfold getcol. now rewrite run_bind, run_load_last. Qed.

Lemma run_getcol_added_last {A} h o x name (proj : R -> option A) :
  getcol_added (length h) name proj (State (h ++ [x]) o)
  = (State (h ++ [x]) o, present name (map proj x)).
Proof. unfold getcol_added. now rewrite run_bind, run_load_last. Qed.

Lemma run_setcol_last {A} h o x (set : A -> R -> R) series :
  setcol (length h) set series (State (h ++ [x]) o)
  = (State (h ++ [zip_with set series x]) o, inr tt).
Proof. unfold setcol. now rewrite run_modify_last. Qed.

Lemma run_derive_last h o x g :
  derive (length h) g (State (h ++ [x]) o)
  = (State ((h ++ [x]) ++ [g x]) o, inr (length (h ++ [x]))).
Proof.
  unfold derive. rewrite run_bind, run_load_last. reflexivity.
Qed.
End RunFrames.

(** One statement of a stage run on the object it has just built. *)
Ltac run_step :=
  rewrite ?run_bind;
  first
    [ rewrite run_getcol_last
    | rewrite run_setcol_last
    | rewrite run_getcol_added_last
    | rewrite run_derive_last
    | rewrite run_load_last
    | rewrite run_print
    | rewrite run_lift ];
  cbv beta iota.

(* ===================================================================== *)
(** * Statements that write only to the objects they build               *)
(* ===================================================================== *)

Import Effects.

Section WritesAbove.
Context {F : Type}.
Implicit Types (n : nat) (l : loc).

Lemma writes_above_ret {A} n (a : A) (Q : A -> Prop) :
  Q a -> writes_above n (mret a : M F A) Q.
Proof. intros Ha s Hs. cbn. auto. Qed.

Lemma writes_above_bind {A B} n (m : M F A) (k : A -> M F B)
    (Q : A -> Prop) (Q' : B -> Prop) :
  writes_above n m Q ->
  (forall a, Q a -> writes_above n (k a) Q') ->
  writes_above n (m ≫= k) Q'.
Proof.
  intros Hm Hk s Hs. rewrite run_bind.
  destruct (Hm s Hs) as (Hlen & Htake & Hres).
  destruct (m s) as [s1 [e|a]]; cbn [fst snd] in *.
  - auto.
  - destruct (Hk a Hres s1 Hlen) as (Hlen' & Htake' & Hres').
    split; [assumption|]. split; [congruence | assumption].
Qed.

Lemma writes_above_lift {A} n (r : exn + A) :
  writes_above n (lift r : M F A) (fun _ => True).
Proof. intros s Hs. cbn. destruct r; auto. Qed.

Lemma writes_above_print n (line : string) :
  writes_above n (print line : M F unit) (fun _ => True).
Proof. intros s Hs. cbn. auto. Qed.

Lemma writes_above_alloc n (f : F) :
  writes_above n (alloc f) (fun l => (n <= l)%nat).
Proof.
  intros s Hs. cbn. rewrite length_app. split; [lia|].
  split; [|assumption]. now apply take_app_le.
Qed.

Lemma writes_above_load n l :
  writes_above n (load l : M F F) (fun _ => True).
Proof. intros s Hs. unfold load. destruct (heap s !! l); cbn; auto. Qed.

Lemma writes_above_modify n l (g : F -> F) :
  (n <= l)%nat -> writes_above n (modify l g) (fun _ => True).
Proof.
  intros Hl s Hs. unfold modify. destruct (heap s !! l); cbn; auto.
  rewrite length_insert. split; [assumption|].
  split; [|exact I]. now apply take_insert_ge.
Qed.

Lemma writes_above_copy n l :
  writes_above n (copy l : M F loc) (fun l' => (n <= l')%nat).
Proof.
  unfold copy. apply (writes_above_bind n _ _ (fun _ => True)).
  - apply writes_above_load.
  - intros f _. apply writes_above_alloc.
Qed.
End WritesAbove.

Section WritesAboveFrames.
Context {R : Type}.
Implicit Types (n : nat) (l : loc).

Lemma writes_above_getcol {A} n l (proj : R -> A) :
  writes_above n (getcol l proj) (fun _ => True).
Proof.
  unfold getcol. apply (writes_above_bind n _ _ (fun _ => True)).
  - apply writes_above_load.
  - intros f _. now apply writes_above_ret.
Qed.

Lemma writes_above_getcol_added {A} n l name (proj : R -> option A) :
  writes_above n (getcol_added l name proj) (fun _ => True).
Proof.
  unfold getcol_added. apply (writes_above_bind n _ _ (fun _ => True)).
  - apply writes_above_load.
  - intros f _. apply writes_above_lift.
Qed.

Lemma writes_above_setcol {A} n l (set : A -> R -> R) series :
  (n <= l)%nat -> writes_above n (setcol l set series) (fun _ => True).
Proof. intros Hl. now apply writes_above_modify. Qed.

Lemma writes_above_derive n l (g : list R -> list R) :
  writes_above n (derive l g) (fun l' => (n <= l')%nat).
Proof.
  unfold derive. apply (writes_above_bind n _ _ (fun _ => True)).
  - apply writes_above_load.
  - intros f _. apply writes_above_alloc.
Qed.
End WritesAboveFrames.

Create HintDb frame.
#[export] Hint Resolve writes_above_lift writes_above_print writes_above_alloc
  writes_above_load writes_above_copy writes_above_getcol
  writes_above_getcol_added writes_above_derive : frame.
#[export] Hint Extern 1 (writes_above _ (setcol _ _ _) _) =>
  apply writes_above_setcol; assumption : frame.
#[export] Hint Extern 1 (writes_above _ (mret _) _) =>
  apply writes_above_ret; first [assumption | exact I] : frame.

(** Walks a stage statement by statement. *)
Ltac frame_walk :=
  first
    [ solve [auto with frame]
    | match goal with
      | |- writes_above _ (if ?b then _ else _) _ => destruct b; frame_walk
      end
    | eapply writes_above_bind; [frame_walk | intros ? ?; frame_walk] ].

(** What [writes_above] gives for an object of the initial heap. *)
Lemma writes_above_kept {F A} (m : M F A) (Q : A -> Prop) h o l x :
  writes_above (length h) m Q ->
  h !! l = Some x ->
  heap (fst (m (State h o))) !! l = Some x
  /\ match snd (m (State h o)) with
     | inr a => Q a
     | inl _ => True
     end.
Proof.
  intros Hm Hl. destruct (Hm (State h o)) as (Hlen & Htake & Hres);
    [cbn; lia|].
  split; [|assumption]. cbn [heap] in Htake.
  apply lookup_lt_Some in Hl as Hlt.
  rewrite <- (lookup_take_lt _ (length h)) by assumption.
  rewrite Htake, firstn_all. assumption.
Qed.




Lemma telco_engineer_writes_above n df :
  writes_above n (Telco.engineer_features df) (fun out => (n <= out)%nat).
Proof. unfold Telco.engineer_features. frame_walk. Qed.

(* ===================================================================== *)
(** * Telco: the feature engineer                                         *)
(* ===================================================================== *)

Ltac telco_norm :=
  rewrite ?map_map, ?zip_with_map_map, ?zip_with_map_self;
  cbn [Telco.base Telco.feat Telco.with_feat Telco.set_Is_Senior
       Telco.set_Tenure_Group Telco.set_High_Charges Telco.set_Service_Count
       Telco.set_Monthly_to_Total_Ratio Telco.set_Has_Partner_Dependents
       Telco.set_Internet_Plus_Streaming Telco.set_Risk_Score
       Telco.set_Risk_Category Telco.Risk_Score].

(** On a frame whose TotalCharges column is numeric (as clean_data leaves
    it), engineer_features returns a new object holding the row-wise
    image of the frame, and prints its one line. *)
Lemma telco_engineer_features_run h o df frame :
  h !! df = Some frame ->
  dtype_is_object (map (fun r => Telco.TotalCharges (Telco.base r)) frame)
    = false ->
  Telco.engineer_features df (State h o)
  = (State
       (h ++ [map (Rowwise.telco_featured (Rowwise.telco_charges_75th frame))
                  frame])
       (o ++ ["✅ Feature engineering complete. New features: 9"%string]),
     inr (length h)).
Proof.
  intros Hdf Hnum. unfold Telco.engineer_features.
  rewrite run_bind, (run_copy _ _ _ _ Hdf). cbv beta iota.
  do 3 (run_step; telco_norm).
  rewrite ?run_bind, run_lift, cut_checked by reflexivity. cbv beta iota.
  do 2 (run_step; telco_norm). cbv zeta.
  do 5 (run_step; telco_norm).
  rewrite ?run_bind, run_lift, (as_floats_numeric _ Hnum). cbv beta iota.
  do 8 (run_step; telco_norm).
  rewrite (present_map_Some "Risk_Score"). cbv beta iota.
  rewrite ?run_bind, run_lift, cut_checked by reflexivity. cbv beta iota.
  do 2 (run_step; telco_norm).
  rewrite run_ret. reflexivity.
Qed.

(** The score is the points of the four other rules plus the charges
    point. *)
Lemma calculate_risk_score_split charges_75th row :
  Telco.calculate_risk_score charges_75th row
  = (Rowwise.telco_other_points row
     + (if gtb (Telco.MonthlyCharges row) charges_75th then 1 else 0))%Z.
Proof.
  unfold Telco.calculate_risk_score, Rowwise.telco_other_points.
  destruct (str_is (Telco.Contract row) "Month-to-month");
    destruct (str_is (Telco.Contract row) "One year");
    destruct (leb (Telco.tenure row) (of_Z 12));
    destruct (gtb (Telco.MonthlyCharges row) charges_75th);
    destruct (str_is (Telco.InternetService row) "Fiber optic");
    destruct (str_is (Telco.PaymentMethod row) "Electronic check");
    reflexivity.
Qed.

(** C1. A month-to-month customer with tenure 6, monthly charges
    strictly above the 75th percentile computed at run time, fiber optic
    internet and payment by electronic check: engineer_features returns,
    and in the frame it returns that row has Risk_Score 3+2+1+1+1 = 8 and
    Risk_Category "High Risk". *)
Theorem telco_high_risk_scenario h o df frame i r :
  h !! df = Some frame ->
  dtype_is_object (map (fun r => Telco.TotalCharges (Telco.base r)) frame)
    = false ->
  frame !! i = Some r ->
  str_is (Telco.Contract (Telco.base r)) "Month-to-month" = true ->
  eqb (Telco.tenure (Telco.base r)) (of_Z 6) = true ->
  gtb (Telco.MonthlyCharges (Telco.base r)) (Rowwise.telco_charges_75th frame)
    = true ->
  str_is (Telco.InternetService (Telco.base r)) "Fiber optic" = true ->
  str_is (Telco.PaymentMethod (Telco.base r)) "Electronic check" = true ->
  exists s' out frame' r',
    Telco.engineer_features df (State h o) = (s', inr out)
    /\ heap s' !! out = Some frame'
    /\ frame' !! i = Some r'
    /\ Telco.base r' = Telco.base r
    /\ Telco.Risk_Score (Telco.feat r') = Some (3 + 2 + 1 + 1 + 1)%Z
    /\ Telco.Risk_Category (Telco.feat r') = Some (Some "High Risk"%string).
Proof.
  intros Hdf Hnum Hi Hcontract Htenure Hcharges Hnet Hpay.
  eexists _, _, _, _. split; [apply (telco_engineer_features_run _ _ _ _ Hdf Hnum)|].
  cbn [heap]. split; [apply lookup_last|].
  split; [rewrite lookup_map, Hi; reflexivity|].
  split; [reflexivity|].
  assert (Hscore : Telco.calculate_risk_score (Rowwise.telco_charges_75th frame)
                     (Telco.base r) = 8%Z).
  { unfold Telco.calculate_risk_score.
    rewrite Hcontract, Hcharges, Hnet, Hpay.
    now rewrite (eqb_leb_of_Z _ 6 12 Htenure). }
  unfold Rowwise.telco_featured. cbn. rewrite Hscore. split; reflexivity.
Qed.

(** The scenario of C1 on a four-customer frame. *)
Lemma telco_high_risk_scenario_witness :
  exists s' out frame' r',
    Telco.engineer_features 0%nat (State [Examples.churn_frame] [])
      = (s', inr out)
    /\ heap s' !! out = Some frame'
    /\ frame' !! 0%nat = Some r'
    /\ Telco.base r'
       = Telco.base (Examples.customer "Month-to-month" 6 100 (Val (Fin 600)))
    /\ Telco.Risk_Score (Telco.feat r') = Some (3 + 2 + 1 + 1 + 1)%Z
    /\ Telco.Risk_Category (Telco.feat r') = Some (Some "High Risk"%string).
Proof.
  apply (telco_high_risk_scenario [Examples.churn_frame] [] 0%nat
           Examples.churn_frame 0%nat
           (Examples.customer "Month-to-month" 6 100 (Val (Fin 600))));
    reflexivity.
Defined.



(** ** Tenure groups *)

Lemma Qltb_negb_le a b : Qltb a b = negb (Qle_bool b a).
Proof.
  destruct (Qle_bool b a) eqn:E; simpl.
  - apply Qltb_ge. now apply Qle_bool_iff.
  - apply Qltb_lt. now apply Qle_bool_gt.
Qed.

Ltac to_Q_order :=
  repeat match goal with
         | H : Qle_bool _ _ = true |- _ => apply Qle_bool_iff in H
         | H : Qle_bool _ _ = false |- _ => apply Qle_bool_gt in H
         end;
  unfold inject_Z in *.

(** The bucket of a tenure under the edges 0, 12, 24, 48, inf: every
    interval is open on the left and closed on the right, and a tenure
    that is missing or not above the lowest edge gets no bucket. *)
Lemma tenure_group_cases x :
  cut1 Telco.tenure_bins Telco.tenure_labels false x
  = if isna x || leb x (of_Z 0) then None
    else if leb x (of_Z 12) then Some "New (0-12m)"%string
    else if leb x (of_Z 24) then Some "Growing (13-24m)"%string
    else if leb x (of_Z 48) then Some "Mature (25-48m)"%string
    else Some "Loyal (48m+)"%string.
Proof.
  destruct x as [| |q|]; try reflexivity.
  unfold cut1, searchsorted_left, Telco.tenure_bins, of_Z.
  cbn [isna orb andb List.filter ltb leb].
  rewrite !Qltb_negb_le.
  destruct (Qle_bool q (inject_Z 0)) eqn:E0;
    destruct (Qle_bool q (inject_Z 12)) eqn:E12;
    destruct (Qle_bool q (inject_Z 24)) eqn:E24;
    destruct (Qle_bool q (inject_Z 48)) eqn:E48;
    try reflexivity; exfalso; to_Q_order; lra.
Qed.

(** The documented example: a tenure of 24 months is "Growing". *)
Lemma tenure_group_24 :
  cut1 Telco.tenure_bins Telco.tenure_labels false (of_Z 24)
  = Some "Growing (13-24m)"%string.
Proof. reflexivity. Qed.

(** C6. A customer with tenure 0: engineer_features returns, and the
    row's Tenure_Group is the missing value, although the first label
    reads "New (0-12m)". *)
Theorem telco_tenure_zero_has_no_group h o df frame i r :
  h !! df = Some frame ->
  dtype_is_object (map (fun r => Telco.TotalCharges (Telco.base r)) frame)
    = false ->
  frame !! i = Some r ->
  eqb (Telco.tenure (Telco.base r)) (of_Z 0) = true ->
  exists s' out frame' r',
    Telco.engineer_features df (State h o) = (s', inr out)
    /\ heap s' !! out = Some frame'
    /\ frame' !! i = Some r'
    /\ Telco.base r' = Telco.base r
    /\ Telco.Tenure_Group (Telco.feat r') = Some None.
Proof.
  intros Hdf Hnum Hi Hzero.
  eexists _, _, _, _.
  split; [apply (telco_engineer_features_run _ _ _ _ Hdf Hnum)|].
  cbn [heap]. split; [apply lookup_last|].
  split; [rewrite lookup_map, Hi; reflexivity|].
  split; [reflexivity|].
  unfold Rowwise.telco_featured. cbn [Telco.Tenure_Group Telco.feat
    Telco.with_feat Telco.set_Is_Senior Telco.set_Tenure_Group
    Telco.set_High_Charges Telco.set_Service_Count
    Telco.set_Monthly_to_Total_Ratio Telco.set_Has_Partner_Dependents
    Telco.set_Internet_Plus_Streaming Telco.set_Risk_Score
    Telco.set_Risk_Category].
  rewrite tenure_group_cases.
  rewrite (eqb_leb_of_Z _ 0 0 Hzero) by lia.
  now rewrite orb_true_r.
Qed.

(** C6 on the four-customer frame, whose second customer has tenure 0. *)
Lemma telco_tenure_zero_has_no_group_witness :
  exists s' out frame' r',
    Telco.engineer_features 0%nat (State [Examples.churn_frame] [])
      = (s', inr out)
    /\ heap s' !! out = Some frame'
    /\ frame' !! 1%nat = Some r'
    /\ Telco.base r'
       = Telco.base (Examples.customer "Month-to-month" 0 20 (Val (Fin 0)))
    /\ Telco.Tenure_Group (Telco.feat r') = Some None.
Proof.
  apply (telco_tenure_zero_has_no_group [Examples.churn_frame] [] 0%nat
           Examples.churn_frame 1%nat
           (Examples.customer "Month-to-month" 0 20 (Val (Fin 0))));
    reflexivity.
Defined.

(* ===================================================================== *)
(** * Telco: the cleaner                                                  *)
(* ===================================================================== *)

Lemma to_numeric_from_parses i col :
  forallb Rowwise.parses col = true ->
  to_numeric_from i col = inr (map Rowwise.parsed_value col).
Proof.
  revert i. induction col as [|c col IH]; intros i; simpl; [reflexivity|].
  intros H. apply andb_prop in H as [Hc Hcol].
  rewrite (IH _ Hcol). destruct c as [t|x]; simpl in *; [|reflexivity].
  destruct (parse_float t); [reflexivity | discriminate].
Qed.

Lemma to_numeric_parses col :
  forallb Rowwise.parses col = true ->
  to_numeric col = inr (map Rowwise.parsed_value col).
Proof. apply to_numeric_from_parses. Qed.

Lemma to_numeric_from_raises i col :
  forallb Rowwise.parses col = false ->
  exists t j, In (Txt t) col /\ parse_float t = None
              /\ to_numeric_from i col = inl (ValueError (unable_to_parse t j)).
Proof.
  revert i. induction col as [|c col IH]; intros i; simpl; [discriminate|].
  intros H. apply andb_false_iff in H.
  destruct c as [t|x]; simpl in *.
  - destruct (parse_float t) eqn:Ht.
    + destruct H as [H|H]; [discriminate|].
      destruct (IH (S i) H) as (u & j & Hin & Hu & Hraise).
      exists u, j. rewrite Hraise. auto.
    + exists t, i. auto.
  - destruct H as [H|H]; [discriminate|].
    destruct (IH (S i) H) as (u & j & Hin & Hu & Hraise).
    exists u, j. rewrite Hraise. auto.
Qed.

Lemma to_numeric_raises col :
  forallb Rowwise.parses col = false ->
  exists t j, In (Txt t) col /\ parse_float t = None
              /\ to_numeric col = inl (ValueError (unable_to_parse t j)).
Proof. apply to_numeric_from_raises. Qed.

Lemma as_floats_map_Val {A} (f : A -> num) (l : list A) :
  as_floats (map (fun x => Val (f x)) l) = inr (map f l).
Proof. induction l as [|x l IH]; simpl; [reflexivity | now rewrite IH]. Qed.

(** A text cell that survives the replacement is not the blank. *)
Lemma replace_blank_Txt o t :
  replace_blank o = Txt t -> o = Txt t /\ t <> " "%string.
Proof.
  destruct o as [u|x]; simpl; [|discriminate].
  destruct (String.eqb u " ") eqn:E; [discriminate|].
  intros H; inversion H; subst. split; [reflexivity|].
  now apply String.eqb_neq.
Qed.

Ltac telco_clean_norm :=
  rewrite ?map_map, ?zip_with_map_map, ?zip_with_map_self;
  cbn [Telco.base Telco.feat Telco.set_TotalCharges Telco.TotalCharges].

(** A numeric TotalCharges column is left alone: clean_data copies the
    frame and drops the duplicates. *)
Lemma telco_clean_data_numeric_run h o df frame :
  h !! df = Some frame ->
  dtype_is_object (map (fun r => Telco.TotalCharges (Telco.base r)) frame)
    = false ->
  Telco.clean_data df (State h o)
  = (State ((h ++ [frame]) ++ [Telco.drop_duplicates frame])
           (o ++ [("✅ Data cleaning complete. Shape: "
                   ++ Telco.shape (Telco.drop_duplicates frame))%string]),
     inr (length (h ++ [frame]))).
Proof.
  intros Hdf Hnum. unfold Telco.clean_data.
  rewrite run_bind, (run_copy _ _ _ _ Hdf). cbv beta iota.
  run_step. rewrite Hnum. cbv iota.
  rewrite ?run_bind, run_ret. cbv beta iota.
  do 3 run_step. now rewrite run_ret.
Qed.

(** A text column all of whose entries are blank or parse: the entries
    are parsed, the missing ones filled with the median, the duplicates
    dropped. *)
Lemma telco_clean_data_text_run h o df frame :
  h !! df = Some frame ->
  dtype_is_object (map (fun r => Telco.TotalCharges (Telco.base r)) frame)
    = true ->
  forallb Rowwise.parses
    (map (fun r => replace_blank (Telco.TotalCharges (Telco.base r))) frame)
    = true ->
  Telco.clean_data df (State h o)
  = (State ((h ++ [Rowwise.telco_filled frame])
              ++ [Telco.drop_duplicates (Rowwise.telco_filled frame)])
           (o ++ [("✅ Data cleaning complete. Shape: "
                   ++ Telco.shape
                        (Telco.drop_duplicates (Rowwise.telco_filled frame)))
                  %string]),
     inr (length (h ++ [Rowwise.telco_filled frame]))).
Proof.
  intros Hdf Hobj Hparse. unfold Telco.clean_data.
  rewrite run_bind, (run_copy _ _ _ _ Hdf). cbv beta iota.
  run_step. rewrite Hobj. cbv iota.
  do 2 (run_step; telco_clean_norm).
  rewrite ?run_bind, run_lift, (to_numeric_parses _ Hparse). cbv beta iota.
  do 2 (run_step; telco_clean_norm).
  rewrite ?run_bind, run_lift, as_floats_map_Val. cbv beta iota.
  run_step; telco_clean_norm.
  do 3 run_step. now rewrite run_ret.
Qed.

(** A text column with an entry that is neither blank nor a number: the
    coercion raises, after the blanks have been replaced in the copy. *)
Lemma telco_clean_data_text_raises h o df frame :
  h !! df = Some frame ->
  dtype_is_object (map (fun r => Telco.TotalCharges (Telco.base r)) frame)
    = true ->
  forallb Rowwise.parses
    (map (fun r => replace_blank (Telco.TotalCharges (Telco.base r))) frame)
    = false ->
  exists t r position,
    In r frame /\ Telco.TotalCharges (Telco.base r) = Txt t
    /\ t <> " "%string /\ parse_float t = None
    /\ snd (Telco.clean_data df (State h o))
       = inl (ValueError (unable_to_parse t position)).
Proof.
  intros Hdf Hobj Hparse.
  destruct (to_numeric_raises _ Hparse) as (t & pos & Hin & Ht & Hraise).
  apply in_map_iff in Hin as (r & Hr & Hin).
  apply replace_blank_Txt in Hr as [Hr Hblank].
  exists t, r, pos. repeat split; auto.
  unfold Telco.clean_data.
  rewrite run_bind, (run_copy _ _ _ _ Hdf). cbv beta iota.
  run_step. rewrite Hobj. cbv iota.
  do 2 (run_step; telco_clean_norm).
  rewrite ?run_bind, run_lift, Hraise. reflexivity.
Qed.


Lemma dtype_map_Val {A} (f : A -> num) (l : list A) :
  dtype_is_object (map (fun x => Val (f x)) l) = false.
Proof. induction l as [|x l IH]; simpl; [reflexivity | exact IH]. Qed.

(** After the fill every TotalCharges cell is a number. *)
Lemma telco_filled_numeric frame :
  dtype_is_object
    (map (fun r => Telco.TotalCharges (Telco.base r))
         (Rowwise.telco_filled frame)) = false.
Proof.
  unfold Rowwise.telco_filled. rewrite map_map.
  cbn [Telco.base Telco.set_TotalCharges Telco.TotalCharges].
  apply dtype_map_Val.
Qed.




(* ===================================================================== *)
(** * Airbnb: the cleaner                                                 *)
(* ===================================================================== *)

Lemma select_map_filter {A} (p : A -> bool) (l : list A) :
  select (map p l) l = List.filter p l.
Proof.
  induction l as [|x l IH]; simpl; [reflexivity|].
  rewrite IH. reflexivity.
Qed.

Lemma filter_length_le {A} (p : A -> bool) (l : list A) :
  (length (List.filter p l) <= length l)%nat.
Proof.
  induction l as [|x l IH]; simpl; [lia|].
  destruct (p x); simpl; lia.
Qed.

Ltac airbnb_norm :=
  rewrite ?map_map, ?zip_with_map_map, ?zip_with_map_self;
  cbn [Airbnb.base Airbnb.feat Airbnb.with_base Airbnb.with_feat
       Airbnb.set_number_of_reviews Airbnb.set_reviews_per_month
       Airbnb.set_calculated_host_listings_count
       Airbnb.set_revenue_potential Airbnb.set_host_type
       Airbnb.price Airbnb.number_of_reviews Airbnb.reviews_per_month
       Airbnb.calculated_host_listings_count Airbnb.availability_365].

(** clean_airbnb_data builds three objects (the copy, the rows in the
    price range, the rows with the critical cells) and returns the last
    one with its three columns filled. *)
Lemma airbnb_clean_run h o df frame price_min price_max :
  h !! df = Some frame ->
  Airbnb.clean_airbnb_data df price_min price_max (State h o)
  = (State
       (((h ++ [frame])
           ++ [List.filter (Rowwise.airbnb_price_ok price_min price_max) frame])
          ++ [Rowwise.airbnb_cleaned price_min price_max frame])
       o,
     inr (length
            ((h ++ [frame])
               ++ [List.filter (Rowwise.airbnb_price_ok price_min price_max)
                     frame]))).
Proof.
  intros Hdf. unfold Airbnb.clean_airbnb_data.
  rewrite run_bind, (run_copy _ _ _ _ Hdf). cbv beta iota.
  do 2 run_step. cbv zeta.
  run_step. rewrite !map_map, zip_with_map_map, select_map_filter.
  do 7 (run_step; airbnb_norm).
  rewrite run_ret. reflexivity.
Qed.

Lemma airbnb_fill_base r :
  Airbnb.price (Airbnb.base (Rowwise.airbnb_fill r))
    = Airbnb.price (Airbnb.base r)
  /\ Airbnb.neighbourhood_group (Airbnb.base (Rowwise.airbnb_fill r))
     = Airbnb.neighbourhood_group (Airbnb.base r)
  /\ Airbnb.room_type (Airbnb.base (Rowwise.airbnb_fill r))
     = Airbnb.room_type (Airbnb.base r).
Proof. repeat split. Qed.

(** Every row that clean_airbnb_data keeps has its critical cells and a
    price within the bounds. *)
Lemma airbnb_cleaned_rows price_min price_max frame r :
  In r (Rowwise.airbnb_cleaned price_min price_max frame) ->
  str_isna (Airbnb.neighbourhood_group (Airbnb.base r)) = false
  /\ str_isna (Airbnb.room_type (Airbnb.base r)) = false
  /\ isna (Airbnb.price (Airbnb.base r)) = false
  /\ leb price_min (Airbnb.price (Airbnb.base r)) = true
  /\ leb (Airbnb.price (Airbnb.base r)) price_max = true.
Proof.
  unfold Rowwise.airbnb_cleaned, Airbnb.dropna_subset. intros Hin.
  apply in_map_iff in Hin as (r0 & <- & Hin).
  apply filter_In in Hin as [Hin Hcritical].
  apply filter_In in Hin as [_ Hprice].
  destruct (airbnb_fill_base r0) as (-> & -> & ->).
  unfold Airbnb.critical_columns in Hcritical. cbn [forallb] in Hcritical.
  apply andb_prop in Hcritical as [Hgroup Hcritical].
  apply andb_prop in Hcritical as [Hroom Hcritical].
  apply andb_prop in Hcritical as [Hmissing _].
  apply negb_true_iff in Hgroup, Hroom, Hmissing.
  unfold Rowwise.airbnb_price_ok, geb in Hprice.
  apply andb_prop in Hprice as [Hlow Hhigh].
  auto.
Qed.

(** C5. For every frame and every pair of bounds, clean_airbnb_data
    returns, and every row of the frame it returns has neighbourhood_group,
    room_type and price present and price_min <= price <= price_max. *)
Theorem airbnb_clean_rows_in_bounds h o df frame price_min price_max :
  h !! df = Some frame ->
  exists s' out frame',
    Airbnb.clean_airbnb_data df price_min price_max (State h o)
      = (s', inr out)
    /\ heap s' !! out = Some frame'
    /\ forall r, In r frame' ->
         str_isna (Airbnb.neighbourhood_group (Airbnb.base r)) = false
         /\ str_isna (Airbnb.room_type (Airbnb.base r)) = false
         /\ isna (Airbnb.price (Airbnb.base r)) = false
         /\ leb price_min (Airbnb.price (Airbnb.base r)) = true
         /\ leb (Airbnb.price (Airbnb.base r)) price_max = true.
Proof.
  intros Hdf. eexists _, _, _.
  split; [apply (airbnb_clean_run _ _ _ _ _ _ Hdf)|].
  cbn [heap]. split; [apply lookup_last|].
  intros r. apply airbnb_cleaned_rows.
Qed.

(** C5 on six listings, with the default bounds. *)
Lemma airbnb_clean_rows_in_bounds_witness :
  exists s' out frame',
    Airbnb.clean_airbnb_data 0%nat Airbnb.default_price_min
      Airbnb.default_price_max (State [Examples.listings_frame] [])
      = (s', inr out)
    /\ heap s' !! out = Some frame'
    /\ forall r, In r frame' ->
         str_isna (Airbnb.neighbourhood_group (Airbnb.base r)) = false
         /\ str_isna (Airbnb.room_type (Airbnb.base r)) = false
         /\ isna (Airbnb.price (Airbnb.base r)) = false
         /\ leb Airbnb.default_price_min (Airbnb.price (Airbnb.base r)) = true
         /\ leb (Airbnb.price (Airbnb.base r)) Airbnb.default_price_max = true.
Proof.
  apply (airbnb_clean_rows_in_bounds [Examples.listings_frame] [] 0%nat
           Examples.listings_frame); reflexivity.
Defined.

(* ===================================================================== *)
(** * Airbnb: the feature engineer and the loader                         *)
(* ===================================================================== *)

Lemma cut_rejected x bins labels lowest e :
  cut_check bins labels = Some e -> cut x bins labels lowest = inl e.
Proof. intros H. unfold cut. now rewrite H. Qed.

(** The review edges 0, 0, 10, 50, inf repeat an edge, which [cut]
    refuses whatever the data. *)
Lemma review_bins_rejected :
  cut_check Airbnb.review_bins Airbnb.review_labels
  = Some (ValueError "Bin edges must be unique").
Proof. reflexivity. Qed.

(** engineer_features assigns revenue_potential and host_type in its
    copy and raises at the review bucketing, for every frame. *)
Lemma airbnb_engineer_features_run h o df frame :
  h !! df = Some frame ->
  Airbnb.engineer_features df (State h o)
  = (State (h ++ [map Rowwise.airbnb_started frame]) o,
     inl (ValueError "Bin edges must be unique")).
Proof.
  intros Hdf. unfold Airbnb.engineer_features.
  rewrite run_bind, (run_copy _ _ _ _ Hdf). cbv beta iota.
  do 6 (run_step; airbnb_norm).
  rewrite ?run_bind, run_lift, (cut_rejected _ _ _ _ _ review_bins_rejected).
  reflexivity.
Qed.

Lemma airbnb_cleaned_length price_min price_max frame :
  (length (Rowwise.airbnb_cleaned price_min price_max frame)
   <= length frame)%nat.
Proof.
  unfold Rowwise.airbnb_cleaned, Airbnb.dropna_subset.
  rewrite length_map.
  etransitivity; [apply filter_length_le|apply filter_length_le].
Qed.

(** Rows without engineered columns keep none through the cleaner. *)
Lemma airbnb_cleaned_feat price_min price_max frame r :
  In r (Rowwise.airbnb_cleaned price_min price_max frame) ->
  exists r0, In r0 frame /\ Airbnb.feat r = Airbnb.feat r0.
Proof.
  unfold Rowwise.airbnb_cleaned, Airbnb.dropna_subset. intros Hin.
  apply in_map_iff in Hin as (r0 & <- & Hin).
  apply filter_In in Hin as [Hin _].
  apply filter_In in Hin as [Hin _].
  exists r0. split; [assumption | reflexivity].
Qed.

(** C3. The seeded 1000-row sample, whatever the generator draws: the
    cleaner returns at most 1000 rows, all with a price in [10, 1000];
    engineer_features then raises ValueError at the review bucketing,
    and no row of the frame it was building has a price_category. *)
Theorem airbnb_sample_pipeline_stops (d : Airbnb.Draws) h o :
  exists s1 df s2 df_clean cleaned s3 partial,
    Airbnb.create_sample_data d 1000 (State h o) = (s1, inr df)
    /\ Airbnb.clean_airbnb_data df Airbnb.default_price_min
         Airbnb.default_price_max s1 = (s2, inr df_clean)
    /\ heap s2 !! df_clean = Some cleaned
    /\ (length cleaned <= 1000)%nat
    /\ (forall r, In r cleaned ->
          leb (of_Z 10) (Airbnb.price (Airbnb.base r)) = true
          /\ leb (Airbnb.price (Airbnb.base r)) (of_Z 1000) = true)
    /\ Airbnb.engineer_features df_clean s2
       = (s3, inl (ValueError "Bin edges must be unique"))
    /\ heap s3 = heap s2 ++ [partial]
    /\ length partial = length cleaned
    /\ forall r, In r partial -> Airbnb.price_category (Airbnb.feat r) = None.
Proof.
  set (sample := map (Airbnb.sample_row d 1000) (seq 0 1000)).
  eexists _, _, _, _, _, _, _.
  split; [reflexivity|].
  split; [apply airbnb_clean_run; cbn [heap]; apply lookup_last|].
  cbn [heap]. split; [apply lookup_last|].
  split.
  { etransitivity; [apply airbnb_cleaned_length|].
    now rewrite length_map, length_seq. }
  split.
  { intros r Hin.
    now destruct (airbnb_cleaned_rows _ _ _ _ Hin) as (_ & _ & _ & ? & ?). }
  split; [apply airbnb_engineer_features_run; apply lookup_last|].
  cbn [heap]. split; [reflexivity|].
  split; [apply length_map|].
  intros r Hin. apply in_map_iff in Hin as (r1 & <- & Hin).
  apply airbnb_cleaned_feat in Hin as (r0 & Hin & Hfeat).
  apply in_map_iff in Hin as (i & <- & _).
  cbn [Rowwise.airbnb_started Airbnb.feat Airbnb.with_feat
       Airbnb.set_host_type Airbnb.set_revenue_potential
       Airbnb.price_category].
  now rewrite Hfeat.
Qed.

Lemma usable_fallback fs file_path :
  file_path = None
  \/ (exists p, file_path = Some p /\ Airbnb.path_exists fs p = false) ->
  Airbnb.usable fs file_path = None.
Proof.
  intros [-> | (p & -> & Hp)]; [reflexivity|].
  unfold Airbnb.usable. rewrite Hp. now rewrite andb_false_r.
Qed.

(** C7. Without a path, or with a path that names no file, the loader
    prints that it creates sample data, builds and cleans the sample, and
    then raises ValueError out of engineer_features: nothing is printed
    after the first line and no frame is returned. *)
Theorem airbnb_loader_fallback_stops fs (d : Airbnb.Draws) file_path h o :
  file_path = None
  \/ (exists p, file_path = Some p /\ Airbnb.path_exists fs p = false) ->
  exists s',
    Airbnb.load_and_prepare_data fs d file_path (State h o)
    = (s', inl (ValueError "Bin edges must be unique"))
    /\ stdout s' = o ++ ["Creating sample data for demonstration..."%string].
Proof.
  intros Hpath. unfold Airbnb.load_and_prepare_data.
  rewrite (usable_fallback _ _ Hpath).
  unfold Airbnb.create_sample_data, Airbnb.default_n_samples.
  set (sample := map (Airbnb.sample_row d 1000) (seq 0 1000)).
  rewrite !run_bind, run_print. cbv beta iota.
  unfold alloc at 1. cbn [heap stdout].
  rewrite !run_bind.
  rewrite (airbnb_clean_run _ _ (length h) sample) by apply lookup_last.
  cbv beta iota. rewrite !run_bind.
  rewrite (airbnb_engineer_features_run _ _ _ _ (lookup_last _ _)).
  eexists. split; reflexivity.
Qed.

(** C7 with no path at all, and with a path on a file system without
    files. *)
Lemma airbnb_loader_fallback_stops_witness :
  (exists s',
     Airbnb.load_and_prepare_data Examples.no_files Examples.constant_draws
       None (State [] [])
     = (s', inl (ValueError "Bin edges must be unique"))
     /\ stdout s' = [] ++ ["Creating sample data for demonstration..."%string])
  /\ (exists s',
        Airbnb.load_and_prepare_data Examples.no_files Examples.constant_draws
          (Some "../data/raw/AB_NYC_2019.csv"%string) (State [] [])
        = (s', inl (ValueError "Bin edges must be unique"))
        /\ stdout s'
           = [] ++ ["Creating sample data for demonstration..."%string]).
Proof.
  split.
  - apply (airbnb_loader_fallback_stops Examples.no_files
             Examples.constant_draws None [] []).
    left. reflexivity.
  - apply (airbnb_loader_fallback_stops Examples.no_files
             Examples.constant_draws
             (Some "../data/raw/AB_NYC_2019.csv"%string) [] []).
    right. eexists. split; reflexivity.
Defined.

(** ** Availability buckets *)





(* ===================================================================== *)
(** * Instacart: the stages write into their argument                    *)
(* ===================================================================== *)

Section RunAt.
Context {R : Type}.
Implicit Types (h : list (list R)) (o : list string) (x : list R) (l : loc).

Lemma run_getcol_at {A} h o l x (proj : R -> A) :
  h !! l = Some x ->
  getcol l proj (State h o) = (State h o, inr (map proj x)).
Proof.
  intros H. unfold getcol, load. rewrite run_bind. cbn [heap].
  now rewrite H.
Qed.

Lemma run_setcol_at {A} h o l x (set : A -> R -> R) series :
  h !! l = Some x ->
  setcol l set series (State h o)
  = (State (<[l := zip_with set series x]> h) o, inr tt).
Proof. intros H. unfold setcol, modify. cbn [heap]. now rewrite H. Qed.

Lemma run_load_at h o l x :
  h !! l = Some x -> load l (State h o) = (State h o, inr x).
Proof. intros H. unfold load. cbn [heap]. now rewrite H. Qed.

Lemma run_derive_at h o l x g :
  h !! l = Some x ->
  derive l g (State h o) = (State (h ++ [g x]) o, inr (length h)).
Proof.
  intros H. unfold derive. rewrite run_bind, (run_load_at _ _ _ _ H).
  reflexivity.
Qed.

(** An object that was just assigned is what the next statement reads. *)
Lemma lookup_assigned h l x y :
  h !! l = Some x -> <[l := y]> h !! l = Some y.
Proof.
  intros H. apply list_lookup_insert_eq. now apply lookup_lt_Some in H.
Qed.

Lemma lookup_assigned_grown h l x y z :
  h !! l = Some x -> (<[l := y]> h ++ [z]) !! l = Some y.
Proof.
  intros H. apply lookup_lt_Some in H as Hlt.
  rewrite lookup_app_l by now rewrite length_insert.
  now apply list_lookup_insert_eq.
Qed.
End RunAt.

Ltac instacart_norm :=
  rewrite ?map_map, ?zip_with_map_map, ?zip_with_map_self;
  cbn [Instacart.base Instacart.feat Instacart.with_feat
       Instacart.set_days_since_prior_order Instacart.set_synthetic_date
       Instacart.set_order_dow_name Instacart.set_hour_category
       Instacart.order_id Instacart.order_number Instacart.order_dow
       Instacart.order_hour_of_day Instacart.days_since_prior_order].

(** clean_data assigns the filled column in the object it was given, and
    returns a new object with the rows that have the essential cells. *)
Lemma instacart_clean_run h o df frame :
  h !! df = Some frame ->
  heap (fst (Instacart.clean_data df (State h o)))
  = <[df := map Rowwise.instacart_days_filled frame]> h
    ++ [Instacart.dropna_subset Instacart.essential_columns
          (map Rowwise.instacart_days_filled frame)]
  /\ snd (Instacart.clean_data df (State h o)) = inr (length h).
Proof.
  intros Hdf. unfold Instacart.clean_data.
  rewrite !run_bind, run_print. cbv beta iota.
  rewrite !run_bind, (run_getcol_at _ _ _ _ _ Hdf). cbv beta iota.
  rewrite !run_bind, (run_setcol_at _ _ _ _ _ _ Hdf). cbv beta iota.
  instacart_norm.
  fold Rowwise.instacart_days_filled.
  change (fun x : Instacart.Row =>
            Instacart.set_days_since_prior_order
              (fillna (of_Z 0)
                 (Instacart.days_since_prior_order (Instacart.base x))) x)
    with Rowwise.instacart_days_filled.
  pose proof (lookup_assigned _ _ _
                (map Rowwise.instacart_days_filled frame) Hdf) as Hdf'.
  rewrite !run_bind, (run_load_at _ _ _ _ Hdf'). cbv beta iota.
  rewrite !run_bind, (run_derive_at _ _ _ _ _ Hdf'). cbv beta iota.
  run_step. cbv zeta.
  destruct (negb _).
  - do 10 run_step. rewrite run_ret. cbn [fst snd heap].
    now rewrite length_insert.
  - rewrite ?run_bind, run_ret. cbv beta iota.
    do 9 run_step. rewrite run_ret. cbn [fst snd heap].
    now rewrite length_insert.
Qed.






(* ===================================================================== *)
(** * The weekend lift of the executive summary                           *)
(* ===================================================================== *)

Lemma same_refl x : same x x = true.
Proof.
  destruct x as [| |q|]; try reflexivity.
  apply Qeq_bool_iff. reflexivity.
Qed.

Lemma same_sym x y : same x y = same y x.
Proof.
  destruct x as [| |a|], y as [| |b|]; try reflexivity. simpl.
  destruct (Qeq_bool a b) eqn:E, (Qeq_bool b a) eqn:E'; try reflexivity.
  - apply Qeq_bool_iff in E. symmetry in E. apply Qeq_bool_iff in E.
    congruence.
  - apply Qeq_bool_iff in E'. symmetry in E'. apply Qeq_bool_iff in E'.
    congruence.
Qed.

Section Distinct.
Context {A : Type} (eq : A -> A -> bool).
Hypothesis eq_refl' : forall x, eq x x = true.
Hypothesis eq_sym' : forall x y, eq x y = eq y x.

(** What is kept is taken from the list, is new against what was seen,
    covers the list, and holds no two elements that [eq] identifies. *)
Lemma drop_duplicates_from_spec seen l :
  (forall y, In y (drop_duplicates_from eq seen l) ->
     In y l /\ existsb (eq y) seen = false)
  /\ (forall x, In x l ->
        existsb (eq x) (seen ++ drop_duplicates_from eq seen l) = true)
  /\ unique_by eq (drop_duplicates_from eq seen l) = true.
Proof.
  revert seen. induction l as [|x l IH]; intros seen; simpl.
  - split; [intros y []|]. split; [intros x []|reflexivity].
  - destruct (existsb (eq x) seen) eqn:Hseen.
    + destruct (IH seen) as (Hfrom & Hcover & Huniq).
      split; [|split].
      * intros y Hy. destruct (Hfrom y Hy). auto.
      * intros z [<-|Hz]; [|auto].
        rewrite existsb_app, Hseen. reflexivity.
      * assumption.
    + destruct (IH (seen ++ [x])) as (Hfrom & Hcover & Huniq).
      split; [|split].
      * intros y [<-|Hy]; [auto|].
        destruct (Hfrom y Hy) as [Hin Hnew].
        rewrite existsb_app in Hnew. apply orb_false_iff in Hnew as [? _].
        auto.
      * intros z [<-|Hz].
        -- rewrite existsb_app. simpl. rewrite eq_refl'.
           now rewrite orb_true_r.
        -- specialize (Hcover z Hz). now rewrite <- app_assoc in Hcover.
      * simpl. rewrite Huniq, andb_true_r. apply negb_true_iff.
        apply not_true_iff_false. intros Hex.
        apply existsb_exists in Hex as (y & Hy & Hxy).
        destruct (Hfrom y Hy) as [_ Hnew].
        rewrite existsb_app in Hnew. apply orb_false_iff in Hnew as [_ Hnew].
        simpl in Hnew. rewrite orb_false_r, eq_sym' in Hnew. congruence.
Qed.
End Distinct.

(** [nunique] counts the distinct values that are not missing: it is
    the length of a list of values of the series, none missing, no two
    the same, in which every non-missing value of the series has its
    like. *)
Lemma nunique_counts_distinct s :
  exists reps,
    nunique s = length reps
    /\ (forall y, In y reps -> In y s /\ isna y = false)
    /\ (forall x, In x s -> isna x = false -> existsb (same x) reps = true)
    /\ unique_by same reps = true.
Proof.
  exists (drop_duplicates_by same (dropna s)).
  destruct (drop_duplicates_from_spec same same_refl same_sym [] (dropna s))
    as (Hfrom & Hcover & Huniq).
  split; [reflexivity|]. split; [|split; [|assumption]].
  - intros y Hy. destruct (Hfrom y Hy) as [Hin _].
    apply filter_In in Hin as [Hin Hna].
    split; [assumption|]. now apply negb_true_iff in Hna.
  - intros x Hx Hna. apply (Hcover x).
    apply filter_In. split; [assumption|]. now apply negb_true_iff.
Qed.

(** The rows the two masks select are the weekend rows and the others. *)
Lemma weekend_orders_filter master_df :
  Summary.weekend_orders master_df
  = Z.of_nat
      (nunique
         (map Summary.order_id
            (List.filter (fun r => Summary.isin_weekend (Summary.order_dow r))
               master_df))).
Proof. unfold Summary.weekend_orders. now rewrite select_map_filter. Qed.

Lemma weekday_orders_filter master_df :
  Summary.weekday_orders master_df
  = Z.of_nat
      (nunique
         (map Summary.order_id
            (List.filter
               (fun r => negb (Summary.isin_weekend (Summary.order_dow r)))
               master_df))).
Proof. unfold Summary.weekday_orders. now rewrite select_map_filter. Qed.

(** The weekend count is the number of distinct order ids among the
    rows whose day is 0 or 6: the length of a list of such ids, none
    missing, no two the same, that has the like of every such id. *)
Lemma weekend_orders_counts_distinct master_df :
  exists ids,
    Summary.weekend_orders master_df = Z.of_nat (length ids)
    /\ unique_by same ids = true
    /\ (forall y, In y ids ->
          isna y = false
          /\ exists r, In r master_df
                       /\ Summary.isin_weekend (Summary.order_dow r) = true
                       /\ Summary.order_id r = y)
    /\ (forall r, In r master_df ->
          Summary.isin_weekend (Summary.order_dow r) = true ->
          isna (Summary.order_id r) = false ->
          existsb (same (Summary.order_id r)) ids = true).
Proof.
  rewrite weekend_orders_filter.
  destruct (nunique_counts_distinct
              (map Summary.order_id
                 (List.filter
                    (fun r => Summary.isin_weekend (Summary.order_dow r))
                    master_df)))
    as (ids & Hcount & Hfrom & Hcover & Huniq).
  exists ids. split; [now rewrite Hcount|]. split; [assumption|]. split.
  - intros y Hy. destruct (Hfrom y Hy) as [Hin Hna]. split; [assumption|].
    apply in_map_iff in Hin as (r & Hr & Hin).
    apply filter_In in Hin as [Hin Hweekend]. eauto.
  - intros r Hin Hweekend Hna. apply Hcover; [|assumption].
    apply in_map_iff. exists r. split; [reflexivity|].
    apply filter_In. auto.
Qed.

(** The weekday count is the same over the other rows. *)
Lemma weekday_orders_counts_distinct master_df :
  exists ids,
    Summary.weekday_orders master_df = Z.of_nat (length ids)
    /\ unique_by same ids = true
    /\ (forall y, In y ids ->
          isna y = false
          /\ exists r, In r master_df
                       /\ Summary.isin_weekend (Summary.order_dow r) = false
                       /\ Summary.order_id r = y)
    /\ (forall r, In r master_df ->
          Summary.isin_weekend (Summary.order_dow r) = false ->
          isna (Summary.order_id r) = false ->
          existsb (same (Summary.order_id r)) ids = true).
Proof.
  rewrite weekday_orders_filter.
  destruct (nunique_counts_distinct
              (map Summary.order_id
                 (List.filter
                    (fun r => negb (Summary.isin_weekend (Summary.order_dow r)))
                    master_df)))
    as (ids & Hcount & Hfrom & Hcover & Huniq).
  exists ids. split; [now rewrite Hcount|]. split; [assumption|]. split.
  - intros y Hy. destruct (Hfrom y Hy) as [Hin Hna]. split; [assumption|].
    apply in_map_iff in Hin as (r & Hr & Hin).
    apply filter_In in Hin as [Hin Hweekday].
    apply negb_true_iff in Hweekday. eauto.
  - intros r Hin Hweekday Hna. apply Hcover; [|assumption].
    apply in_map_iff. exists r. split; [reflexivity|].
    apply filter_In. split; [assumption|]. now apply negb_true_iff.
Qed.



(** ** How far the lift can go *)

Lemma inject_Z_pos z : 0 < z -> (0 < inject_Z z)%Q.
Proof. intros H. unfold Qlt, inject_Z. simpl. lia. Qed.

Lemma inject_Z_sub x y : inject_Z (x - y) = (inject_Z x - inject_Z y)%Q.
Proof.
  unfold Z.sub. now rewrite inject_Z_plus, inject_Z_opp.
Qed.

Lemma inject_Z_nonneg z : 0 <= z <-> (0 <= inject_Z z)%Q.
Proof. unfold Qle, inject_Z. simpl. lia. Qed.

(** X21. With weekday orders present the weekend lift is never below
    -100 (percent): it is -100 when there is no weekend order, it is
    not negative exactly when the weekend has at least as many orders
    as the weekdays, and it is 0 when both counts are equal. *)
Theorem weekend_lift_range master_df :
  let W := Summary.weekend_orders master_df in
  let D := Summary.weekday_orders master_df in
  0 < D ->
  (-100 <= Summary.weekend_lift master_df)%Q
  /\ (D <= W <-> (0 <= Summary.weekend_lift master_df)%Q)
  /\ (W = 0 -> (Summary.weekend_lift master_df == -100)%Q)
  /\ (W = D -> (Summary.weekend_lift master_df == 0)%Q).
Proof.
  intros W D Hpos.
  assert (HW : 0 <= W) by (unfold W, Summary.weekend_orders; lia).
  unfold Summary.weekend_lift. fold W D.
  rewrite (proj2 (Z.gtb_lt D 0) Hpos).
  assert (Hd : (0 < inject_Z D)%Q) by now apply inject_Z_pos.
  set (t := (inject_Z (W - D) / inject_Z D)%Q).
  assert (Ht : (t * inject_Z D == inject_Z (W - D))%Q).
  { unfold t. field. lra. }
  assert (Hlow : (-1 <= t)%Q).
  { unfold t. apply Qle_shift_div_l; [assumption|].
    rewrite inject_Z_sub.
    assert (0 <= inject_Z W)%Q by exact (proj1 (inject_Z_nonneg W) HW).
    lra. }
  split; [lra|]. split; [|split].
  - split.
    + intros Hle. assert (0 <= t)%Q; [|lra].
      unfold t. apply Qle_shift_div_l; [assumption|].
      rewrite Qmult_0_l. apply (proj1 (inject_Z_nonneg (W - D))). lia.
    + intros Hlift. assert (Hnn : (0 <= t)%Q) by lra.
      assert (Hx : (0 <= inject_Z (W - D))%Q).
      { rewrite <- Ht. apply Qmult_le_0_compat; lra. }
      apply (proj2 (inject_Z_nonneg (W - D))) in Hx. lia.
  - intros HW0. assert (t == -1)%Q; [|lra].
    unfold t. rewrite HW0. rewrite Z.sub_0_l, inject_Z_opp.
    field. lra.
  - intros HWD. assert (t == 0)%Q; [|lra].
    unfold t. rewrite HWD, Z.sub_diag. field. lra.
Qed.

(** X21 on the frame with three weekend orders and one weekday order. *)
Lemma weekend_lift_range_witness :
  (-100 <= Summary.weekend_lift Examples.week_frame)%Q
  /\ (0 <= Summary.weekend_lift Examples.week_frame)%Q.
Proof.
  destruct (weekend_lift_range Examples.week_frame eq_refl)
    as (Hlow & Hsign & _).
  split; [exact Hlow|]. apply (proj1 Hsign). discriminate.
Defined.

(* ===================================================================== *)
(** * Telco: further properties of the two stages                         *)
(* ===================================================================== *)

(** The row that engineer_features returns at a position is the row-wise
    image of the row it was given there. *)
Lemma telco_engineer_row h o df frame i r :
  h !! df = Some frame ->
  dtype_is_object (map (fun r => Telco.TotalCharges (Telco.base r)) frame)
    = false ->
  frame !! i = Some r ->
  exists s' out frame',
    Telco.engineer_features df (State h o) = (s', inr out)
    /\ heap s' !! out = Some frame'
    /\ frame' !! i
       = Some (Rowwise.telco_featured (Rowwise.telco_charges_75th frame) r).
Proof.
  intros Hdf Hnum Hi. eexists _, _, _.
  split; [apply (telco_engineer_features_run _ _ _ _ Hdf Hnum)|].
  cbn [heap]. split; [apply lookup_last|].
  now rewrite lookup_map, Hi.
Qed.

Lemma telco_other_points_range row :
  0 <= Rowwise.telco_other_points row <= 7.
Proof.
  unfold Rowwise.telco_other_points.
  destruct (str_is (Telco.Contract row) "Month-to-month");
    destruct (str_is (Telco.Contract row) "One year");
    destruct (leb (Telco.tenure row) (of_Z 12));
    destruct (str_is (Telco.InternetService row) "Fiber optic");
    destruct (str_is (Telco.PaymentMethod row) "Electronic check"); lia.
Qed.

Lemma calculate_risk_score_range charges_75th row :
  0 <= Telco.calculate_risk_score charges_75th row <= 8.
Proof.
  rewrite calculate_risk_score_split.
  pose proof (telco_other_points_range row).
  destruct (gtb _ _); lia.
Qed.

(** The bucket of a score between 0 and 8 under the edges -1, 2, 4, 8. *)
Lemma risk_category_of_score score :
  0 <= score <= 8 ->
  cut1 Telco.risk_bins Telco.risk_labels false (of_Z score)
  = Some (if (score <=? 2)%Z then "Low Risk"%string
          else if (score <=? 4)%Z then "Medium Risk"%string
          else "High Risk"%string).
Proof.
  intros H.
  assert (score = 0 \/ score = 1 \/ score = 2 \/ score = 3 \/ score = 4
          \/ score = 5 \/ score = 6 \/ score = 7 \/ score = 8) as Hcases
    by lia.
  repeat (destruct Hcases as [-> | Hcases]; [reflexivity|]).
  subst. reflexivity.
Qed.

(** X1. Every row gets a Risk_Score between 0 and 8, and a Risk_Category
    that is never missing: "Low Risk" up to 2, "Medium Risk" for 3 and 4,
    "High Risk" from 5 on. *)
Theorem telco_risk_category_total h o df frame i r :
  h !! df = Some frame ->
  dtype_is_object (map (fun r => Telco.TotalCharges (Telco.base r)) frame)
    = false ->
  frame !! i = Some r ->
  exists s' out frame' r' score,
    Telco.engineer_features df (State h o) = (s', inr out)
    /\ heap s' !! out = Some frame'
    /\ frame' !! i = Some r'
    /\ Telco.Risk_Score (Telco.feat r') = Some score
    /\ 0 <= score <= 8
    /\ Telco.Risk_Category (Telco.feat r')
       = Some (Some (if (score <=? 2)%Z then "Low Risk"%string
                     else if (score <=? 4)%Z then "Medium Risk"%string
                     else "High Risk"%string)).
Proof.
  intros Hdf Hnum Hi.
  destruct (telco_engineer_row _ o _ _ _ _ Hdf Hnum Hi)
    as (s' & out & frame' & Hrun & Hout & Hrow).
  eexists s', out, frame', _, _.
  split; [exact Hrun|]. split; [exact Hout|]. split; [exact Hrow|].
  split; [reflexivity|].
  pose proof (calculate_risk_score_range
                (Rowwise.telco_charges_75th frame) (Telco.base r)) as Hrange.
  split; [exact Hrange|].
  cbn [Rowwise.telco_featured Telco.feat Telco.with_feat
       Telco.set_Risk_Category Telco.Risk_Category].
  now rewrite (risk_category_of_score _ Hrange).
Qed.

(** X1 on the four-customer frame, third customer. *)
Lemma telco_risk_category_total_witness :
  exists s' out frame' r' score,
    Telco.engineer_features 0%nat (State [Examples.churn_frame] [])
      = (s', inr out)
    /\ heap s' !! out = Some frame'
    /\ frame' !! 2%nat = Some r'
    /\ Telco.Risk_Score (Telco.feat r') = Some score
    /\ 0 <= score <= 8
    /\ Telco.Risk_Category (Telco.feat r')
       = Some (Some (if (score <=? 2)%Z then "Low Risk"%string
                     else if (score <=? 4)%Z then "Medium Risk"%string
                     else "High Risk"%string)).
Proof.
  apply (telco_risk_category_total [Examples.churn_frame] [] 0%nat
           Examples.churn_frame 2%nat
           (Examples.customer "One year" 24 30 (Val (Fin 720))));
    reflexivity.
Defined.

(** X2. The tenure label of every row is the right-closed bin of its
    tenure: (0, 12] is "New (0-12m)", (12, 24] "Growing (13-24m)",
    (24, 48] "Mature (25-48m)", above 48 "Loyal (48m+)"; a tenure that is
    missing or not above 0 has no label. *)
Theorem telco_tenure_group_bins h o df frame i r :
  h !! df = Some frame ->
  dtype_is_object (map (fun r => Telco.TotalCharges (Telco.base r)) frame)
    = false ->
  frame !! i = Some r ->
  exists s' out frame' r',
    Telco.engineer_features df (State h o) = (s', inr out)
    /\ heap s' !! out = Some frame'
    /\ frame' !! i = Some r'
    /\ Telco.Tenure_Group (Telco.feat r')
       = Some (let t := Telco.tenure (Telco.base r) in
               if isna t || leb t (of_Z 0) then None
               else if leb t (of_Z 12) then Some "New (0-12m)"%string
               else if leb t (of_Z 24) then Some "Growing (13-24m)"%string
               else if leb t (of_Z 48) then Some "Mature (25-48m)"%string
               else Some "Loyal (48m+)"%string).
Proof.
  intros Hdf Hnum Hi.
  destruct (telco_engineer_row _ o _ _ _ _ Hdf Hnum Hi)
    as (s' & out & frame' & Hrun & Hout & Hrow).
  eexists s', out, frame', _.
  split; [exact Hrun|]. split; [exact Hout|]. split; [exact Hrow|].
  cbn [Rowwise.telco_featured Telco.feat Telco.with_feat
       Telco.set_Is_Senior Telco.set_Tenure_Group Telco.set_High_Charges
       Telco.set_Service_Count Telco.set_Monthly_to_Total_Ratio
       Telco.set_Has_Partner_Dependents Telco.set_Internet_Plus_Streaming
       Telco.set_Risk_Score Telco.set_Risk_Category Telco.Tenure_Group].
  now rewrite tenure_group_cases.
Qed.

(** X2 on the four-customer frame, fourth customer (tenure 48). *)
Lemma telco_tenure_group_bins_witness :
  exists s' out frame' r',
    Telco.engineer_features 0%nat (State [Examples.churn_frame] [])
      = (s', inr out)
    /\ heap s' !! out = Some frame'
    /\ frame' !! 3%nat = Some r'
    /\ Telco.Tenure_Group (Telco.feat r')
       = Some (Some "Mature (25-48m)"%string).
Proof.
  apply (telco_tenure_group_bins [Examples.churn_frame] [] 0%nat
           Examples.churn_frame 3%nat
           (Examples.customer "Two year" 48 40 (Val (Fin 1920))));
    reflexivity.
Defined.

(** ** engineer_features before clean_data *)

Lemma as_floats_text col :
  dtype_is_object col = true ->
  as_floats col = inl (TypeError "unsupported operand type(s): 'str'").
Proof.
  unfold dtype_is_object.
  induction col as [|c col IH]; simpl; [discriminate|].
  destruct c as [t|x]; simpl; [reflexivity|].
  intros H. now rewrite (IH H).
Qed.

(** X3. On a frame whose TotalCharges column still holds text,
    engineer_features raises TypeError at the ratio of the charges; it
    has printed nothing, and the frame it was given is unchanged. *)
Theorem telco_engineer_uncleaned_raises h o df frame :
  h !! df = Some frame ->
  dtype_is_object (map (fun r => Telco.TotalCharges (Telco.base r)) frame)
    = true ->
  snd (Telco.engineer_features df (State h o))
    = inl (TypeError "unsupported operand type(s): 'str'")
  /\ stdout (fst (Telco.engineer_features df (State h o))) = o
  /\ heap (fst (Telco.engineer_features df (State h o))) !! df = Some frame.
Proof.
  intros Hdf Htext.
  split; [|split].
  3: now apply (writes_above_kept _ _ _ _ _ _
                  (telco_engineer_writes_above _ _) Hdf).
  all: unfold Telco.engineer_features;
    rewrite run_bind, (run_copy _ _ _ _ Hdf); cbv beta iota;
    do 3 (run_step; telco_norm);
    rewrite ?run_bind, run_lift, cut_checked by reflexivity; cbv beta iota;
    do 2 (run_step; telco_norm); cbv zeta;
    do 5 (run_step; telco_norm);
    rewrite ?run_bind, run_lift, (as_floats_text _ Htext); reflexivity.
Qed.

(** X3 on the raw frame, as the reader delivers it. *)
Lemma telco_engineer_uncleaned_raises_witness :
  snd (Telco.engineer_features 0%nat (State [Examples.raw_frame] []))
    = inl (TypeError "unsupported operand type(s): 'str'")
  /\ stdout (fst (Telco.engineer_features 0%nat
                    (State [Examples.raw_frame] []))) = []
  /\ heap (fst (Telco.engineer_features 0%nat
                  (State [Examples.raw_frame] []))) !! 0%nat
     = Some Examples.raw_frame.
Proof.
  apply (telco_engineer_uncleaned_raises [Examples.raw_frame] [] 0%nat
           Examples.raw_frame); reflexivity.
Defined.

(** ** clean_data, then engineer_features *)

Lemma drop_duplicates_from_incl {A} (eq : A -> A -> bool) seen l x :
  In x (drop_duplicates_from eq seen l) -> In x l.
Proof.
  revert seen. induction l as [|y l IH]; intros seen; simpl; [auto|].
  destruct (existsb (eq y) seen).
  - intros H. right. now apply (IH seen).
  - intros [->|H]; [now left|]. right. now apply (IH (seen ++ [y])).
Qed.

Lemma telco_drop_duplicates_numeric frame :
  dtype_is_object (map (fun r => Telco.TotalCharges (Telco.base r)) frame)
    = false ->
  dtype_is_object
    (map (fun r => Telco.TotalCharges (Telco.base r))
         (Telco.drop_duplicates frame)) = false.
Proof.
  unfold dtype_is_object. intros H.
  apply not_true_iff_false. intros Hex.
  apply existsb_exists in Hex as (c & Hin & Hc).
  apply in_map_iff in Hin as (r & <- & Hin).
  apply drop_duplicates_from_incl in Hin.
  apply not_true_iff_false in H. apply H.
  apply existsb_exists. eexists. split; [|exact Hc].
  apply in_map_iff. eauto.
Qed.

(** Whenever clean_data returns, what it returns is a new object: the
    frame (numeric column) or its parsed and filled form (text column),
    without the duplicates, the TotalCharges column numeric. *)
Lemma telco_clean_data_returns h o df frame s1 out :
  h !! df = Some frame ->
  Telco.clean_data df (State h o) = (s1, inr out) ->
  exists kept,
    (kept = frame \/ kept = Rowwise.telco_filled frame)
    /\ dtype_is_object
         (map (fun r => Telco.TotalCharges (Telco.base r)) kept) = false
    /\ heap s1 = (h ++ [kept]) ++ [Telco.drop_duplicates kept]
    /\ out = length (h ++ [kept]).
Proof.
  intros Hdf Hrun.
  destruct (dtype_is_object
              (map (fun r => Telco.TotalCharges (Telco.base r)) frame))
    eqn:Hdtype.
  - destruct (forallb Rowwise.parses
                (map (fun r => replace_blank
                                 (Telco.TotalCharges (Telco.base r))) frame))
      eqn:Hparse.
    + rewrite (telco_clean_data_text_run _ _ _ _ Hdf Hdtype Hparse) in Hrun.
      inversion Hrun; subst. exists (Rowwise.telco_filled frame).
      split; [now right|]. split; [apply telco_filled_numeric|]. auto.
    + destruct (telco_clean_data_text_raises _ o _ _ Hdf Hdtype Hparse)
        as (t & r & pos & _ & _ & _ & _ & Hraise).
      rewrite Hrun in Hraise. discriminate.
  - rewrite (telco_clean_data_numeric_run _ _ _ _ Hdf Hdtype) in Hrun.
    inversion Hrun; subst. exists frame. auto.
Qed.

(** X4. The two stages compose: whenever clean_data returns, running
    engineer_features on what it returned returns too (no TypeError from
    the charges), with every row of the cleaned frame engineered. *)
Theorem telco_clean_then_engineer h o df frame s1 df_clean :
  h !! df = Some frame ->
  Telco.clean_data df (State h o) = (s1, inr df_clean) ->
  exists cleaned s2 df_features,
    heap s1 !! df_clean = Some cleaned
    /\ Telco.engineer_features df_clean s1 = (s2, inr df_features)
    /\ heap s2 !! df_features
       = Some (map (Rowwise.telco_featured
                      (Rowwise.telco_charges_75th cleaned)) cleaned).
Proof.
  intros Hdf Hrun.
  destruct (telco_clean_data_returns _ _ _ _ _ _ Hdf Hrun)
    as (kept & _ & Hnum & Hheap & ->).
  assert (Hout : heap s1 !! length (h ++ [kept])
                 = Some (Telco.drop_duplicates kept))
    by (rewrite Hheap; apply lookup_last).
  destruct s1 as [h1 o1]. cbn [heap] in *.
  eexists _, _, _. split; [exact Hout|].
  split.
  - apply (telco_engineer_features_run _ _ _ _ Hout).
    now apply telco_drop_duplicates_numeric.
  - cbn [heap]. apply lookup_last.
Qed.

(** X4 on the raw frame. *)
Lemma telco_clean_then_engineer_witness :
  exists cleaned s2 df_features,
    heap (fst (Telco.clean_data 0%nat (State [Examples.raw_frame] [])))
      !! 2%nat = Some cleaned
    /\ Telco.engineer_features 2%nat
         (fst (Telco.clean_data 0%nat (State [Examples.raw_frame] [])))
       = (s2, inr df_features)
    /\ heap s2 !! df_features
       = Some (map (Rowwise.telco_featured
                      (Rowwise.telco_charges_75th cleaned)) cleaned).
Proof.
  apply (telco_clean_then_engineer [Examples.raw_frame] [] 0%nat
           Examples.raw_frame
           (fst (Telco.clean_data 0%nat (State [Examples.raw_frame] [])))
           2%nat); reflexivity.
Defined.

(** X5. A TotalCharges column that arrives numeric is not touched:
    clean_data returns the frame without its duplicate rows, every row
    as it was, so that a missing charge stays missing; the fill with the
    median happens only for a text column. *)
Theorem telco_clean_numeric_column_kept h o df frame :
  h !! df = Some frame ->
  dtype_is_object (map (fun r => Telco.TotalCharges (Telco.base r)) frame)
    = false ->
  exists s' out,
    Telco.clean_data df (State h o) = (s', inr out)
    /\ heap s' !! out = Some (Telco.drop_duplicates frame)
    /\ (forall r, In r (Telco.drop_duplicates frame) -> In r frame)
    /\ (forall r rest, frame = r :: rest ->
          exists rest', Telco.drop_duplicates frame = r :: rest').
Proof.
  intros Hdf Hnum. eexists _, _.
  split; [apply (telco_clean_data_numeric_run _ _ _ _ Hdf Hnum)|].
  cbn [heap]. split; [apply lookup_last|]. split.
  - intros r. apply drop_duplicates_from_incl.
  - intros r rest ->. eexists. reflexivity.
Qed.

(** X5 on a numeric frame whose first customer has no total charge. *)
Lemma telco_clean_numeric_column_kept_witness :
  exists s' out,
    Telco.clean_data 0%nat
      (State [[Examples.customer "Month-to-month" 0 20 (Val NaN);
               Examples.customer "One year" 24 30 (Val (Fin 720))]] [])
    = (s', inr out)
    /\ heap s' !! out
       = Some [Examples.customer "Month-to-month" 0 20 (Val NaN);
               Examples.customer "One year" 24 30 (Val (Fin 720))].
Proof.
  destruct (telco_clean_numeric_column_kept
              [[Examples.customer "Month-to-month" 0 20 (Val NaN);
                Examples.customer "One year" 24 30 (Val (Fin 720))]]
              [] 0%nat
              [Examples.customer "Month-to-month" 0 20 (Val NaN);
               Examples.customer "One year" 24 30 (Val (Fin 720))]
              eq_refl eq_refl) as (s' & out & Hrun & Hout & _).
  exists s', out. split; [exact Hrun | exact Hout].
Defined.

(** ** Duplicate rows *)

Lemma str_same_refl a : str_same a a = true.
Proof. destruct a; simpl; [apply String.eqb_refl | reflexivity]. Qed.

Lemma str_same_sym a b : str_same a b = str_same b a.
Proof. destruct a, b; simpl; auto using String.eqb_sym. Qed.

Lemma pyobj_same_refl a : pyobj_same a a = true.
Proof. destruct a; simpl; [apply String.eqb_refl | apply same_refl]. Qed.

Lemma pyobj_same_sym a b : pyobj_same a b = pyobj_same b a.
Proof.
  destruct a, b; simpl; auto using String.eqb_sym, same_sym.
Qed.

Lemma opt_same_refl {A} (eq : A -> A -> bool) a :
  (forall x, eq x x = true) -> opt_same eq a a = true.
Proof. intros H. destruct a; simpl; auto. Qed.

Lemma opt_same_sym {A} (eq : A -> A -> bool) a b :
  (forall x y, eq x y = eq y x) -> opt_same eq a b = opt_same eq b a.
Proof. intros H. destruct a, b; simpl; auto. Qed.

Lemma telco_row_same_refl r : Telco.row_same r r = true.
Proof.
  unfold Telco.row_same, Telco.customer_same, Telco.features_same.
  rewrite !str_same_refl, !same_refl, pyobj_same_refl.
  rewrite !opt_same_refl;
    auto using String.eqb_refl, str_same_refl, Z.eqb_refl, same_refl.
Qed.

Lemma telco_row_same_sym a b : Telco.row_same a b = Telco.row_same b a.
Proof.
  unfold Telco.row_same, Telco.customer_same, Telco.features_same.
  repeat match goal with
         | |- (_ && _) = (_ && _) => f_equal
         end;
    auto using str_same_sym, same_sym, pyobj_same_sym;
    apply opt_same_sym;
    auto using String.eqb_sym, str_same_sym, Z.eqb_sym, same_sym.
Qed.

(** X6. What clean_data returns is taken from the frame (as it came,
    or parsed and filled when the column was text), holds no two rows
    with the same cells (missing cells counting as the same), and has
    the like of every row of that frame. *)
Theorem telco_clean_no_duplicates h o df frame s1 out :
  h !! df = Some frame ->
  Telco.clean_data df (State h o) = (s1, inr out) ->
  exists kept cleaned,
    (kept = frame \/ kept = Rowwise.telco_filled frame)
    /\ heap s1 !! out = Some cleaned
    /\ unique_by Telco.row_same cleaned = true
    /\ (forall r, In r cleaned -> In r kept)
    /\ (forall r, In r kept -> existsb (Telco.row_same r) cleaned = true).
Proof.
  intros Hdf Hrun.
  destruct (telco_clean_data_returns _ _ _ _ _ _ Hdf Hrun)
    as (kept & Hkept & _ & Hheap & ->).
  exists kept, (Telco.drop_duplicates kept).
  split; [exact Hkept|].
  split; [rewrite Hheap; apply lookup_last|].
  destruct (drop_duplicates_from_spec Telco.row_same telco_row_same_refl
              telco_row_same_sym [] kept) as (Hfrom & Hcover & Huniq).
  split; [exact Huniq|]. split.
  - intros r Hr. now destruct (Hfrom r Hr).
  - intros r Hr. exact (Hcover r Hr).
Qed.

(** X6 on the raw frame with its first customer listed twice. *)
Lemma telco_clean_no_duplicates_witness :
  exists kept cleaned,
    (kept = Examples.raw_frame ++ take 1 Examples.raw_frame
     \/ kept = Rowwise.telco_filled
                 (Examples.raw_frame ++ take 1 Examples.raw_frame))
    /\ heap (fst (Telco.clean_data 0%nat
                    (State [Examples.raw_frame ++ take 1 Examples.raw_frame]
                       []))) !! 2%nat = Some cleaned
    /\ unique_by Telco.row_same cleaned = true
    /\ (forall r, In r cleaned -> In r kept)
    /\ (forall r, In r kept -> existsb (Telco.row_same r) cleaned = true).
Proof.
  apply (telco_clean_no_duplicates
           [Examples.raw_frame ++ take 1 Examples.raw_frame] [] 0%nat
           (Examples.raw_frame ++ take 1 Examples.raw_frame)
           (fst (Telco.clean_data 0%nat
                   (State [Examples.raw_frame ++ take 1 Examples.raw_frame]
                      [])))
           2%nat); reflexivity.
Defined.

(** ** Service count and charge ratio *)

Lemma count_fold {A} (p : A -> bool) (l : list A) (c : Z) :
  fold_left (fun count x => if p x then count + 1 else count) l c
  = c + Z.of_nat (length (List.filter p l)).
Proof.
  revert c. induction l as [|x l IH]; intros c; simpl; [lia|].
  rewrite IH. destruct (p x); simpl; lia.
Qed.

(** X7. Service_Count is the number of the nine service columns whose
    cell is exactly 'Yes' (a cell such as 'No phone service', 'DSL' or a
    missing one does not count), hence between 0 and 9. *)
Theorem telco_service_count h o df frame i r :
  h !! df = Some frame ->
  dtype_is_object (map (fun r => Telco.TotalCharges (Telco.base r)) frame)
    = false ->
  frame !! i = Some r ->
  exists s' out frame' r' count,
    Telco.engineer_features df (State h o) = (s', inr out)
    /\ heap s' !! out = Some frame'
    /\ frame' !! i = Some r'
    /\ Telco.Service_Count (Telco.feat r') = Some count
    /\ count
       = Z.of_nat
           (length
              (List.filter (fun col => str_is (col (Telco.base r)) "Yes")
                 Telco.service_cols))
    /\ 0 <= count <= 9.
Proof.
  intros Hdf Hnum Hi.
  destruct (telco_engineer_row _ o _ _ _ _ Hdf Hnum Hi)
    as (s' & out & frame' & Hrun & Hout & Hrow).
  eexists s', out, frame', _, _.
  split; [exact Hrun|]. split; [exact Hout|]. split; [exact Hrow|].
  split; [reflexivity|].
  assert (Hcount :
    Telco.count_services (Telco.base r)
    = Z.of_nat
        (length (List.filter (fun col => str_is (col (Telco.base r)) "Yes")
                   Telco.service_cols))).
  { unfold Telco.count_services.
    now rewrite (count_fold (fun col => str_is (col (Telco.base r)) "Yes")). }
  split; [exact Hcount|].
  rewrite Hcount.
  pose proof (filter_length_le
                (fun col => str_is (col (Telco.base r)) "Yes")
                Telco.service_cols) as Hle.
  change (length Telco.service_cols) with 9%nat in Hle. lia.
Qed.

(** X7 on the four-customer frame: phone, backup and streaming TV. *)
Lemma telco_service_count_witness :
  exists s' out frame' r',
    Telco.engineer_features 0%nat (State [Examples.churn_frame] [])
      = (s', inr out)
    /\ heap s' !! out = Some frame'
    /\ frame' !! 0%nat = Some r'
    /\ Telco.Service_Count (Telco.feat r') = Some 3.
Proof.
  destruct (telco_service_count [Examples.churn_frame] [] 0%nat
              Examples.churn_frame 0%nat
              (Examples.customer "Month-to-month" 6 100 (Val (Fin 600)))
              eq_refl eq_refl eq_refl)
    as (s' & out & frame' & r' & count & Hrun & Hout & Hrow & Hcount & -> & _).
  exists s', out, frame', r'. auto.
Defined.

(** X8. Monthly_to_Total_Ratio divides by TotalCharges + 1: for a total
    that is not negative the ratio is the finite number
    monthly / (total + 1), also when the total is 0. *)
Theorem telco_ratio_guard h o df frame i r (monthly total : Q) :
  h !! df = Some frame ->
  dtype_is_object (map (fun r => Telco.TotalCharges (Telco.base r)) frame)
    = false ->
  frame !! i = Some r ->
  Telco.MonthlyCharges (Telco.base r) = Fin monthly ->
  Telco.TotalCharges (Telco.base r) = Val (Fin total) ->
  (0 <= total)%Q ->
  exists s' out frame' r',
    Telco.engineer_features df (State h o) = (s', inr out)
    /\ heap s' !! out = Some frame'
    /\ frame' !! i = Some r'
    /\ Telco.Monthly_to_Total_Ratio (Telco.feat r')
       = Some (Fin (monthly / (total + 1))).
Proof.
  intros Hdf Hnum Hi Hmonthly Htotal Hpos.
  destruct (telco_engineer_row _ o _ _ _ _ Hdf Hnum Hi)
    as (s' & out & frame' & Hrun & Hout & Hrow).
  eexists s', out, frame', _.
  split; [exact Hrun|]. split; [exact Hout|]. split; [exact Hrow|].
  cbn [Rowwise.telco_featured Telco.feat Telco.with_feat
       Telco.set_Is_Senior Telco.set_Tenure_Group Telco.set_High_Charges
       Telco.set_Service_Count Telco.set_Monthly_to_Total_Ratio
       Telco.set_Has_Partner_Dependents Telco.set_Internet_Plus_Streaming
       Telco.set_Risk_Score Telco.set_Risk_Category
       Telco.Monthly_to_Total_Ratio].
  rewrite Hmonthly, Htotal. cbn [Rowwise.float_of add of_Z div].
  assert (Hsign : Qsign (total + inject_Z 1) = Gt).
  { unfold Qsign. apply Qgt_alt. unfold inject_Z. lra. }
  now rewrite Hsign.
Qed.

(** X8 on the four-customer frame: a customer with a total of 0. *)
Lemma telco_ratio_guard_witness :
  exists s' out frame' r',
    Telco.engineer_features 0%nat (State [Examples.churn_frame] [])
      = (s', inr out)
    /\ heap s' !! out = Some frame'
    /\ frame' !! 1%nat = Some r'
    /\ Telco.Monthly_to_Total_Ratio (Telco.feat r')
       = Some (Fin (20 / (0 + 1))).
Proof.
  apply (telco_ratio_guard [Examples.churn_frame] [] 0%nat
           Examples.churn_frame 1%nat
           (Examples.customer "Month-to-month" 0 20 (Val (Fin 0))) 20 0);
    try reflexivity.
  discriminate.
Defined.

(* ===================================================================== *)
(** * Airbnb: further properties of the cleaner and the loader            *)
(* ===================================================================== *)

Lemma fillna_notna d x : isna d = false -> isna (fillna d x) = false.
Proof. intros Hd. unfold fillna. destruct x; simpl; auto. Qed.

Lemma fillna_fillna d x : fillna d (fillna d x) = fillna d x.
Proof. unfold fillna. destruct x; simpl; [|reflexivity..]. now destruct d. Qed.

Lemma fillna_id d x : isna x = false -> fillna d x = x.
Proof. unfold fillna. now intros ->. Qed.

(** X9. In what clean_airbnb_data returns no number_of_reviews,
    reviews_per_month or calculated_host_listings_count is missing: a
    missing value became 0, 0 and 1, every other value is as it was. *)
Theorem airbnb_clean_fills h o df frame price_min price_max :
  h !! df = Some frame ->
  exists s' out frame',
    Airbnb.clean_airbnb_data df price_min price_max (State h o)
      = (s', inr out)
    /\ heap s' !! out = Some frame'
    /\ forall r', In r' frame' ->
         exists r,
           In r frame
           /\ Airbnb.number_of_reviews (Airbnb.base r')
              = fillna (of_Z 0) (Airbnb.number_of_reviews (Airbnb.base r))
           /\ Airbnb.reviews_per_month (Airbnb.base r')
              = fillna (of_Z 0) (Airbnb.reviews_per_month (Airbnb.base r))
           /\ Airbnb.calculated_host_listings_count (Airbnb.base r')
              = fillna (of_Z 1)
                  (Airbnb.calculated_host_listings_count (Airbnb.base r))
           /\ isna (Airbnb.number_of_reviews (Airbnb.base r')) = false
           /\ isna (Airbnb.reviews_per_month (Airbnb.base r')) = false
           /\ isna (Airbnb.calculated_host_listings_count (Airbnb.base r'))
              = false.
Proof.
  intros Hdf. eexists _, _, _.
  split; [apply (airbnb_clean_run _ _ _ _ _ _ Hdf)|].
  cbn [heap]. split; [apply lookup_last|].
  intros r' Hin. unfold Rowwise.airbnb_cleaned, Airbnb.dropna_subset in Hin.
  apply in_map_iff in Hin as (r & <- & Hin).
  apply filter_In in Hin as [Hin _]. apply filter_In in Hin as [Hin _].
  exists r. split; [assumption|].
  cbn [Rowwise.airbnb_fill Airbnb.base Airbnb.with_base
       Airbnb.set_number_of_reviews Airbnb.set_reviews_per_month
       Airbnb.set_calculated_host_listings_count
       Airbnb.number_of_reviews Airbnb.reviews_per_month
       Airbnb.calculated_host_listings_count].
  repeat split; now apply fillna_notna.
Qed.

(** X9 on six listings. *)
Lemma airbnb_clean_fills_witness :
  exists s' out frame',
    Airbnb.clean_airbnb_data 0%nat Airbnb.default_price_min
      Airbnb.default_price_max (State [Examples.listings_frame] [])
      = (s', inr out)
    /\ heap s' !! out = Some frame'
    /\ forall r', In r' frame' ->
         isna (Airbnb.reviews_per_month (Airbnb.base r')) = false.
Proof.
  destruct (airbnb_clean_fills [Examples.listings_frame] [] 0%nat
              Examples.listings_frame Airbnb.default_price_min
              Airbnb.default_price_max eq_refl)
    as (s' & out & frame' & Hrun & Hout & Hrows).
  exists s', out, frame'. split; [exact Hrun|]. split; [exact Hout|].
  intros r' Hin. destruct (Hrows r' Hin) as (r & _ & _ & _ & _ & _ & H & _).
  exact H.
Defined.

(** ** Cleaning twice *)

Lemma filter_all {A} (p : A -> bool) (l : list A) :
  (forall x, In x l -> p x = true) -> List.filter p l = l.
Proof.
  induction l as [|x l IH]; simpl; intros H; [reflexivity|].
  rewrite (H x) by now left. rewrite IH; auto.
Qed.

Lemma airbnb_fill_fill r :
  Rowwise.airbnb_fill (Rowwise.airbnb_fill r) = Rowwise.airbnb_fill r.
Proof.
  destruct r as [c f]. unfold Rowwise.airbnb_fill.
  cbn [Airbnb.base Airbnb.feat Airbnb.with_base
       Airbnb.set_number_of_reviews Airbnb.set_reviews_per_month
       Airbnb.set_calculated_host_listings_count
       Airbnb.number_of_reviews Airbnb.reviews_per_month
       Airbnb.calculated_host_listings_count].
  now rewrite !fillna_fillna.
Qed.

Lemma airbnb_cleaned_cleaned price_min price_max frame :
  Rowwise.airbnb_cleaned price_min price_max
    (Rowwise.airbnb_cleaned price_min price_max frame)
  = Rowwise.airbnb_cleaned price_min price_max frame.
Proof.
  unfold Rowwise.airbnb_cleaned at 1.
  rewrite filter_all.
  - unfold Airbnb.dropna_subset. rewrite filter_all.
    + unfold Rowwise.airbnb_cleaned. rewrite map_map.
      apply map_ext. intros r. apply airbnb_fill_fill.
    + intros r Hin.
      destruct (airbnb_cleaned_rows _ _ _ _ Hin) as (Hg & Hr & Hp & _).
      unfold Airbnb.critical_columns. cbn [forallb].
      now rewrite Hg, Hr, Hp.
  - intros r Hin.
    destruct (airbnb_cleaned_rows _ _ _ _ Hin) as (_ & _ & _ & Hlo & Hhi).
    unfold Rowwise.airbnb_price_ok, geb. now rewrite Hlo, Hhi.
Qed.

(** X10. Cleaning is idempotent: clean_airbnb_data run on what it
    returned, with the same bounds, returns a frame with the same rows:
    no row is removed and no cell changed the second time. *)
Theorem airbnb_clean_twice h o df frame price_min price_max :
  h !! df = Some frame ->
  exists s1 out1 once s2 out2,
    Airbnb.clean_airbnb_data df price_min price_max (State h o)
      = (s1, inr out1)
    /\ heap s1 !! out1 = Some once
    /\ Airbnb.clean_airbnb_data out1 price_min price_max s1 = (s2, inr out2)
    /\ heap s2 !! out2 = Some once
    /\ out2 <> out1.
Proof.
  intros Hdf. eexists _, _, _, _, _.
  split; [apply (airbnb_clean_run _ _ _ _ _ _ Hdf)|].
  cbn [heap]. split; [apply lookup_last|].
  split; [apply airbnb_clean_run; apply lookup_last|].
  cbn [heap]. split.
  - rewrite airbnb_cleaned_cleaned. apply lookup_last.
  - rewrite !length_app. cbn [length]. lia.
Qed.

(** X10 on six listings. *)
Lemma airbnb_clean_twice_witness :
  exists s1 out1 once s2 out2,
    Airbnb.clean_airbnb_data 0%nat Airbnb.default_price_min
      Airbnb.default_price_max (State [Examples.listings_frame] [])
      = (s1, inr out1)
    /\ heap s1 !! out1 = Some once
    /\ Airbnb.clean_airbnb_data out1 Airbnb.default_price_min
         Airbnb.default_price_max s1 = (s2, inr out2)
    /\ heap s2 !! out2 = Some once
    /\ out2 <> out1.
Proof.
  apply (airbnb_clean_twice [Examples.listings_frame] [] 0%nat
           Examples.listings_frame); reflexivity.
Defined.

(** ** Bounds that admit no price *)

Lemma leb_leb_not_ltb a b c :
  leb a b = true -> leb b c = true -> ltb c a = false.
Proof.
  destruct a as [| |x|], b as [| |y|], c as [| |z|]; simpl;
    try discriminate; try reflexivity.
  intros Hxy Hyz. apply Qle_bool_iff in Hxy, Hyz. apply Qltb_ge.
  now apply Qle_trans with y.
Qed.

Lemma airbnb_price_never_ok price_min price_max r :
  isna price_min = true \/ isna price_max = true
  \/ ltb price_max price_min = true ->
  Rowwise.airbnb_price_ok price_min price_max r = false.
Proof.
  unfold Rowwise.airbnb_price_ok, geb.
  set (p := Airbnb.price (Airbnb.base r)).
  intros [H | [H | H]].
  - destruct price_min; try discriminate. reflexivity.
  - destruct price_max; try discriminate.
    destruct price_min, p; simpl; auto using andb_false_r.
  - destruct (leb price_min p) eqn:Hlo; [|reflexivity].
    destruct (leb p price_max) eqn:Hhi; [|reflexivity].
    rewrite (leb_leb_not_ltb _ _ _ Hlo Hhi) in H. discriminate.
Qed.

(** X11. Bounds that admit no price are no error: when a bound is NaN,
    or price_max is below price_min, clean_airbnb_data returns a frame
    without rows. *)
Theorem airbnb_clean_empty_range h o df frame price_min price_max :
  h !! df = Some frame ->
  isna price_min = true \/ isna price_max = true
  \/ ltb price_max price_min = true ->
  exists s' out,
    Airbnb.clean_airbnb_data df price_min price_max (State h o)
      = (s', inr out)
    /\ heap s' !! out = Some [].
Proof.
  intros Hdf Hbounds. eexists _, _.
  split; [apply (airbnb_clean_run _ _ _ _ _ _ Hdf)|].
  cbn [heap]. rewrite lookup_last. f_equal.
  unfold Rowwise.airbnb_cleaned.
  replace (List.filter (Rowwise.airbnb_price_ok price_min price_max) frame)
    with (@nil Airbnb.Row); [reflexivity|].
  symmetry. clear Hdf. induction frame as [|r frame IH]; simpl; [reflexivity|].
  now rewrite (airbnb_price_never_ok _ _ r Hbounds).
Qed.

(** X11 with the bounds the wrong way round. *)
Lemma airbnb_clean_empty_range_witness :
  exists s' out,
    Airbnb.clean_airbnb_data 0%nat (of_Z 1000) (of_Z 10)
      (State [Examples.listings_frame] []) = (s', inr out)
    /\ heap s' !! out = Some [].
Proof.
  apply (airbnb_clean_empty_range [Examples.listings_frame] [] 0%nat
           Examples.listings_frame (of_Z 1000) (of_Z 10));
    [reflexivity | right; right; reflexivity].
Defined.

(** ** The loader *)



(** ** Price buckets and revenue *)

Lemma price_category_cases x :
  cut1 Airbnb.price_bins Airbnb.price_labels false x
  = if isna x || leb x (of_Z 0) then None
    else if leb x (of_Z 75) then Some "Budget"%string
    else if leb x (of_Z 150) then Some "Mid-Range"%string
    else if leb x (of_Z 300) then Some "Premium"%string
    else Some "Luxury"%string.
Proof.
  destruct x as [| |q|]; try reflexivity.
  unfold cut1, searchsorted_left, Airbnb.price_bins, of_Z.
  cbn [isna orb andb List.filter ltb leb].
  rewrite !Qltb_negb_le.
  destruct (Qle_bool q (inject_Z 0)) eqn:E0;
    destruct (Qle_bool q (inject_Z 75)) eqn:E75;
    destruct (Qle_bool q (inject_Z 150)) eqn:E150;
    destruct (Qle_bool q (inject_Z 300)) eqn:E300;
    try reflexivity; exfalso; to_Q_order; lra.
Qed.

(** X13. The price bucketing (edges 0, 75, 150, 300, inf) accepts every
    column; a price gets the right-closed bin it lies in, none when it
    is missing or not above 0; a price that passed the default cleaning
    bounds [10, 1000] always gets one of the four labels. *)
Theorem airbnb_price_category_bins (prices : list num) :
  exists categories,
    cut prices Airbnb.price_bins Airbnb.price_labels false = inr categories
    /\ forall i x,
         prices !! i = Some x ->
         categories !! i
         = Some (if isna x || leb x (of_Z 0) then None
                 else if leb x (of_Z 75) then Some "Budget"%string
                 else if leb x (of_Z 150) then Some "Mid-Range"%string
                 else if leb x (of_Z 300) then Some "Premium"%string
                 else Some "Luxury"%string)
         /\ (leb Airbnb.default_price_min x = true ->
             leb x Airbnb.default_price_max = true ->
             exists label,
               categories !! i = Some (Some label)
               /\ In label Airbnb.price_labels).
Proof.
  eexists. split; [apply cut_checked; reflexivity|].
  intros i x Hi. rewrite lookup_map, Hi. cbn [fmap option_fmap option_map].
  rewrite price_category_cases. split; [reflexivity|].
  intros Hlo Hhi.
  assert (Hpos : isna x || leb x (of_Z 0) = false).
  { destruct x as [| |q|]; try discriminate. simpl in *.
    apply Qle_bool_iff in Hlo. apply Qle_bool_gt.
    unfold inject_Z in *. lra. }
  rewrite Hpos.
  destruct (leb x (of_Z 75)); [eexists; split; [reflexivity|simpl; auto]|].
  destruct (leb x (of_Z 150)); [eexists; split; [reflexivity|simpl; auto]|].
  destruct (leb x (of_Z 300)); eexists; (split; [reflexivity|simpl; auto 6]).
Qed.

(** X13 on four prices. *)
Lemma airbnb_price_category_bins_witness :
  exists categories,
    cut [of_Z 10; of_Z 75; of_Z 1000; of_Z 0] Airbnb.price_bins
        Airbnb.price_labels false = inr categories
    /\ (exists label, categories !! 2%nat = Some (Some label)
                      /\ In label Airbnb.price_labels)
    /\ categories !! 3%nat = Some None.
Proof.
  destruct (airbnb_price_category_bins [of_Z 10; of_Z 75; of_Z 1000; of_Z 0])
    as (categories & Hcut & Hrows).
  exists categories. split; [exact Hcut|]. split.
  - apply (proj2 (Hrows 2%nat (of_Z 1000) eq_refl)); reflexivity.
  - exact (proj1 (Hrows 3%nat (of_Z 0) eq_refl)).
Defined.



(** ** The sample *)

Lemma sample_row_critical d n i :
  forallb (fun missing => negb (missing (Airbnb.sample_row d n i)))
    Airbnb.critical_columns = true.
Proof. reflexivity. Qed.

(** X15. create_sample_data builds a new frame of exactly n_samples
    rows; row i (from 0) has id i + 1 and name "Listing i+1", its
    borough, room type and price are present, the price is a whole
    number, and no engineered column is assigned. The cleaner therefore
    removes sample rows for their price only. *)
Theorem airbnb_sample_rows (d : Airbnb.Draws) n_samples h o :
  exists s' out sample,
    Airbnb.create_sample_data d n_samples (State h o) = (s', inr out)
    /\ out = length h
    /\ heap s' !! out = Some sample
    /\ length sample = n_samples
    /\ (forall i, (i < n_samples)%nat ->
          exists r,
            sample !! i = Some r
            /\ Airbnb.id (Airbnb.base r) = of_Z (Z.of_nat i + 1)
            /\ Airbnb.name (Airbnb.base r)
               = Some ("Listing " ++ pretty (i + 1)%nat)%string
            /\ str_isna (Airbnb.neighbourhood_group (Airbnb.base r)) = false
            /\ str_isna (Airbnb.room_type (Airbnb.base r)) = false
            /\ (exists z, Airbnb.price (Airbnb.base r) = of_Z z)
            /\ Airbnb.feat r = Airbnb.no_features)
    /\ (forall price_min price_max,
          Rowwise.airbnb_cleaned price_min price_max sample
          = map Rowwise.airbnb_fill
              (List.filter (Rowwise.airbnb_price_ok price_min price_max)
                 sample)).
Proof.
  eexists _, _, _. split; [reflexivity|]. split; [reflexivity|].
  cbn [heap]. split; [apply lookup_last|].
  split; [now rewrite length_map, length_seq|]. split.
  - intros i Hi. eexists. split.
    + rewrite lookup_map, lookup_seq_lt by assumption. reflexivity.
    + cbn [Airbnb.sample_row Airbnb.base Airbnb.feat Airbnb.id Airbnb.name
           Airbnb.neighbourhood_group Airbnb.room_type Airbnb.price
           str_isna Nat.add].
      repeat split. eexists. reflexivity.
  - intros price_min price_max. unfold Rowwise.airbnb_cleaned. f_equal.
    unfold Airbnb.dropna_subset. apply filter_all.
    intros r Hin. apply filter_In in Hin as [Hin _].
    apply in_map_iff in Hin as (i & <- & _).
    apply sample_row_critical.
Qed.

(** X15 for a sample of three listings. *)
Lemma airbnb_sample_rows_witness :
  exists s' out sample r,
    Airbnb.create_sample_data Examples.constant_draws 3 (State [] [])
      = (s', inr out)
    /\ heap s' !! out = Some sample
    /\ length sample = 3%nat
    /\ sample !! 2%nat = Some r
    /\ Airbnb.id (Airbnb.base r) = of_Z 3
    /\ Airbnb.name (Airbnb.base r) = Some "Listing 3"%string.
Proof.
  destruct (airbnb_sample_rows Examples.constant_draws 3 [] [])
    as (s' & out & sample & Hrun & _ & Hout & Hlen & Hrows & _).
  destruct (Hrows 2%nat) as (r & Hr & Hid & Hname & _); [lia|].
  exists s', out, sample, r. auto 7.
Defined.

(* ===================================================================== *)
(** * Instacart: further properties of the two stages                     *)
(* ===================================================================== *)

(** X16. What clean_data returns is a new frame made of rows of the
    frame it was given, in which product_name, department and aisle are
    present and days_since_prior_order is never missing (0 where it
    was). *)
Theorem instacart_clean_rows h o df frame :
  h !! df = Some frame ->
  exists out cleaned,
    snd (Instacart.clean_data df (State h o)) = inr out
    /\ out <> df
    /\ heap (fst (Instacart.clean_data df (State h o))) !! out = Some cleaned
    /\ forall r', In r' cleaned ->
         str_isna (Instacart.product_name (Instacart.base r')) = false
         /\ str_isna (Instacart.department (Instacart.base r')) = false
         /\ str_isna (Instacart.aisle (Instacart.base r')) = false
         /\ isna (Instacart.days_since_prior_order (Instacart.base r'))
            = false
         /\ exists r, In r frame /\ r' = Rowwise.instacart_days_filled r.
Proof.
  intros Hdf.
  destruct (instacart_clean_run h o df frame Hdf) as [Hheap Hout].
  eexists _, _. split; [exact Hout|].
  split; [apply lookup_lt_Some in Hdf; lia|].
  split.
  { rewrite Hheap.
    rewrite <- (length_insert h df (map Rowwise.instacart_days_filled frame)).
    apply lookup_last. }
  intros r' Hin. unfold Instacart.dropna_subset in Hin.
  apply filter_In in Hin as [Hin Hessential].
  unfold Instacart.essential_columns in Hessential.
  cbn [forallb] in Hessential.
  apply andb_prop in Hessential as [Hname Hessential].
  apply andb_prop in Hessential as [Hdept Hessential].
  apply andb_prop in Hessential as [Haisle _].
  apply negb_true_iff in Hname, Hdept, Haisle.
  apply in_map_iff in Hin as (r & <- & Hin).
  repeat split; try assumption.
  - cbn [Rowwise.instacart_days_filled Instacart.base
         Instacart.set_days_since_prior_order
         Instacart.days_since_prior_order].
    now apply fillna_notna.
  - exists r. auto.
Qed.

(** X16 on three order lines, one without a product name. *)
Lemma instacart_clean_rows_witness :
  exists out cleaned,
    snd (Instacart.clean_data 0%nat (State [Examples.basket_frame] []))
      = inr out
    /\ heap (fst (Instacart.clean_data 0%nat
                    (State [Examples.basket_frame] []))) !! out = Some cleaned
    /\ length cleaned = 2%nat.
Proof.
  destruct (instacart_clean_rows [Examples.basket_frame] [] 0%nat
              Examples.basket_frame eq_refl)
    as (out & cleaned & Hout & _ & Hcleaned & _).
  exists out, cleaned. split; [exact Hout|]. split; [exact Hcleaned|].
  assert (out = 1%nat) as -> by (vm_compute in Hout; congruence).
  vm_compute in Hcleaned. now inversion Hcleaned.
Defined.

(** ** The whole run of engineer_features *)

(** engineer_features assigns three columns in the object it was given,
    builds the merged frame, and then either raises at the period
    bucketing or assigns the periods and returns the merged frame. *)
Lemma instacart_engineer_full h o df frame :
  h !! df = Some frame ->
  Instacart.engineer_features df (State h o)
  = let first := map Rowwise.instacart_first_three frame in
    let keys := map (fun r => Instacart.order_id (Instacart.base r)) frame in
    let merged := map (Rowwise.instacart_merged keys) first in
    match cut_nbins
            (map (fun r => Instacart.order_number (Instacart.base r)) frame)
            4 Instacart.period_labels with
    | inl e =>
        (State (<[df := first]> h ++ [merged])
               (o ++ ["🛠️ Engineering features..."%string]),
         inl e)
    | inr periods =>
        (State (<[df := first]> h
                  ++ [zip_with Instacart.set_time_period periods merged])
               ((o ++ ["🛠️ Engineering features..."%string])
                  ++ ["✅ Feature engineering completed"%string]),
         inr (length h))
    end.
Proof.
  intros Hdf. unfold Instacart.engineer_features.
  rewrite !run_bind, run_print. cbv beta iota.
  rewrite !run_bind, (run_getcol_at _ _ _ _ _ Hdf). cbv beta iota.
  rewrite !run_bind, (run_setcol_at _ _ _ _ _ _ Hdf). cbv beta iota.
  instacart_norm.
  match goal with
  | |- context [<[df := ?y]> h] =>
      pose proof (lookup_assigned _ _ _ y Hdf) as Hdf1
  end.
  rewrite !run_bind, (run_getcol_at _ _ _ _ _ Hdf1). cbv beta iota.
  rewrite !run_bind, (run_setcol_at _ _ _ _ _ _ Hdf1). cbv beta iota.
  rewrite list_insert_insert_eq. instacart_norm.
  match goal with
  | |- context [<[df := ?y]> h] =>
      pose proof (lookup_assigned _ _ _ y Hdf) as Hdf2
  end.
  rewrite !run_bind, (run_getcol_at _ _ _ _ _ Hdf2). cbv beta iota.
  rewrite !run_bind, run_lift, cut_checked by reflexivity. cbv beta iota.
  rewrite !run_bind, (run_setcol_at _ _ _ _ _ _ Hdf2). cbv beta iota.
  rewrite list_insert_insert_eq. instacart_norm.
  match goal with
  | |- context [<[df := ?y]> h] =>
      pose proof (lookup_assigned _ _ _ y Hdf) as Hdf3
  end.
  rewrite !run_bind, (run_getcol_at _ _ _ _ _ Hdf3). cbv beta iota zeta.
  rewrite !run_bind, (run_derive_at _ _ _ _ _ Hdf3). cbv beta iota.
  run_step. rewrite ?map_map, ?zip_with_map_map, ?map_map.
  cbn [Instacart.base Instacart.with_feat Instacart.set_basket_size
       Instacart.set_hour_category Instacart.set_order_dow_name
       Instacart.set_synthetic_date Instacart.order_number].
  rewrite ?run_bind, run_lift.
  destruct (cut_nbins _ _ _) as [e|periods]; cbv beta iota.
  - cbv zeta. unfold Rowwise.instacart_merged. rewrite ?map_map.
    reflexivity.
  - do 2 run_step. rewrite run_ret, length_insert.
    cbv zeta. unfold Rowwise.instacart_merged. rewrite ?map_map.
    reflexivity.
Qed.

(** X17. On a frame without rows engineer_features raises ValueError
    ("Cannot cut empty array") at the period bucketing, after its first
    line only. *)
Theorem instacart_engineer_empty h o df :
  h !! df = Some [] ->
  snd (Instacart.engineer_features df (State h o))
    = inl (ValueError "Cannot cut empty array")
  /\ stdout (fst (Instacart.engineer_features df (State h o)))
     = o ++ ["🛠️ Engineering features..."%string]
  /\ heap (fst (Instacart.engineer_features df (State h o))) !! df = Some [].
Proof.
  intros Hdf. rewrite (instacart_engineer_full _ _ _ _ Hdf).
  cbn. split; [reflexivity|]. split; [reflexivity|].
  now apply (lookup_assigned_grown _ _ _ _ _ Hdf).
Qed.

(** X17 on a heap that holds one empty frame. *)
Lemma instacart_engineer_empty_witness :
  snd (Instacart.engineer_features 0%nat (State [[]] []))
    = inl (ValueError "Cannot cut empty array")
  /\ stdout (fst (Instacart.engineer_features 0%nat (State [[]] [])))
     = [] ++ ["🛠️ Engineering features..."%string]
  /\ heap (fst (Instacart.engineer_features 0%nat (State [[]] []))) !! 0%nat
     = Some [].
Proof. apply (instacart_engineer_empty [[]] [] 0%nat). reflexivity. Defined.

(** ** Hour categories, day names, synthetic dates *)

Lemma Qeq_bool_false_cases a b :
  Qeq_bool a b = false -> (a < b)%Q \/ (b < a)%Q.
Proof.
  intros H. apply Qeq_bool_neq in H.
  destruct (Q_dec a b) as [[Hlt|Hgt]|Heq]; auto. contradiction.
Qed.

Ltac to_Q_facts :=
  repeat match goal with
         | H : Qle_bool _ _ = true |- _ => apply Qle_bool_iff in H
         | H : Qle_bool _ _ = false |- _ => apply Qle_bool_gt in H
         | H : Qeq_bool _ _ = true |- _ => apply Qeq_bool_iff in H
         | H : Qeq_bool _ _ = false |- _ =>
             apply Qeq_bool_false_cases in H; destruct H
         end;
  unfold inject_Z in *.

(** The bucket of an hour under the edges 0, 6, 12, 18, 24 with the
    lowest edge included. *)
Lemma hour_category_cases x :
  cut1 Instacart.hour_bins Instacart.hour_labels true x
  = if isna x || ltb x (of_Z 0) then None
    else if leb x (of_Z 6) then Some "Night"%string
    else if leb x (of_Z 12) then Some "Morning"%string
    else if leb x (of_Z 18) then Some "Afternoon"%string
    else if leb x (of_Z 24) then Some "Evening"%string
    else None.
Proof.
  destruct x as [| |q|]; try reflexivity.
  unfold cut1, searchsorted_left, Instacart.hour_bins, of_Z, nth_num.
  cbn [isna orb andb List.filter ltb leb eqb nth].
  rewrite !Qltb_negb_le.
  destruct (Qeq_bool q (inject_Z 0)) eqn:Ez;
    destruct (Qle_bool (inject_Z 0) q) eqn:Ep;
    destruct (Qle_bool q (inject_Z 0)) eqn:E0;
    destruct (Qle_bool q (inject_Z 6)) eqn:E6;
    destruct (Qle_bool q (inject_Z 12)) eqn:E12;
    destruct (Qle_bool q (inject_Z 18)) eqn:E18;
    destruct (Qle_bool q (inject_Z 24)) eqn:E24;
    try reflexivity; exfalso; to_Q_facts; lra.
Qed.



(** X19. The day names agree with the weekend of the summary: a day of
    the week is mapped to "Sunday" or "Saturday" exactly when the
    summary counts it as weekend (day 0 or 6); a day outside 0..6 or a
    missing one has no name and is a weekday for the summary. *)
Theorem dow_name_weekend (dow : num) :
  (Summary.isin_weekend dow = true <->
   Instacart.map_dict Instacart.dow_names dow = Some "Sunday"%string
   \/ Instacart.map_dict Instacart.dow_names dow = Some "Saturday"%string)
  /\ (Instacart.map_dict Instacart.dow_names dow = None ->
      Summary.isin_weekend dow = false).
Proof.
  unfold Summary.isin_weekend, Instacart.map_dict, Instacart.dow_names.
  destruct dow as [| |q|];
    try (cbn; split; [split; [discriminate | intros [H|H]; discriminate]
                     | reflexivity]).
  unfold of_Z. cbn [List.find fst snd eqb].
  destruct (Qeq_bool q (inject_Z 0)) eqn:E0;
    [cbn; split; [split; auto | discriminate]|].
  destruct (Qeq_bool q (inject_Z 1)) eqn:E1;
    [cbn; destruct (Qeq_bool q (inject_Z 6)) eqn:E6;
     [exfalso; to_Q_facts; lra
     |split; [split; [discriminate | intros [H|H]; discriminate]
             | discriminate]]|].
  destruct (Qeq_bool q (inject_Z 2)) eqn:E2;
    [cbn; destruct (Qeq_bool q (inject_Z 6)) eqn:E6;
     [exfalso; to_Q_facts; lra
     |split; [split; [discriminate | intros [H|H]; discriminate]
             | discriminate]]|].
  destruct (Qeq_bool q (inject_Z 3)) eqn:E3;
    [cbn; destruct (Qeq_bool q (inject_Z 6)) eqn:E6;
     [exfalso; to_Q_facts; lra
     |split; [split; [discriminate | intros [H|H]; discriminate]
             | discriminate]]|].
  destruct (Qeq_bool q (inject_Z 4)) eqn:E4;
    [cbn; destruct (Qeq_bool q (inject_Z 6)) eqn:E6;
     [exfalso; to_Q_facts; lra
     |split; [split; [discriminate | intros [H|H]; discriminate]
             | discriminate]]|].
  destruct (Qeq_bool q (inject_Z 5)) eqn:E5;
    [cbn; destruct (Qeq_bool q (inject_Z 6)) eqn:E6;
     [exfalso; to_Q_facts; lra
     |split; [split; [discriminate | intros [H|H]; discriminate]
             | discriminate]]|].
  destruct (Qeq_bool q (inject_Z 6)) eqn:E6; cbn.
  - split; [split; auto | discriminate].
  - split; [split; [discriminate | intros [H|H]; discriminate]
           | reflexivity].
Qed.

(** X19 for day 6 and for day 7. *)
Lemma dow_name_weekend_witness :
  Summary.isin_weekend (of_Z 6) = true
  /\ Summary.isin_weekend (of_Z 7) = false.
Proof.
  split.
  - apply (proj1 (dow_name_weekend (of_Z 6))). right. reflexivity.
  - apply (proj2 (dow_name_weekend (of_Z 7))). reflexivity.
Defined.




(* ===================================================================== *)
(** * Instacart: the period bucketing and the basket sizes                *)
(* ===================================================================== *)

(** ** Sorting, minimum and maximum *)






Abbreviation ascending := (StronglySorted (fun a b => leb a b = true)).







(** ** Five increasing edges *)




(** ** Four equal-width bins over the range of the data *)





Lemma lookup_In {A} (l : list A) i x : l !! i = Some x -> In x l.
Proof.
  revert i. induction l as [|y l IH]; intros [|i]; simpl;
    try discriminate.
  - intros [= ->]. now left.
  - intros H. right. eauto.
Qed.





(** ** The basket sizes *)

Lemma eqb_sym a b : eqb a b = eqb b a.
Proof.
  destruct a as [| |x|], b as [| |y|]; try reflexivity. simpl.
  destruct (Qeq_bool x y) eqn:E, (Qeq_bool y x) eqn:E'; try reflexivity.
  - apply Qeq_bool_iff in E. symmetry in E. apply Qeq_bool_iff in E.
    congruence.
  - apply Qeq_bool_iff in E'. symmetry in E'. apply Qeq_bool_iff in E'.
    congruence.
Qed.

Lemma eqb_trans a b c : eqb a b = true -> eqb b c = true -> eqb a c = true.
Proof.
  destruct a as [| |x|], b as [| |y|], c as [| |z|]; simpl;
    try discriminate; try reflexivity.
  intros Hxy Hyz. apply Qeq_bool_iff in Hxy, Hyz. apply Qeq_bool_iff.
  now rewrite Hxy.
Qed.

Lemma eqb_notna_refl a : isna a = false -> eqb a a = true.
Proof.
  destruct a as [| |x|]; simpl; try discriminate; try reflexivity.
  intros _. now apply Qeq_bool_iff.
Qed.

Lemma same_notna a b : isna a = false -> same a b = eqb a b.
Proof. destruct a, b; try reflexivity; discriminate. Qed.

(** Two keys that are equal are carried by the same rows. *)
Lemma filter_eqb_ext k k' keys :
  eqb k k' = true -> List.filter (eqb k') keys = List.filter (eqb k) keys.
Proof.
  intros H. apply filter_ext. intros y.
  destruct (eqb k y) eqn:E.
  - apply eqb_trans with k; [|assumption]. now rewrite eqb_sym.
  - apply not_true_iff_false. intros E'. apply not_true_iff_false in E.
    apply E. now apply eqb_trans with k'.
Qed.

Lemma find_groupby k (count : num -> Z) reps :
  existsb (eqb k) reps = true ->
  exists k',
    List.find (fun kv => eqb k (fst kv)) (map (fun k' => (k', count k')) reps)
    = Some (k', count k')
    /\ eqb k k' = true.
Proof.
  induction reps as [|y reps IH]; simpl; [discriminate|].
  destruct (eqb k y) eqn:E; [eauto|]. simpl. exact IH.
Qed.

Lemma existsb_pointwise {A} (f g : A -> bool) l :
  (forall x, f x = g x) -> existsb f l = existsb g l.
Proof.
  intros H. induction l as [|x l IH]; simpl; [reflexivity|].
  now rewrite H, IH.
Qed.

Lemma find_missing_key (table : list (num * Z)) :
  List.find (fun kv => eqb NaN (fst kv)) table = None.
Proof. induction table as [|kv table IH]; simpl; auto. Qed.

(** The size merged into a row: the number of rows that carry its key,
    missing when the key is missing. *)
Lemma merge_left_groupby keys k :
  In k keys ->
  Instacart.merge_left (Instacart.groupby_size keys) k
  = if isna k then NaN
    else of_Z (Z.of_nat (length (List.filter (eqb k) keys))).
Proof.
  intros Hk. unfold Instacart.merge_left.
  destruct (isna k) eqn:Hna.
  - destruct k; try discriminate. now rewrite find_missing_key.
  - unfold Instacart.groupby_size.
    destruct (drop_duplicates_from_spec same same_refl same_sym []
                (dropna keys)) as (_ & Hcover & _).
    specialize (Hcover k). simpl in Hcover.
    assert (Hex : existsb (eqb k) (drop_duplicates_by same (dropna keys))
                  = true).
    { rewrite <- Hcover.
      - apply existsb_pointwise. intros y. symmetry. now apply same_notna.
      - apply filter_In. split; [assumption|]. unfold notna.
        now rewrite Hna. }
    destruct (find_groupby k
                (fun k' => Z.of_nat (length (List.filter (eqb k') keys)))
                _ Hex) as (k' & -> & Hkk').
    cbn [snd]. now rewrite (filter_eqb_ext k k').
Qed.

Lemma cut_nbins_inr x nbins labels periods :
  cut_nbins x nbins labels = inr periods ->
  exists bins, periods = map (cut1 bins labels false) x.
Proof.
  unfold cut_nbins, cut.
  destruct (nbins_to_bins x nbins) as [e|bins]; [discriminate|].
  destruct (cut_check bins labels); [discriminate|].
  intros [= <-]. eauto.
Qed.

Lemma filter_map_length {A B} (p : B -> bool) (f : A -> B) l :
  length (List.filter p (map f l))
  = length (List.filter (fun x => p (f x)) l).
Proof.
  induction l as [|x l IH]; simpl; [reflexivity|].
  destruct (p (f x)); simpl; now rewrite IH.
Qed.

(** X23. In the frame engineer_features returns, the basket size of a
    row is the number of rows of the given frame that have its order
    id, at least 1; a row without an order id has no basket size. *)
Theorem instacart_basket_size h o df frame s' out :
  h !! df = Some frame ->
  Instacart.engineer_features df (State h o) = (s', inr out) ->
  exists frame',
    heap s' !! out = Some frame'
    /\ length frame' = length frame
    /\ forall i r, frame !! i = Some r ->
         exists r',
           frame' !! i = Some r'
           /\ Instacart.base r' = Instacart.base r
           /\ let id := Instacart.order_id (Instacart.base r) in
              let lines :=
                length
                  (List.filter
                     (fun r0 => eqb id (Instacart.order_id (Instacart.base r0)))
                     frame) in
              Instacart.basket_size (Instacart.feat r')
              = Some (if isna id then NaN else of_Z (Z.of_nat lines))
              /\ (isna id = false -> (1 <= lines <= length frame)%nat).
Proof.
  intros Hdf Hrun.
  rewrite (instacart_engineer_full h o df frame Hdf) in Hrun.
  cbv zeta in Hrun.
  destruct (cut_nbins _ _ _) as [e|periods] eqn:Hcut; [discriminate|].
  apply cut_nbins_inr in Hcut as [bins ->].
  rewrite !map_map, zip_with_map_map in Hrun.
  injection Hrun as <- <-.
  eexists. split.
  { cbn [heap].
    rewrite <- (length_insert h df (map Rowwise.instacart_first_three frame)).
    apply lookup_last. }
  split; [now rewrite length_map|].
  intros i r Hi. eexists. split; [now rewrite lookup_map, Hi|].
  split; [reflexivity|].
  pose proof (lookup_In _ _ _ Hi) as Hr.
  cbn [Rowwise.instacart_merged Rowwise.instacart_first_three
       Instacart.feat Instacart.with_feat Instacart.base
       Instacart.set_time_period Instacart.set_basket_size
       Instacart.set_hour_category Instacart.set_order_dow_name
       Instacart.set_synthetic_date Instacart.basket_size].
  cbv zeta. split.
  - rewrite merge_left_groupby by (apply in_map_iff; eauto).
    now rewrite filter_map_length.
  - intros Hna. split; [|apply filter_length_le].
    assert (Hin : In r (List.filter
                     (fun r0 => eqb (Instacart.order_id (Instacart.base r))
                                    (Instacart.order_id (Instacart.base r0)))
                     frame)).
    { apply filter_In. split; [assumption|]. now apply eqb_notna_refl. }
    destruct (List.filter _ frame); [destruct Hin | simpl; lia].
Qed.

(** X23 on two lines of one order and one line of another: the first
    row has basket size 2. *)
Lemma instacart_basket_size_witness :
  exists frame' r',
    heap (fst (Instacart.engineer_features 0%nat
                 (State [Examples.two_order_frame] []))) !! 1%nat
      = Some frame'
    /\ frame' !! 0%nat = Some r'
    /\ Instacart.basket_size (Instacart.feat r') = Some (of_Z 2).
Proof.
  destruct (instacart_basket_size [Examples.two_order_frame] [] 0%nat
              Examples.two_order_frame
              (fst (Instacart.engineer_features 0%nat
                      (State [Examples.two_order_frame] [])))
              1%nat eq_refl)
    as (frame' & Hheap & _ & Hrows).
  - vm_compute. reflexivity.
  - destruct (Hrows 0%nat
                (Examples.order_line 7 (Some "Soda"%string) 2 8 1 NaN)
                eq_refl) as (r' & Hrow & _ & Hsize & _).
    exists frame', r'. auto.
Defined.

(* ===================================================================== *)
(** * Instacart: segments, hours of the scripts, snacks and the loader    *)
(* ===================================================================== *)

(** The bucket of an order number under the edges 0, 2, 5, 10, inf. *)
Lemma customer_segment_cases x :
  cut1 Master.segment_bins Master.segment_labels false x
  = if isna x || leb x (of_Z 0) then None
    else if leb x (of_Z 2) then Some "New"%string
    else if leb x (of_Z 5) then Some "Occasional"%string
    else if leb x (of_Z 10) then Some "Regular"%string
    else Some "VIP"%string.
Proof.
  destruct x as [| |q|]; try reflexivity.
  unfold cut1, searchsorted_left, Master.segment_bins, of_Z.
  cbn [isna orb andb List.filter ltb leb].
  rewrite !Qltb_negb_le.
  destruct (Qle_bool q (inject_Z 0)) eqn:E0;
    destruct (Qle_bool q (inject_Z 2)) eqn:E2;
    destruct (Qle_bool q (inject_Z 5)) eqn:E5;
    destruct (Qle_bool q (inject_Z 10)) eqn:E10;
    try reflexivity; exfalso; to_Q_order; lra.
Qed.

(** X24. The customer segmentation of the scripts never raises, and
    segments every order number above 0: up to 2 "New", up to 5
    "Occasional", up to 10 "Regular", above 10 "VIP"; an order number
    that is missing or not above 0 gets no segment. *)
Theorem master_customer_segment (numbers : list num) :
  exists segments,
    Master.customer_segment numbers = inr segments
    /\ length segments = length numbers
    /\ forall i x, numbers !! i = Some x ->
         segments !! i
         = Some (if isna x || leb x (of_Z 0) then None
                 else if leb x (of_Z 2) then Some "New"%string
                 else if leb x (of_Z 5) then Some "Occasional"%string
                 else if leb x (of_Z 10) then Some "Regular"%string
                 else Some "VIP"%string).
Proof.
  eexists. split; [|split].
  - unfold Master.customer_segment. now apply cut_checked.
  - now rewrite length_map.
  - intros i x Hi. rewrite lookup_map, Hi. cbn [fmap option_fmap option_map].
    now rewrite customer_segment_cases.
Qed.

(** The bucket of an hour under the edges 0, 9, 14, 19, 24 with the
    lowest edge included. *)
Lemma master_hour_category_cases x :
  cut1 Master.hour_bins Master.hour_labels true x
  = if isna x || ltb x (of_Z 0) then None
    else if leb x (of_Z 9) then Some "Morning"%string
    else if leb x (of_Z 14) then Some "Midday"%string
    else if leb x (of_Z 19) then Some "Evening"%string
    else if leb x (of_Z 24) then Some "Night"%string
    else None.
Proof.
  destruct x as [| |q|]; try reflexivity.
  unfold cut1, searchsorted_left, Master.hour_bins, of_Z, nth_num.
  cbn [isna orb andb List.filter ltb leb eqb nth].
  rewrite !Qltb_negb_le.
  destruct (Qeq_bool q (inject_Z 0)) eqn:Ez;
    destruct (Qle_bool (inject_Z 0) q) eqn:Ep;
    destruct (Qle_bool q (inject_Z 0)) eqn:E0;
    destruct (Qle_bool q (inject_Z 9)) eqn:E9;
    destruct (Qle_bool q (inject_Z 14)) eqn:E14;
    destruct (Qle_bool q (inject_Z 19)) eqn:E19;
    destruct (Qle_bool q (inject_Z 24)) eqn:E24;
    try reflexivity; exfalso; to_Q_facts; lra.
Qed.

(** X25. The hour categories of the preprocessing module and of the
    two scripts differ: for an hour from 0 to 24 they give the same
    label only in (6, 9] (both "Morning") and in (18, 19] (both
    "Evening"); so an order at 3 is "Night" for the one and "Morning"
    for the other. *)
Theorem hour_categories_of_module_and_scripts (hour : Q) :
  (0 <= hour <= 24)%Q ->
  (cut1 Instacart.hour_bins Instacart.hour_labels true (Fin hour)
   = cut1 Master.hour_bins Master.hour_labels true (Fin hour)
   <-> (6 < hour <= 9)%Q \/ (18 < hour <= 19)%Q)
  /\ cut1 Instacart.hour_bins Instacart.hour_labels true (Fin hour) <> None
  /\ cut1 Master.hour_bins Master.hour_labels true (Fin hour) <> None.
Proof.
  intros [Hlo Hhi].
  rewrite hour_category_cases, master_hour_category_cases.
  unfold of_Z. cbn [isna orb ltb leb].
  rewrite !Qltb_negb_le.
  destruct (Qle_bool (inject_Z 0) hour) eqn:Ep;
    destruct (Qle_bool hour (inject_Z 6)) eqn:E6;
    destruct (Qle_bool hour (inject_Z 9)) eqn:E9;
    destruct (Qle_bool hour (inject_Z 12)) eqn:E12;
    destruct (Qle_bool hour (inject_Z 14)) eqn:E14;
    destruct (Qle_bool hour (inject_Z 18)) eqn:E18;
    destruct (Qle_bool hour (inject_Z 19)) eqn:E19;
    destruct (Qle_bool hour (inject_Z 24)) eqn:E24;
    to_Q_order; cbn [negb];
    try (exfalso; lra);
    (split; [split; [intros H; try discriminate H; lra
                    |intros [H|H]; try reflexivity; exfalso; lra]
            |split; discriminate]).
Qed.

(** X25 at 3 o'clock: "Night" in the module, "Morning" in the scripts. *)
Lemma hour_categories_of_module_and_scripts_witness :
  cut1 Instacart.hour_bins Instacart.hour_labels true (Fin 3)
  <> cut1 Master.hour_bins Master.hour_labels true (Fin 3).
Proof.
  destruct (hour_categories_of_module_and_scripts 3) as [[H _] _].
  - split; discriminate.
  - intros E. destruct (H E) as [[H1 _]|[H1 _]]; discriminate H1.
Defined.

(** ** create_snacks_dataset *)


Lemma lower_ascii_twice c :
  Instacart.lower_ascii (Instacart.lower_ascii c) = Instacart.lower_ascii c.
Proof.
  destruct c as [[] [] [] [] [] [] [] []]; reflexivity.
Qed.

Lemma lower_twice s : Instacart.lower (Instacart.lower s) = Instacart.lower s.
Proof.
  induction s as [|c s IH]; simpl; [reflexivity|].
  now rewrite lower_ascii_twice, IH.
Qed.



(** ** load_instacart_data and main *)

Lemma reading_returns {T} (w : Instacart.World T) datasets key file table next :
  Instacart.read_csv w (Instacart.data_path ++ file)%string = inr table ->
  Instacart.reading w datasets key file next
  = next (Instacart.setitem datasets key table).
Proof. intros H. unfold Instacart.reading. now rewrite H. Qed.

Lemma reading_raises {T} (w : Instacart.World T) datasets key file e next :
  Instacart.read_csv w (Instacart.data_path ++ file)%string = inl e ->
  Instacart.reading w datasets key file next = (datasets, Some e).
Proof. intros H. unfold Instacart.reading. now rewrite H. Qed.

Ltac load_step :=
  first [ erewrite reading_returns by eassumption
        | erewrite reading_raises by eassumption ];
  cbn [Instacart.setitem String.eqb Ascii.eqb Bool.eqb].

(** X27. Without orders.csv the loader reports the missing file and
    returns an empty dict, and main returns at once: no stage runs, no
    object is made, nothing is raised. *)
Theorem instacart_main_without_orders_file {T} (w : Instacart.World T)
    h o path :
  Instacart.read_csv w "../data/raw/orders.csv"
    = inl (FileNotFoundError path) ->
  Instacart.load_instacart_data w (State h o)
    = (State h (o ++ [("❌ Error loading data: "
                      ++ Instacart.file_not_found_message path)%string;
                     "📥 Please download the Instacart dataset from Kaggle"
                       %string]),
       inr [])
  /\ Instacart.main w (State h o)
     = (State h (o ++ ["🚀 Starting Instacart data preprocessing pipeline..."
                         %string;
                       ("❌ Error loading data: "
                        ++ Instacart.file_not_found_message path)%string;
                       "📥 Please download the Instacart dataset from Kaggle"
                         %string]),
        inr tt).
Proof.
  intros Horders.
  assert (Hload : forall o',
            Instacart.load_instacart_data w (State h o')
            = (State h (o' ++ [("❌ Error loading data: "
                      ++ Instacart.file_not_found_message path)%string;
                     "📥 Please download the Instacart dataset from Kaggle"
                       %string]),
               inr [])).
  { intros o'. unfold Instacart.load_instacart_data. cbv zeta.
    load_step.
    rewrite !run_bind, run_print. cbv beta iota.
    rewrite !run_bind, run_print. cbv beta iota.
    rewrite run_ret. now rewrite <- app_assoc. }
  split; [apply Hload|].
  unfold Instacart.main.
  rewrite !run_bind, run_print. cbv beta iota.
  rewrite !run_bind, Hload. cbv beta iota.
  rewrite run_ret. now rewrite <- app_assoc.
Qed.

(** X27 in a world without any file. *)
Lemma instacart_main_without_orders_file_witness :
  Instacart.main Examples.no_instacart_files (State [] [])
  = (State []
       ["🚀 Starting Instacart data preprocessing pipeline..."%string;
        ("❌ Error loading data: "
         ++ Instacart.file_not_found_message "../data/raw/orders.csv")%string;
        "📥 Please download the Instacart dataset from Kaggle"%string],
     inr tt).
Proof.
  exact (proj2 (instacart_main_without_orders_file
                  Examples.no_instacart_files [] []
                  "../data/raw/orders.csv"%string eq_refl)).
Defined.

(** What the loader does when orders.csv is read and a later file is
    missing: it reports the file and returns the dict as far as it was
    filled, which is not empty. *)
Lemma load_partial {T} (w : Instacart.World T) h o datasets path :
  (let datasets := [] in
   Instacart.reading w datasets "orders" "orders.csv" (fun datasets =>
   Instacart.reading w datasets "products" "products.csv" (fun datasets =>
   Instacart.reading w datasets "order_products_prior"
     "order_products__prior.csv" (fun datasets =>
   Instacart.reading w datasets "departments" "departments.csv"
     (fun datasets =>
   Instacart.reading w datasets "aisles" "aisles.csv" (fun datasets =>
   (datasets, None))))))) = (datasets, Some (FileNotFoundError path)) ->
  Instacart.load_instacart_data w (State h o)
  = (State h ((o ++ [("❌ Error loading data: "
                      ++ Instacart.file_not_found_message path)%string])
                ++ ["📥 Please download the Instacart dataset from Kaggle"
                      %string]),
     inr datasets).
Proof.
  intros H. unfold Instacart.load_instacart_data. cbv zeta in *.
  rewrite H.
  rewrite !run_bind, run_print. cbv beta iota.
  rewrite !run_bind, run_print. cbv beta iota.
  now rewrite run_ret.
Qed.

(** X28. When orders.csv is read and a later file is missing, the dict
    of the loader is not empty, main goes on to create_master_dataset,
    and that raises KeyError for the first dataset it looks up that was
    not loaded: 'order_products_prior' when products.csv or
    order_products__prior.csv is the missing file, 'departments' or
    'aisles' when that file is missing and the joins before the lookup
    returned.  No master dataset is made and the closing message is not
    printed. *)
Theorem instacart_main_partial_load {T} (w : Instacart.World T)
    h o orders path key :
  Instacart.read_csv w "../data/raw/orders.csv" = inr orders ->
  (Instacart.read_csv w "../data/raw/products.csv"
     = inl (FileNotFoundError path)
   /\ key = "order_products_prior"%string)
  \/ (exists products,
        Instacart.read_csv w "../data/raw/products.csv" = inr products
        /\ Instacart.read_csv w "../data/raw/order_products__prior.csv"
           = inl (FileNotFoundError path)
        /\ key = "order_products_prior"%string)
  \/ (exists products prior joined,
        Instacart.read_csv w "../data/raw/products.csv" = inr products
        /\ Instacart.read_csv w "../data/raw/order_products__prior.csv"
           = inr prior
        /\ Instacart.read_csv w "../data/raw/departments.csv"
           = inl (FileNotFoundError path)
        /\ Instacart.merge w prior products "product_id" = inr joined
        /\ key = "departments"%string)
  \/ (exists products prior departments joined joined',
        Instacart.read_csv w "../data/raw/products.csv" = inr products
        /\ Instacart.read_csv w "../data/raw/order_products__prior.csv"
           = inr prior
        /\ Instacart.read_csv w "../data/raw/departments.csv"
           = inr departments
        /\ Instacart.read_csv w "../data/raw/aisles.csv"
           = inl (FileNotFoundError path)
        /\ Instacart.merge w prior products "product_id" = inr joined
        /\ Instacart.merge w joined departments "department_id"
           = inr joined'
        /\ key = "aisles"%string) ->
  Instacart.main w (State h o)
  = (State h (o ++ ["🚀 Starting Instacart data preprocessing pipeline..."
                      %string;
                    ("❌ Error loading data: "
                     ++ Instacart.file_not_found_message path)%string;
                    "📥 Please download the Instacart dataset from Kaggle"
                      %string;
                    "🔗 Creating master dataset..."%string]),
     inl (KeyError key)).
Proof.
  intros Horders Hmissing.
  unfold Instacart.main.
  rewrite !run_bind, run_print. cbv beta iota.
  destruct Hmissing
    as [[Hproducts ->]
       |[(products & Hproducts & Hprior & ->)
        |[(products & prior & joined & Hproducts & Hprior & Hdepartments
           & Hjoin & ->)
         |(products & prior & departments & joined & joined' & Hproducts
           & Hprior & Hdepartments & Haisles & Hjoin & Hjoin' & ->)]]].
  - rewrite !run_bind, (load_partial w _ _ [("orders"%string, orders)] path)
      by (cbv zeta; do 2 load_step; reflexivity).
    cbv beta iota. unfold Instacart.create_master_dataset.
    rewrite !run_bind, run_print. cbv beta iota.
    rewrite !run_bind, run_lift. cbn [Instacart.getitem String.eqb Ascii.eqb Bool.eqb].
    now rewrite <- !app_assoc.
  - rewrite !run_bind,
      (load_partial w _ _ [("orders"%string, orders);
                           ("products"%string, products)] path)
      by (cbv zeta; do 3 load_step; reflexivity).
    cbv beta iota. unfold Instacart.create_master_dataset.
    rewrite !run_bind, run_print. cbv beta iota.
    rewrite !run_bind, run_lift. cbn [Instacart.getitem String.eqb Ascii.eqb Bool.eqb].
    now rewrite <- !app_assoc.
  - rewrite !run_bind,
      (load_partial w _ _ [("orders"%string, orders);
                           ("products"%string, products);
                           ("order_products_prior"%string, prior)] path)
      by (cbv zeta; do 4 load_step; reflexivity).
    cbv beta iota. unfold Instacart.create_master_dataset.
    rewrite !run_bind, run_print. cbv beta iota.
    rewrite !run_bind, run_lift. cbn [Instacart.getitem String.eqb Ascii.eqb Bool.eqb].
    rewrite !run_bind, run_lift. cbn [Instacart.getitem String.eqb Ascii.eqb Bool.eqb].
    rewrite !run_bind, run_lift, Hjoin. cbv beta iota.
    rewrite !run_bind, run_lift. cbn [Instacart.getitem String.eqb Ascii.eqb Bool.eqb].
    now rewrite <- !app_assoc.
  - rewrite !run_bind,
      (load_partial w _ _ [("orders"%string, orders);
                           ("products"%string, products);
                           ("order_products_prior"%string, prior);
                           ("departments"%string, departments)] path)
      by (cbv zeta; do 5 load_step; reflexivity).
    cbv beta iota. unfold Instacart.create_master_dataset.
    rewrite !run_bind, run_print. cbv beta iota.
    rewrite !run_bind, run_lift. cbn [Instacart.getitem String.eqb Ascii.eqb Bool.eqb].
    rewrite !run_bind, run_lift. cbn [Instacart.getitem String.eqb Ascii.eqb Bool.eqb].
    rewrite !run_bind, run_lift, Hjoin. cbv beta iota.
    rewrite !run_bind, run_lift. cbn [Instacart.getitem String.eqb Ascii.eqb Bool.eqb].
    rewrite !run_bind, run_lift, Hjoin'. cbv beta iota.
    rewrite !run_bind, run_lift. cbn [Instacart.getitem String.eqb Ascii.eqb Bool.eqb].
    now rewrite <- !app_assoc.
Qed.

(** X28 in a world that has orders.csv only. *)
Lemma instacart_main_partial_load_witness :
  Instacart.main Examples.orders_file_only (State [] [])
  = (State []
       ["🚀 Starting Instacart data preprocessing pipeline..."%string;
        ("❌ Error loading data: "
         ++ Instacart.file_not_found_message "../data/raw/products.csv")%string;
        "📥 Please download the Instacart dataset from Kaggle"%string;
        "🔗 Creating master dataset..."%string],
     inl (KeyError "order_products_prior")).
Proof.
  apply (instacart_main_partial_load Examples.orders_file_only [] [] tt
           "../data/raw/products.csv"%string).
  - reflexivity.
  - left. split; reflexivity.
Defined.

(** ** The whole pipeline *)








